(** * Barcode recognition core: normalization, reconciliation, cascade

    A shallow embedding of the pure and the control-flow parts of
    [confluence_uploader]: the candidate normalizer
    ([caper_normalizer.py]), the per-image reconciliation
    ([processor.py]) and the transform cascade with its coordinate
    remapping ([barcode_parser.py]).

    Conventions.
    - Python [str] is [string]; the texts handled here are ASCII, on which
      [str.isdigit] is the test for '0'..'9'.
    - Python [int] is [Z]; Python [float] is the kernel's binary64
      [PrimFloat.float], with the operations of IEEE 754.
    - Python sets that grow at run time are [gset]s; literal sets used only
      for membership tests are boolean tests.
    - External collaborators (the symbol decoder, PIL's transforms, OCR and
      web lookups) are section variables. The decoder may raise, and so may
      PIL's [resize] (on a size with a side below one pixel); PIL's other
      transforms are total functions on images.
    - Statements of [detect_barcodes] are functions on the log of decoder
      calls, so that what was called, and in which order, can be stated.

    The file has three parts: the model of the code, the vocabulary of the
    statements, and the properties with their proofs. *)

From Stdlib Require Import ZArith String Ascii List Lia Bool Sorted.
From Stdlib Require Import Floats.
From stdpp Require Import base option list strings pretty gmap.

Local Open Scope string_scope.
Local Open Scope Z_scope.

#[local] Set Warnings "-inexact-float".

(* ===================================================================== *)
(** ** Python strings *)
(* ===================================================================== *)

Module PyStr.

(** [ch.isdigit()] on ASCII text. *)
Definition isdigit_char (c : ascii) : bool :=
  let n := nat_of_ascii c in ((48 <=? n)%nat && (n <=? 57)%nat)%bool.

(** [int(ch)] for a digit character (0 on anything else; callers test
    [isdigit] first). *)
Definition digit_val (c : ascii) : Z := Z.of_nat (nat_of_ascii c) - 48.

(** [str(d)] for [0 <= d <= 9]. *)
Definition digit_str (d : Z) : string :=
  String (ascii_of_nat (Z.to_nat (d + 48))) EmptyString.

Fixpoint filter_chars (p : ascii -> bool) (s : string) : string :=
  match s with
  | EmptyString => EmptyString
  | String c r => if p c then String c (filter_chars p r) else filter_chars p r
  end.

Fixpoint all_chars (p : ascii -> bool) (s : string) : bool :=
  match s with
  | EmptyString => true
  | String c r => p c && all_chars p r
  end.

(** [any(p(ch) for ch in s)]. *)
Fixpoint any_chars (p : ascii -> bool) (s : string) : bool :=
  match s with
  | EmptyString => false
  | String c r => p c || any_chars p r
  end.

Definition len (s : string) : Z := Z.of_nat (String.length s).

(** Truthiness of a string: [if s:]. *)
Definition nonempty (s : string) : bool :=
  match s with EmptyString => false | _ => true end.

(** [s.isdigit()]: non-empty and every character a digit. *)
Definition isdigit (s : string) : bool := nonempty s && all_chars isdigit_char s.

Fixpoint take (n : nat) (s : string) : string :=
  match n, s with
  | S k, String c r => String c (take k r)
  | _, _ => EmptyString
  end.

Fixpoint drop (n : nat) (s : string) : string :=
  match n, s with
  | S k, String _ r => drop k r
  | _, _ => s
  end.

(** Index normalisation of a slice bound: negative counts from the end,
    then clamped to [0, len]. *)
Definition clamp (n : Z) (i : Z) : nat :=
  let j := if i <? 0 then i + n else i in
  Z.to_nat (Z.max 0 (Z.min n j)).

(** [s[lo:hi]] with Python's rules for missing and negative bounds. *)
Definition slice (lo hi : option Z) (s : string) : string :=
  let n := len s in
  let a := match lo with Some i => clamp n i | None => 0%nat end in
  let b := match hi with Some i => clamp n i | None => Z.to_nat n end in
  take (b - a) (drop a s).

(** [s[i]] for [0 <= i < len s]; [None] models IndexError. *)
Definition index (s : string) (i : nat) : option ascii := String.get i s.

(** [c * n] for a one-character string. *)
Fixpoint repeat_char (c : ascii) (n : nat) : string :=
  match n with O => EmptyString | S k => String c (repeat_char c k) end.

(** [s.ljust(width, c)]. *)
Definition ljust (width : nat) (c : ascii) (s : string) : string :=
  s ++ repeat_char c (width - String.length s).

(** [s.startswith(p)]. *)
Definition startswith (p s : string) : bool := String.prefix p s.

(** [needle in hay] for strings. *)
Fixpoint contains (needle hay : string) : bool :=
  String.prefix needle hay ||
  match hay with
  | EmptyString => false
  | String _ r => contains needle r
  end.

(** [int(s)] for a string of ASCII digits, most significant first. *)
Definition int_of_digits (s : string) : Z :=
  fold_left (fun acc c => 10 * acc + digit_val c) (list_ascii_of_string s) 0.

(** [x in xs] for a list of strings. *)
Definition mem (x : string) (xs : list string) : bool :=
  existsb (String.eqb x) xs.

End PyStr.

(* ===================================================================== *)
(** ** caper_normalizer.py *)
(* ===================================================================== *)

(** Groups of a successful [_EAN13_PRICE_EMBEDDED] match. *)
Record Ean13PriceMatch := mkEan13PriceMatch {
  pm_prefix : string;
  pm_itemCode : string;
  pm_itemCodeCheckDigit : string;
  pm_price : string;
  pm_checkDigit : string
}.

Definition newline : string := String (ascii_of_nat 10) EmptyString.

(** [_EAN13_PRICE_EMBEDDED.match(s)] for the pattern
    [^(2)(\d{5})(\d)(\d{5})(\d)$]: thirteen characters, the first a '2', the
    others digits; [$] also accepts one final newline. *)
Definition _EAN13_PRICE_EMBEDDED (s : string) : option Ean13PriceMatch :=
  let body := PyStr.take 13 s in
  let rest := PyStr.drop 13 s in
  if (String.length body =? 13)%nat
     && String.eqb (PyStr.take 1 body) "2"
     && PyStr.all_chars PyStr.isdigit_char body
     && (String.eqb rest EmptyString || String.eqb rest newline)
  then Some (mkEan13PriceMatch
               (PyStr.slice (Some 0) (Some 1) body)
               (PyStr.slice (Some 1) (Some 6) body)
               (PyStr.slice (Some 6) (Some 7) body)
               (PyStr.slice (Some 7) (Some 12) body)
               (PyStr.slice (Some 12) (Some 13) body))
  else None.

Definition not_newline (c : ascii) : bool := negb (Ascii.eqb c (ascii_of_nat 10)).

(** [_DATABAR_EXPANDED.match(s)] for [^(01)(\d{13})(.)(.+)$]; the value is
    the [gtin] group. A dot matches any character but a newline, and [$]
    accepts one final newline. *)
Definition _DATABAR_EXPANDED (s : string) : option string :=
  let head := PyStr.take 15 s in
  let check := PyStr.take 1 (PyStr.drop 15 s) in
  let tail := PyStr.drop 16 s in
  let n := String.length tail in
  let attrs :=
    if String.eqb (PyStr.drop (n - 1) tail) newline
       && PyStr.nonempty (PyStr.take (n - 1) tail)
       && PyStr.all_chars not_newline (PyStr.take (n - 1) tail)
    then PyStr.take (n - 1) tail else tail in
  if (String.length head =? 15)%nat
     && String.eqb (PyStr.take 2 head) "01"
     && PyStr.all_chars PyStr.isdigit_char (PyStr.drop 2 head)
     && PyStr.nonempty check && PyStr.all_chars not_newline check
     && PyStr.nonempty attrs && PyStr.all_chars not_newline attrs
  then Some (PyStr.slice (Some 2) (Some 15) head)
  else None.

(** Extract only digits from a string. *)
Definition _digits_only (s : string) : string :=
  PyStr.filter_chars PyStr.isdigit_char s.

(** Pad digits to 13 characters with leading zeros. *)
Definition _left_pad_to_13 (s : string) : string :=
  let d := _digits_only s in
  if 13 <=? PyStr.len d then PyStr.slice None (Some 13) d
  else PyStr.repeat_char "0" (Z.to_nat (13 - PyStr.len d)) ++ d.

(** Remove the last digit (check digit) and pad to 13 digits. *)
Definition _remove_check_digit_and_pad (s : string) : string :=
  let d := _digits_only s in
  if negb (PyStr.nonempty d) then d
  else
    let core := PyStr.slice None (Some (-1)) d in
    _left_pad_to_13 core.

(** Pad raw barcode to 13 digits without removing check digit. *)
Definition _to_padded_raw_barcode (s : string) : string :=
  let d := _digits_only s in
  _left_pad_to_13 d.

(** [sum(int(s[i]) * (3 if i % 2 == 0 else 1) for i in range(len(s)))],
    with [i] the index of the first character of [s]. *)
Fixpoint weighted_sum (i : nat) (s : string) : Z :=
  match s with
  | EmptyString => 0
  | String c r =>
      PyStr.digit_val c * (if Nat.even i then 3 else 1) + weighted_sum (S i) r
  end.

(** Calculate GTIN check digit using the standard algorithm. *)
Definition _calculate_check_digit (s : string) : option Z :=
  if negb (PyStr.nonempty s) || negb (PyStr.isdigit s) then None
  else
    let total := weighted_sum 0 s in
    Some ((10 - (total mod 10)) mod 10).

(** Validate the check digit of a barcode. *)
Definition _is_valid_check_digit (barcode : string) : bool :=
  if PyStr.len barcode <? 2 then false
  else
    let core := PyStr.slice None (Some (-1)) barcode in
    match _calculate_check_digit core with
    | Some check => String.eqb (PyStr.digit_str check) (PyStr.slice (Some (-1)) None barcode)
    | None => false
    end.

(** [s[i]] as a one-character string; every use below is in range. *)
Definition char_at (s : string) (i : Z) : string :=
  PyStr.slice (Some i) (Some (i + 1)) s.

(** Expand UPC-E (6-8 digits) to UPC-A (12 digits). *)
Definition _expand_upce_to_upca (upce : string) : option string :=
  let digits := _digits_only upce in
  let normalized :=
    if PyStr.len digits =? 6 then Some ("0" ++ digits ++ "0")
    else if PyStr.len digits =? 7 then Some (digits ++ "0")
    else if negb (PyStr.len digits =? 8) then None
    else Some digits in
  match normalized with
  | None => None
  | Some digits =>
      if negb (PyStr.mem (char_at digits 0) ["0"; "1"]) then None
      else
        let number_system := char_at digits 0 in
        let last_digit := char_at digits 6 in
        let manufacturer := PyStr.slice (Some 1) (Some 6) digits in
        let check := if PyStr.len digits =? 8 then char_at digits 7 else "0" in
        let expanded :=
          if PyStr.mem last_digit ["0"; "1"; "2"] then
            number_system ++ PyStr.slice None (Some 2) manufacturer ++ last_digit
              ++ "0000" ++ PyStr.slice (Some 2) (Some 5) manufacturer ++ check
          else if String.eqb last_digit "3" then
            number_system ++ PyStr.slice None (Some 3) manufacturer ++ "00000"
              ++ PyStr.slice (Some 3) (Some 5) manufacturer ++ check
          else if String.eqb last_digit "4" then
            number_system ++ PyStr.slice None (Some 4) manufacturer ++ "00000"
              ++ char_at manufacturer 4 ++ check
          else
            number_system ++ manufacturer ++ "0000" ++ last_digit ++ check in
        Some expanded
  end.

(** [if v not in candidates: candidates.append(v)]. *)
Definition append_if_absent (v : string) (candidates : list string) : list string :=
  if negb (PyStr.mem v candidates) then (candidates ++ [v])%list else candidates.

(** [if v and v not in candidates: candidates.append(v)]. *)
Definition append_if_new (v : string) (candidates : list string) : list string :=
  if PyStr.nonempty v && negb (PyStr.mem v candidates)
  then (candidates ++ [v])%list else candidates.

(** The UPC-E block of [normalize_candidates]. *)
Definition step_upce (raw barcode_type : string) (candidates : list string) : list string :=
  if PyStr.mem barcode_type ["UPC-E"; "UPCE"]
     && (6 <=? PyStr.len raw) && (PyStr.len raw <=? 8)
  then
    match _expand_upce_to_upca raw with
    | Some upca =>
        if PyStr.nonempty upca
        then append_if_new (_remove_check_digit_and_pad upca) candidates
        else candidates
    | None => candidates
    end
  else candidates.

(** The EAN-8 block. *)
Definition step_ean8 (raw barcode_type : string) (candidates : list string) : list string :=
  if String.eqb barcode_type "EAN-8" && (PyStr.len raw =? 8)
  then append_if_new (_remove_check_digit_and_pad raw) candidates
  else candidates.

(** The DataBar / GS1 block. *)
Definition step_databar (value raw barcode_type : string) (candidates : list string)
  : list string :=
  if PyStr.mem barcode_type ["GS1 DataBar"; "GS1 DataBar Expanded"; "DataBar"]
  then
    let candidates :=
      if PyStr.startswith "01" value || PyStr.startswith "(01)" value
      then
        match _DATABAR_EXPANDED raw with
        | Some gtin14 => append_if_new gtin14 candidates
        | None => candidates
        end
      else candidates in
    if (PyStr.len raw =? 16) && PyStr.startswith "01" raw
    then
      let gtin14 := PyStr.slice (Some 2) None raw in
      let candidates := append_if_new gtin14 candidates in
      let gtin13 := _remove_check_digit_and_pad gtin14 in
      append_if_new gtin13 candidates
    else if PyStr.len raw =? 14
    then
      let candidates := append_if_absent raw candidates in
      let gtin13 := _remove_check_digit_and_pad raw in
      append_if_new gtin13 candidates
    else candidates
  else candidates.

(** The Code 128 block. *)
Definition step_code128 (raw barcode_type : string) (candidates : list string)
  : list string :=
  if String.eqb barcode_type "Code 128"
  then
    if (9 <=? PyStr.len raw) && (PyStr.len raw <=? 11)
    then
      let v1 := _remove_check_digit_and_pad raw in
      let v2 := _to_padded_raw_barcode raw in
      fold_left (fun cs v => append_if_new v cs) [v1; v2] candidates
    else if PyStr.len raw =? 12
    then
      if negb (PyStr.startswith "2" raw)
      then
        let has_valid_check := _is_valid_check_digit raw in
        if has_valid_check
        then append_if_new (_remove_check_digit_and_pad raw) candidates
        else append_if_new (_to_padded_raw_barcode raw) candidates
      else candidates
    else candidates
  else candidates.

(** The "starts with 002" block. *)
Definition step_002 (raw : string) (candidates : list string) : list string :=
  if (PyStr.len raw =? 13) && PyStr.startswith "002" raw
  then append_if_absent (PyStr.slice None (Some 8) raw ++ "00000") candidates
  else candidates.

(** The standard UPC-A block. *)
Definition step_upca (raw barcode_type : string) (candidates : list string) : list string :=
  if PyStr.mem barcode_type ["UPC-A"; "UPCA"] && (PyStr.len raw =? 12)
  then append_if_new (_remove_check_digit_and_pad raw) candidates
  else candidates.

(** The non-price-embedded EAN-13 block. *)
Definition step_ean13 (raw barcode_type : string) (candidates : list string) : list string :=
  if String.eqb barcode_type "EAN-13" && (PyStr.len raw =? 13)
     && negb (PyStr.startswith "2" raw)
  then append_if_new (_remove_check_digit_and_pad raw) candidates
  else candidates.

(** Return prioritized lookup candidates. The blocks run in source order on
    the one [candidates] list; the price-embedded EAN-13 block returns
    early. *)
Definition normalize_candidates (value barcode_type : string) : list string :=
  let raw := _digits_only value in
  if negb (PyStr.nonempty raw) then []
  else
    let candidates := [raw] in
    match (if String.eqb barcode_type "EAN-13" && (PyStr.len raw =? 13)
           then _EAN13_PRICE_EMBEDDED raw else None) with
    | Some m =>
        let item_code := pm_itemCode m in
        let lookup := PyStr.ljust 13 "0" ("002" ++ item_code) in
        let candidates := append_if_absent lookup candidates in
        let no_price := PyStr.slice None (Some 8) raw ++ "00000" in
        append_if_absent no_price candidates
    | None =>
        let candidates := step_upce raw barcode_type candidates in
        let candidates := step_ean8 raw barcode_type candidates in
        let candidates := step_databar value raw barcode_type candidates in
        let candidates := step_code128 raw barcode_type candidates in
        let candidates := step_002 raw candidates in
        let candidates := step_upca raw barcode_type candidates in
        step_ean13 raw barcode_type candidates
    end.

(** Extract embedded price from price-embedded barcodes. *)
Definition extract_price_from_barcode (value barcode_type : string) : option Z :=
  let raw := _digits_only value in
  match (if String.eqb barcode_type "EAN-13" && (PyStr.len raw =? 13)
         then _EAN13_PRICE_EMBEDDED raw else None) with
  | Some m => Some (PyStr.int_of_digits (pm_price m))
  | None =>
      if (PyStr.len raw =? 13) && PyStr.startswith "002" raw
      then Some (PyStr.int_of_digits (PyStr.slice (Some (-5)) (Some (-1)) raw))
      else None
  end.

(* ===================================================================== *)
(** ** Python exceptions and floats *)
(* ===================================================================== *)

(** The exceptions that matter here. [DecodeError] stands for whatever the
    decoder collaborator raises. *)
Inductive exn := ZeroDivisionError | OverflowError | ValueError | DecodeError.

(** A computation that returns or raises. *)
Inductive Exc (A : Type) : Type :=
| Ok (a : A)
| Raise (e : exn).
Arguments Ok {A} a.
Arguments Raise {A} e.

#[global] Instance exc_ret : MRet Exc := fun A a => Ok a.

#[global] Instance exc_bind : MBind Exc := fun A B k m =>
  match m with
  | Ok a => k a
  | Raise e => Raise e
  end.

Module PyFloat.

(** [float(n)] for an integer: the nearest binary64 value, ties to even.
    (Python raises OverflowError from about 1.8e308 on; image sizes and
    pixel coordinates are machine integers in the bindings and stay far
    below.) *)
Definition of_int (n : Z) : float :=
  SF2Prim (binary_normalize prec emax n 0 false).

(** [int(f)]: truncation toward zero; OverflowError on an infinity,
    ValueError on a NaN. *)
Definition to_int (f : float) : Exc Z :=
  match Prim2SF f with
  | S754_zero _ => Ok 0
  | S754_finite s m e =>
      let mag := if 0 <=? e then Z.pos m * 2 ^ e else Z.pos m / 2 ^ (- e) in
      Ok (if s then - mag else mag)
  | S754_infinity _ => Raise OverflowError
  | S754_nan => Raise ValueError
  end.

(** [int(f)] where the argument is finite by construction (a product or
    quotient of image dimensions and small constants). *)
Definition trunc (f : float) : Z :=
  match to_int f with
  | Ok z => z
  | Raise _ => 0
  end.

(** [n * c] and [n / c] for an integer [n] and a float [c]. *)
Definition int_mul (n : Z) (c : float) : float := PrimFloat.mul (of_int n) c.
Definition int_div (n : Z) (c : float) : float := PrimFloat.div (of_int n) c.

(** [a >= b], [a <= b], [a > b], [a < b] on floats. *)
Definition ge (a b : float) : bool := PrimFloat.leb b a.
Definition le (a b : float) : bool := PrimFloat.leb a b.
Definition gt (a b : float) : bool := PrimFloat.ltb b a.
Definition lt (a b : float) : bool := PrimFloat.ltb a b.

(** [f != 0]. *)
Definition nonzero (f : float) : bool := negb (PrimFloat.eqb f 0%float).

End PyFloat.

(* ===================================================================== *)
(** ** Detections *)
(* ===================================================================== *)

Definition Point : Type := Z * Z.

(** [barcode_parser.DetectedBarcode]. *)
Record DetectedBarcode := mkDetected {
  barcode_type : string;
  barcode_value : string;
  quad : list Point;
  detection_method : option string
}.

(** [r.detection_method = label]. *)
Definition set_detection_method (label : string) (d : DetectedBarcode) : DetectedBarcode :=
  mkDetected (barcode_type d) (barcode_value d) (quad d) (Some label).

(* ===================================================================== *)
(** ** processor.py: validation and reconciliation helpers *)
(* ===================================================================== *)

Definition ALLOWED_WEB_TYPES : list string := ["UPC-A"; "EAN-13"; "UPC-E"; "EAN-8"].

(** The literal set [{"UPC-A", "UPC-E", "EAN-13", "EAN-8"}]. *)
Definition UPCEAN_TYPES : list string := ["UPC-A"; "UPC-E"; "EAN-13"; "EAN-8"].

Definition _is_gs1_databar (barcode_type value : string) : bool :=
  PyStr.contains "DataBar" barcode_type.

Definition _is_price_embedded (barcode_type value : string) : bool :=
  if String.eqb barcode_type "UPC-A" && PyStr.startswith "2" value then true
  else if String.eqb barcode_type "EAN-13"
          && PyStr.mem (PyStr.slice None (Some 2) value)
               ["20"; "21"; "22"; "23"; "24"; "25"; "26"; "27"; "28"; "29"]
  then true
  else false.

(** [range(start, stop, step)] for a positive step. *)
Definition py_range (start stop step : nat) : list nat :=
  List.map (fun k => (start + k * step)%nat)
           (List.seq 0 ((stop - start + step - 1) / step)).

(** [int(s[i])]. *)
Definition digit_at (s : string) (i : nat) : Z :=
  match PyStr.index s i with
  | Some c => PyStr.digit_val c
  | None => 0
  end.

(** [sum(int(s[i]) for i in idx)]. *)
Definition sum_digits (s : string) (idx : list nat) : Z :=
  fold_left Z.add (List.map (digit_at s) idx) 0.

Definition _checksum_ean13 (s : string) : bool :=
  if negb (PyStr.len s =? 13) || negb (PyStr.isdigit s) then false
  else
    let sum_odd := sum_digits s (py_range 0 12 2) in
    let sum_even := sum_digits s (py_range 1 12 2) in
    let check := (10 - ((sum_odd + 3 * sum_even) mod 10)) mod 10 in
    check =? digit_at s 12.

Definition _checksum_ean8 (s : string) : bool :=
  if negb (PyStr.len s =? 8) || negb (PyStr.isdigit s) then false
  else
    let sum_odd := sum_digits s (py_range 0 7 2) in
    let sum_even := sum_digits s (py_range 1 7 2) in
    let check := (10 - ((3 * sum_odd + sum_even) mod 10)) mod 10 in
    check =? digit_at s 7.

Definition _checksum_upca (s : string) : bool :=
  if negb (PyStr.len s =? 12) || negb (PyStr.isdigit s) then false
  else
    let sum_odd := sum_digits s (py_range 0 11 2) in
    let sum_even := sum_digits s (py_range 1 11 2) in
    let check := (10 - (((sum_odd * 3) + sum_even) mod 10)) mod 10 in
    check =? digit_at s 11.

Definition _is_valid_upcean (barcode_type value : string) : bool :=
  if String.eqb barcode_type "EAN-13" then _checksum_ean13 value
  else if String.eqb barcode_type "EAN-8" then _checksum_ean8 value
  else if String.eqb barcode_type "UPC-A" then _checksum_upca value
  else true.

(** [min(xs)] and [max(xs)] of a non-empty list, given head and tail. *)
Definition list_min (x : Z) (xs : list Z) : Z := fold_left Z.min xs x.
Definition list_max (x : Z) (xs : list Z) : Z := fold_left Z.max xs x.

Definition Box : Type := Z * Z * Z * Z.

Definition _bbox_from_quad (b : DetectedBarcode) : option Box :=
  match quad b with
  | [] => None
  | p :: ps =>
      let xs := List.map fst ps in
      let ys := List.map snd ps in
      Some (list_min (fst p) xs, list_min (snd p) ys,
            list_max (fst p) xs, list_max (snd p) ys)
  end.

(** Return intersection length divided by min segment length (0..1). *)
Definition _overlap_ratio_1d (a1 a2 b1 b2 : Z) : float :=
  let left := Z.max a1 b1 in
  let right := Z.min a2 b2 in
  let inter := Z.max 0 (right - left) in
  let la := Z.max 0 (a2 - a1) in
  let lb := Z.max 0 (b2 - b1) in
  let min_len := Z.max 1 (Z.min la lb) in
  PyFloat.int_div inter (PyFloat.of_int min_len).

(** The test [h_ov >= 0.6 and v_ov <= 0.1] of [_prefer_topmost_stacked]. *)
Definition stacked (box_i box_j : Box) : bool :=
  let '(ix1, iy1, ix2, iy2) := box_i in
  let '(jx1, jy1, jx2, jy2) := box_j in
  let h_ov := _overlap_ratio_1d ix1 ix2 jx1 jx2 in
  let v_ov := _overlap_ratio_1d iy1 iy2 jy1 jy2 in
  PyFloat.ge h_ov 0.6%float && PyFloat.le v_ov 0.1%float.

(** The top edge [y1] of a box [(x1, y1, x2, y2)]. *)
Definition box_top (box : Box) : Z :=
  let '(_, y1, _, _) := box in y1.

(** The sort key [t[1][1] if t[1] else 10**9]. *)
Definition top_key (t : nat * option Box) : Z :=
  match snd t with
  | Some box => box_top box
  | None => 10 ^ 9
  end.

(** [sorted(xs, key=top_key)]: the stable sort by key. *)
Fixpoint insert_by_key (x : nat * option Box) (l : list (nat * option Box))
  : list (nat * option Box) :=
  match l with
  | [] => [x]
  | y :: r => if top_key x <=? top_key y then x :: y :: r else y :: insert_by_key x r
  end.

Definition sorted_by_top (l : list (nat * option Box)) : list (nat * option Box) :=
  fold_right insert_by_key [] l.

(** [enumerate(xs)]. *)
Definition enumerate {A} (xs : list A) : list (nat * A) :=
  List.combine (List.seq 0 (length xs)) xs.

(** The inner loop [for j, box_j in order[k+1:]] for the entry [(i, box_i)]:
    the result is the updated [dropped] set. *)
Fixpoint stacked_inner (i : nat) (box_i : Box) (rest : list (nat * option Box))
  (dropped : gset nat) : gset nat :=
  match rest with
  | [] => dropped
  | (j, box_j) :: rest' =>
      match box_j with
      | None => stacked_inner i box_i rest' dropped
      | Some bj =>
          if bool_decide (j ∈ dropped) then stacked_inner i box_i rest' dropped
          else if stacked box_i bj then
            if box_top box_i <=? box_top bj
            then stacked_inner i box_i rest' (dropped ∪ {[ j ]})
            else dropped ∪ {[ i ]}
          else stacked_inner i box_i rest' dropped
      end
  end.

(** The outer loop [for k, (i, box_i) in enumerate(order)]. *)
Fixpoint stacked_outer (order : list (nat * option Box)) (dropped : gset nat)
  : gset nat :=
  match order with
  | [] => dropped
  | (i, box_i) :: rest =>
      match box_i with
      | None => stacked_outer rest dropped
      | Some bi =>
          if bool_decide (i ∈ dropped) then stacked_outer rest dropped
          else stacked_outer rest (stacked_inner i bi rest dropped)
      end
  end.

(** If multiple barcodes are stacked vertically with strong horizontal
    overlap, keep only the top-most one in each stack. *)
Definition _prefer_topmost_stacked (barcodes : list DetectedBarcode)
  : list DetectedBarcode :=
  let indexed_boxes :=
    List.map (fun ib => (fst ib, _bbox_from_quad (snd ib))) (enumerate barcodes) in
  let order := sorted_by_top indexed_boxes in
  let dropped := stacked_outer order ∅ in
  List.map snd
    (List.filter (fun ib => negb (bool_decide (fst ib ∈ dropped))) (enumerate barcodes)).

(** Loop state of [_dedupe_and_filter]. *)
Record DedupeState := mkDedupe {
  seen : gset (string * string);
  seen_types : gset string;
  unique : list DetectedBarcode
}.

(** One iteration of [for b in barcodes]. *)
Definition dedupe_step (st : DedupeState) (b : DetectedBarcode) : DedupeState :=
  let key := (barcode_type b, barcode_value b) in
  if bool_decide (key ∈ seen st) then st
  else if PyStr.mem (barcode_type b) ["EAN-13"; "EAN-8"; "UPC-A"]
          && negb (_is_valid_upcean (barcode_type b) (barcode_value b))
  then st
  else if PyStr.mem (barcode_type b) UPCEAN_TYPES
  then
    if bool_decide (barcode_type b ∈ seen_types st) then st
    else mkDedupe (seen st ∪ {[ key ]}) (seen_types st ∪ {[ barcode_type b ]})
                  (unique st ++ [b])
  else mkDedupe (seen st ∪ {[ key ]}) (seen_types st) (unique st ++ [b]).

Definition _dedupe_and_filter (barcodes : list DetectedBarcode) : list DetectedBarcode :=
  unique (fold_left dedupe_step barcodes (mkDedupe ∅ ∅ [])).

(* ===================================================================== *)
(** ** processor.py: rows of one image *)
(* ===================================================================== *)

Module RowDraft.
(** [models.RowDraft]. *)
Record t := mk {
  barcode_type : string;
  barcode_value : string;
  item_name : option string;
  notes : option string
}.
End RowDraft.

Module ProcessOptions.
(** [processor.ProcessOptions]. *)
Record t := mk {
  ocr : bool;
  lookup : bool;
  free_lookup : bool;
  deep_lookup : bool;
  plu_all : bool;
  plu_boost : bool;
  allow_gs1_web : bool;
  serp_key : option string;
  cse_id : option string;
  google_key : option string;
  mark_uncertain : bool
}.
End ProcessOptions.

(** Truthiness of an [Optional[str]]. *)
Definition truthy (o : option string) : bool :=
  match o with
  | Some s => PyStr.nonempty s
  | None => false
  end.

(** [a or b] on [Optional[str]] values. *)
Definition py_or (a b : option string) : option string :=
  if truthy a then a else b.

(** [DIGITS_ONLY.match(s)]: the leading run of digits, when not empty. *)
Fixpoint leading_digits (s : string) : string :=
  match s with
  | String c r => if PyStr.isdigit_char c then String c (leading_digits r) else EmptyString
  | EmptyString => EmptyString
  end.

Definition DIGITS_ONLY_match (s : string) : option string :=
  let m := leading_digits s in
  if PyStr.nonempty m then Some m else None.

Definition is_code128_type (t : string) : bool :=
  PyStr.contains "Code" t && PyStr.contains "128" t.

Definition is_databar_type (t : string) : bool := PyStr.contains "DataBar" t.

Definition is_upcean_type (t : string) : bool := PyStr.mem t UPCEAN_TYPES.

(** The literal set [{"Data Matrix", "QR Code", "QRCode"}]. *)
Definition EXCLUDED_2D_TYPES : list string := ["Data Matrix"; "QR Code"; "QRCode"].

Definition difficult_indicators : list string :=
  ["double"; "Double"; "sharp"; "huge"; "upscale";
   "enhanced"; "fallback"; "grid"; "crop"; "rotation"].

Section Processor.

(** The photograph handed to the OCR collaborators. *)
Variable Image : Type.

(** [ocr_upcean.ocr_upcean_digit_band] and [ocr_upcean_numeric]. *)
Variable ocr_upcean_digit_band : Image -> list (list Point) -> option string.
Variable ocr_upcean_numeric : Image -> list (list Point) -> option string.
(** [ocr_item_name.ocr_bold_name] and [ocr_item_name]. *)
Variable ocr_bold_name : Image -> list Point -> option string.
Variable ocr_item_name : Image -> list Point -> option string.
(** [deep_lookup_product_name(cand, serp_key, cse_id, google_key)]. *)
Variable deep_lookup_product_name :
  string -> option string -> option string -> option string -> option string.
(** [duckduckgo_lookup] and [lookup_product_name]. *)
Variable duckduckgo_lookup : string -> option string.
Variable lookup_product_name : string -> option string.
(** [gs1_parser.extract_gtin]; it only feeds the display value of DataBar
    rows. *)
Variable extract_gtin : string -> option string.
(** [_validate_name(candidate, barcode_value)]; it only feeds [item_name]. *)
Variable _validate_name : option string -> string -> option string.

(** Return (display_value, gtin) for the row. *)
Definition _display_value_for (b : DetectedBarcode) : string * option string :=
  let is_gs1 := _is_gs1_databar (barcode_type b) (barcode_value b) in
  let display := barcode_value b in
  if is_gs1 then
    if PyStr.startswith "(" (barcode_value b)
    then (barcode_value b, extract_gtin (barcode_value b))
    else
      let gtin := extract_gtin (barcode_value b) in
      let gtin :=
        if negb (truthy gtin) then
          match DIGITS_ONLY_match (barcode_value b) with
          | Some m0 =>
              if 14 <=? PyStr.len m0 then Some (PyStr.slice None (Some 14) m0) else gtin
          | None => gtin
          end
        else gtin in
      match gtin with
      | Some g =>
          if PyStr.nonempty g && (PyStr.len g =? 14) then ("01" ++ g, gtin)
          else (display, gtin)
      | None => (display, gtin)
      end
  else (display, None).

(** The loop [for cand in candidates] with its [break]. *)
Fixpoint lookup_loop (opts : ProcessOptions.t) (candidates : list string)
  (name : option string) : option string :=
  match candidates with
  | [] => name
  | cand :: rest =>
      let name :=
        if ProcessOptions.deep_lookup opts
           && (truthy (ProcessOptions.serp_key opts)
               || (truthy (ProcessOptions.cse_id opts)
                   && truthy (ProcessOptions.google_key opts)))
           && negb (truthy name)
        then deep_lookup_product_name cand (ProcessOptions.serp_key opts)
               (ProcessOptions.cse_id opts) (ProcessOptions.google_key opts)
        else name in
      let name :=
        if negb (truthy name) && ProcessOptions.free_lookup opts
        then duckduckgo_lookup cand else name in
      let name :=
        if negb (truthy name) && ProcessOptions.lookup opts
        then lookup_product_name cand else name in
      if truthy name then name else lookup_loop opts rest name
  end.

(** The body of [for b in barcodes] in [process_image_to_rows]. *)
Definition row_for (image : Image) (opts : ProcessOptions.t) (b : DetectedBarcode)
  : RowDraft.t :=
  let is_price := _is_price_embedded (barcode_type b) (barcode_value b) in
  let '(display_value, gtin) := _display_value_for b in
  let name : option string := None in
  let notes : option string := None in
  let name :=
    if is_price && ProcessOptions.ocr opts then ocr_bold_name image (quad b) else name in
  let allow_web_for_type := PyStr.mem (barcode_type b) ALLOWED_WEB_TYPES in
  let name :=
    if negb (truthy name) && allow_web_for_type && negb is_price then
      let candidates :=
        firstn 2 (normalize_candidates (barcode_value b) (barcode_type b)) in
      let name := lookup_loop opts candidates name in
      if negb (truthy name) && ProcessOptions.ocr opts
      then ocr_item_name image (quad b) else name
    else name in
  let name := _validate_name name (barcode_value b) in
  let notes := if is_price then Some "Price-Embedded" else notes in
  let notes :=
    if ProcessOptions.mark_uncertain opts && negb (truthy notes) then
      let method := default EmptyString (detection_method b) in
      let is_difficult :=
        existsb (fun indicator => PyStr.contains indicator method) difficult_indicators in
      if is_difficult
      then Some "Difficult barcode detection - multiple barcodes may exist, please verify"
      else notes
    else notes in
  RowDraft.mk (barcode_type b) display_value name notes.

(** The OCR recovery step taken when only DataBar reads are present. *)
Definition ocr_recover (image : Image) (opts : ProcessOptions.t)
  (barcodes : list DetectedBarcode) : list DetectedBarcode :=
  let has_upcean := existsb (fun b => is_upcean_type (barcode_type b)) barcodes in
  let has_gs1_only :=
    negb has_upcean && existsb (fun b => is_databar_type (barcode_type b)) barcodes in
  if has_gs1_only && ProcessOptions.ocr opts then
    let gs1_quads :=
      List.map quad (List.filter (fun b => is_databar_type (barcode_type b)) barcodes) in
    let upc_ocr :=
      py_or (ocr_upcean_digit_band image gs1_quads) (ocr_upcean_numeric image gs1_quads) in
    match upc_ocr with
    | Some s =>
        if PyStr.nonempty s
           && ((PyStr.len s =? 12) || (PyStr.len s =? 13) || (PyStr.len s =? 8))
        then
          let upc_type :=
            if PyStr.len s =? 13 then "EAN-13"
            else if PyStr.len s =? 12 then "UPC-A" else "EAN-8" in
          [mkDetected upc_type s [] None]
        else barcodes
    | None => barcodes
    end
  else barcodes.

(** Lines 298-310 of [process_image_to_rows]: the 2D symbologies are
    excluded, the OCR recovery runs, then [_dedupe_and_filter]. *)
Definition deduplicated (image : Image) (opts : ProcessOptions.t)
  (barcodes : list DetectedBarcode) : list DetectedBarcode :=
  let barcodes :=
    List.filter (fun b => negb (PyStr.mem (barcode_type b) EXCLUDED_2D_TYPES)) barcodes in
  let barcodes := ocr_recover image opts barcodes in
  _dedupe_and_filter barcodes.

(** Lines 311-319: a Code 128 read displaces DataBar and UPC/EAN reads. *)
Definition prefer_code128 (barcodes : list DetectedBarcode) : list DetectedBarcode :=
  let has_code128 := existsb (fun b => is_code128_type (barcode_type b)) barcodes in
  let has_databar := existsb (fun b => is_databar_type (barcode_type b)) barcodes in
  let has_upcean_types := existsb (fun b => is_upcean_type (barcode_type b)) barcodes in
  let barcodes :=
    if has_code128 && has_databar
    then List.filter (fun b => negb (is_databar_type (barcode_type b))) barcodes
    else barcodes in
  let barcodes :=
    if has_code128 && has_upcean_types
    then List.filter (fun b => negb (is_upcean_type (barcode_type b))) barcodes
    else barcodes in
  barcodes.

(** The detections for which rows are built. *)
Definition reconcile (image : Image) (opts : ProcessOptions.t)
  (barcodes : list DetectedBarcode) : list DetectedBarcode :=
  prefer_code128 (deduplicated image opts barcodes).

Definition process_image_to_rows (image : Image) (barcodes : list DetectedBarcode)
  (opts : ProcessOptions.t) : list RowDraft.t :=
  List.map (row_for image opts) (reconcile image opts barcodes).

End Processor.

(* ===================================================================== *)
(** ** barcode_parser.py: decoder results and coordinate remapping *)
(* ===================================================================== *)

(** [r.position] of the decoder binding: four corner points. *)
Record Position := mkPosition {
  top_left : Point;
  top_right : Point;
  bottom_right : Point;
  bottom_left : Point
}.

(** One raw symbol read of the decoder: [str(r.format)], [r.text] and
    [r.position] (absent or [None] is [None]). *)
Record RawResult := mkRaw {
  format : string;
  text : option string;
  position : option Position
}.

(** Members of [zxingcpp.BarcodeFormat] used in masks; a mask [a | b | ...]
    is the list of its members. *)
Inductive BarcodeFormat := UPCA | UPCE | EAN13 | EAN8 | Code128.
Definition FormatMask : Type := list BarcodeFormat.

Definition FRIENDLY_FORMAT : list (string * string) :=
  [ ("BarcodeFormat.UPCA", "UPC-A");
    ("BarcodeFormat.UPCE", "UPC-E");
    ("BarcodeFormat.EAN13", "EAN-13");
    ("BarcodeFormat.EAN8", "EAN-8");
    ("BarcodeFormat.CODE128", "Code 128");
    ("BarcodeFormat.CODE39", "Code 39");
    ("BarcodeFormat.ITF", "ITF");
    ("BarcodeFormat.QRCode", "QR Code");
    ("BarcodeFormat.DataMatrix", "Data Matrix");
    ("BarcodeFormat.RSS14", "GS1 DataBar");
    ("BarcodeFormat.RSS_EXPANDED", "GS1 DataBar Expanded") ].

(** [d.get(k)] on a literal dict. *)
Fixpoint dict_get (k : string) (d : list (string * string)) : option string :=
  match d with
  | [] => None
  | (k', v) :: r => if String.eqb k k' then Some v else dict_get k r
  end.

(** [s.replace(old, new)] for a non-empty [old]; [skip] counts the
    characters of a match still to be passed over. *)
Fixpoint replace_from (old new : string) (skip : nat) (s : string) : string :=
  match s with
  | EmptyString => EmptyString
  | String c r =>
      match skip with
      | S k => replace_from old new k r
      | O =>
          if String.prefix old s
          then new ++ replace_from old new (String.length old - 1) r
          else String c (replace_from old new O r)
      end
  end.

Definition str_replace (old new s : string) : string := replace_from old new 0 s.

Definition _friendly_format (fmt_text : string) : string :=
  match dict_get fmt_text FRIENDLY_FORMAT with
  | Some v => v
  | None => str_replace "QRCode" "QR Code" (str_replace "BarcodeFormat." EmptyString fmt_text)
  end.

(** Return a list of (x,y) tuples for the barcode corners. *)
Definition _extract_quad (position : option Position) : list Point :=
  match position with
  | Some p => [top_left p; top_right p; bottom_right p; bottom_left p]
  | None => []
  end.

(** The loop of [_to_detected], one result at a time. *)
Definition to_detected_step (detected : list DetectedBarcode) (r : RawResult)
  : list DetectedBarcode :=
  let fmt := _friendly_format (format r) in
  let text := default EmptyString (text r) in
  let quad := _extract_quad (position r) in
  if PyStr.nonempty text then detected ++ [mkDetected fmt text quad None] else detected.

Definition _to_detected (results : list RawResult) : list DetectedBarcode :=
  fold_left to_detected_step results [].

(** The loop [for x, y in quad_raw] of [_try_decode_with_map]. *)
Fixpoint remap_loop (ox oy : Z) (inv : float) (quad_raw quad : list Point)
  : Exc (list Point) :=
  match quad_raw with
  | [] => Ok quad
  | (x, y) :: rest =>
      ix ← PyFloat.to_int (PyFloat.int_mul x inv);
      iy ← PyFloat.to_int (PyFloat.int_mul y inv);
      remap_loop ox oy inv rest (quad ++ [(ox + ix, oy + iy)])
  end.

(** The loop [for r in results] of [_try_decode_with_map]. *)
Fixpoint map_results_loop (ox oy : Z) (inv : float) (results : list RawResult)
  (detected : list DetectedBarcode) : Exc (list DetectedBarcode) :=
  match results with
  | [] => Ok detected
  | r :: rest =>
      let fmt := _friendly_format (format r) in
      let text := default EmptyString (text r) in
      let quad_raw := _extract_quad (position r) in
      quad ← remap_loop ox oy inv quad_raw [];
      map_results_loop ox oy inv rest
        (if PyStr.nonempty text then detected ++ [mkDetected fmt text quad None]
         else detected)
  end.

(** [inv = 1.0 / scale if scale != 0 else 1.0]. *)
Definition inverse_scale (scale : float) : float :=
  if PyFloat.nonzero scale then PrimFloat.div 1%float scale else 1%float.

Section Decoder.

(** A PIL image; the decoder sees its pixel buffer. *)
Variable Image : Type.

(** [_read_barcodes_with_opts(np.array(img), formats)]: the decode
    primitive, a function of the buffer and the mask; it may raise. *)
Variable _read_barcodes_with_opts : Image -> option FormatMask -> Exc (list RawResult).

Definition _try_decode (img : Image) : Exc (list DetectedBarcode) :=
  results ← _read_barcodes_with_opts img None;
  Ok (_to_detected results).

Definition _try_decode_formats (img : Image) (formats_mask : FormatMask)
  : Exc (list DetectedBarcode) :=
  match _read_barcodes_with_opts img (Some formats_mask) with
  | Ok results => Ok (_to_detected results)
  | Raise _ => Ok []
  end.

Definition _try_decode_with_map (img : Image) (offset : Z * Z) (scale : float)
  : Exc (list DetectedBarcode) :=
  results ← _read_barcodes_with_opts img None;
  let '(ox, oy) := offset in
  let inv := inverse_scale scale in
  map_results_loop ox oy inv results [].

Definition _try_decode_with_map_formats (img : Image) (offset : Z * Z) (scale : float)
  (formats_mask : FormatMask) : Exc (list DetectedBarcode) :=
  match _read_barcodes_with_opts img (Some formats_mask) with
  | Raise _ => Ok []
  | Ok results =>
      let '(ox, oy) := offset in
      let inv := inverse_scale scale in
      map_results_loop ox oy inv results []
  end.

End Decoder.

(* ===================================================================== *)
(** ** barcode_parser.py: the transform cascade *)
(* ===================================================================== *)

(** [range(n)] as integers. *)
Definition range_Z (n : Z) : list Z := List.map Z.of_nat (List.seq 0 (Z.to_nat n)).

(** One cell of [_grid_boxes], expanded by 30% and clipped to the image;
    cells not larger than 40 pixels on both sides are left out. *)
Definition grid_cell (w h grid cell_w cell_h gy gx : Z) : list Box :=
  let l := gx * cell_w in
  let t := gy * cell_h in
  let r := if gx =? grid - 1 then w else (gx + 1) * cell_w in
  let b := if gy =? grid - 1 then h else (gy + 1) * cell_h in
  let exp_x := PyFloat.trunc (PyFloat.int_mul (r - l) 0.3%float) in
  let exp_y := PyFloat.trunc (PyFloat.int_mul (b - t) 0.3%float) in
  let el := Z.max 0 (l - exp_x) in
  let et := Z.max 0 (t - exp_y) in
  let er := Z.min w (r + exp_x) in
  let eb := Z.min h (b + exp_y) in
  if (40 <? er - el) && (40 <? eb - et) then [(el, et, er, eb)] else [].

(** [_grid_boxes(w, h, grid)] for a positive [grid]. *)
Definition _grid_boxes (w h grid : Z) : list Box :=
  let cell_w := w / grid in
  let cell_h := h / grid in
  flat_map (fun gy => flat_map (grid_cell w h grid cell_w cell_h gy) (range_Z grid))
           (range_Z grid).

(** Whether the symbol at [pos] stands upright: the bounding box is more
    than 30% higher than wide. *)
Definition is_vertical (pos : Position) : bool :=
  let points := [top_right pos; bottom_right pos; bottom_left pos] in
  let xs := List.map fst points in
  let ys := List.map snd points in
  let width := list_max (fst (top_left pos)) xs - list_min (fst (top_left pos)) xs in
  let height := list_max (snd (top_left pos)) ys - list_min (snd (top_left pos)) ys in
  PyFloat.gt (PyFloat.of_int height) (PyFloat.int_mul width 1.3%float).

Definition upc_formats : FormatMask := [UPCA; UPCE; EAN13; EAN8].
Definition linear_formats : FormatMask := [Code128; UPCA; UPCE; EAN13; EAN8].

Section Cascade.

Variable Image : Type.

(** PIL: [img.size], [img.rotate(angle, expand=True)], [img.resize(size)],
    [img.crop(box)], [ImageOps.autocontrast(img.convert("L")).convert("RGB")],
    [ImageEnhance.Contrast(img).enhance(factor)] and
    [img.filter(ImageFilter.SHARPEN)]. Of these [resize] is partial: PIL
    raises ValueError when it is asked for a size with a side below one
    pixel. *)
Variable size : Image -> Z * Z.
Variable rotate : Z -> Image -> Image.
Variable resize : Z * Z -> Image -> Exc Image.
Variable crop : Box -> Image -> Image.
Variable gray_autocontrast : Image -> Image.
Variable enhance_contrast : float -> Image -> Image.
Variable sharpen : Image -> Image.

Variable _read_barcodes_with_opts : Image -> option FormatMask -> Exc (list RawResult).

(** [_code128_focused(img, debug_dir, aggressive=True)]: the OpenCV and
    ZBar pipeline of the last tier. *)
Variable _code128_focused : Image -> Exc (list DetectedBarcode).

(** A decode attempt of a cascade tier: which adapter entry point on which
    image variant. *)
Inductive Attempt :=
| TryDecode (img : Image)
| TryDecodeFormats (img : Image) (formats_mask : FormatMask)
| TryDecodeWithMap (img : Image) (offset : Z * Z) (scale : float)
| Code128Focused (img : Image).

(** What the attempt yields; a function of the attempt alone, as the
    decoder is a function of its input. *)
Definition outcome (a : Attempt) : Exc (list DetectedBarcode) :=
  match a with
  | TryDecode img => _try_decode Image _read_barcodes_with_opts img
  | TryDecodeFormats img m => _try_decode_formats Image _read_barcodes_with_opts img m
  | TryDecodeWithMap img off s =>
      _try_decode_with_map Image _read_barcodes_with_opts img off s
  | Code128Focused img => _code128_focused img
  end.

(** An entry of the call log: the orientation probe on the base image, or
    the attempt of a tier. *)
Inductive Call :=
| QuickScan (img : Image)
| Tier (a : Attempt).

(** How a block of statements ends: it falls through to the next
    statement, the function returns, or an exception travels up. *)
Inductive Flow :=
| Fallthrough
| Returned (res : list DetectedBarcode)
| Raised (e : exn).

(** A block of statements: from the call log so far to the way the block
    ends and the log then. *)
Definition Stmt : Type := list Call -> Flow * list Call.

Definition skip : Stmt := fun log => (Fallthrough, log).

Definition return_ (res : list DetectedBarcode) : Stmt := fun log => (Returned res, log).

Definition raise (e : exn) : Stmt := fun log => (Raised e, log).

Definition seq (s1 s2 : Stmt) : Stmt := fun log =>
  match s1 log with
  | (Fallthrough, log') => s2 log'
  | other => other
  end.

(** [try: s except Exception: pass]. *)
Definition try_pass (s : Stmt) : Stmt := fun log =>
  match s log with
  | (Raised _, log') => (Fallthrough, log')
  | other => other
  end.

(** [for x in xs: body(x)]. *)
Fixpoint for_each {A} (xs : list A) (body : A -> Stmt) : Stmt :=
  match xs with
  | [] => skip
  | x :: r => seq (body x) (for_each r body)
  end.

(** [for r in res: r.detection_method = label], when the tier has a label. *)
Definition tag (label : option string) (res : list DetectedBarcode)
  : list DetectedBarcode :=
  match label with
  | Some l => List.map (set_detection_method l) res
  | None => res
  end.

(** The log after one more call. *)
Definition logged (log : list Call) (c : Call) : list Call := app log [c].

(** [res = <attempt>; if res: <tag>; return res]. *)
Definition attempt (a : Attempt) (label : option string) : Stmt := fun log =>
  match outcome a with
  | Raise e => (Raised e, logged log (Tier a))
  | Ok [] => (Fallthrough, logged log (Tier a))
  | Ok res => (Returned (tag label res), logged log (Tier a))
  end.

(** [x = <variant>; <rest>], where making the variant may raise. *)
Definition bind_image (variant : Exc Image) (rest : Image -> Stmt) : Stmt := fun log =>
  match variant with
  | Ok x => rest x log
  | Raise e => (Raised e, log)
  end.

(** The base image: the input, downscaled when [max_side] asks for it. *)
Definition base_image (img : Image) (max_side : option Z) : Exc Image :=
  match max_side with
  | None => Ok img
  | Some m =>
      let '(w, h) := size img in
      if m =? 0 then Raise ZeroDivisionError
      else
        let scale := PyFloat.int_div (Z.max w h) (PyFloat.of_int m) in
        if PyFloat.gt scale 1%float
        then resize (PyFloat.trunc (PyFloat.int_div w scale),
                     PyFloat.trunc (PyFloat.int_div h scale)) img
        else Ok img
  end.

(** [base.resize((int(w * f), int(h * f)))]. *)
Definition scaled (f : float) (w h : Z) (base : Image) : Exc Image :=
  resize (PyFloat.trunc (PyFloat.int_mul w f), PyFloat.trunc (PyFloat.int_mul h f)) base.

(** The two rotations tried for an upright symbol. *)
Definition vertical_rotations (base : Image) : Stmt :=
  for_each [90; -90] (fun angle =>
    try_pass (attempt (TryDecodeFormats (rotate angle base) upc_formats)
                      (Some ("upc-vertical-rotated-" ++ pretty angle)))).

(** [for result in quick_scan], left by [break] after the first upright
    symbol. *)
Fixpoint precheck_loop (base : Image) (quick_scan : list RawResult) : Stmt :=
  match quick_scan with
  | [] => skip
  | result :: rest =>
      match position result with
      | Some pos =>
          if is_vertical pos then vertical_rotations base
          else precheck_loop base rest
      | None => precheck_loop base rest
      end
  end.

(** The orientation pre-check. *)
Definition precheck (base : Image) : Stmt :=
  try_pass (fun log =>
    match _read_barcodes_with_opts base None with
    | Raise e => (Raised e, logged log (QuickScan base))
    | Ok quick_scan => precheck_loop base quick_scan (logged log (QuickScan base))
    end).

(** The list [variants]. *)
Definition variants (base : Image) : list Image :=
  [ base; rotate 90 base; rotate 180 base; rotate 270 base;
    gray_autocontrast base; enhance_contrast 1.6%float base; sharpen base ].

(** The aggressive fast path: small angle corrections, then a 2x upscale. *)
Definition aggressive_fast_path (base : Image) : Stmt :=
  seq (for_each [-4; 4; -8] (fun a => attempt (TryDecode (rotate a base)) None))
      (let '(w, h) := size base in
       if Z.max w h <? 1800
       then bind_image (scaled 2%float w h base)
                       (fun scaled => attempt (TryDecode scaled) None)
       else skip).

(** The upscale fallback for small images. *)
Definition upscale_fallback (aggressive : bool) (base : Image) : Stmt :=
  let '(w, h) := size base in
  if Z.max w h <? 1200
  then bind_image (scaled (if aggressive then 2.2%float else 1.8%float) w h base)
                  (fun scaled => attempt (TryDecode scaled) None)
  else skip.

(** The 3x3 grid scan over the input image. *)
Definition grid_fallback (img : Image) : Stmt :=
  let '(W, H) := size img in
  for_each (_grid_boxes W H 3) (fun box =>
    let '(l, t, r, b) := box in
    let cropped := crop box img in
    let '(cw, ch) := size cropped in
    let max_dim := Z.max cw ch in
    if max_dim <? 1600 then
      if max_dim =? 0 then raise ZeroDivisionError
      else
        let scale := PrimFloat.div 1600%float (PyFloat.of_int max_dim) in
        bind_image (scaled scale cw ch cropped)
                   (fun cropped => attempt (TryDecodeWithMap cropped (l, t) scale) None)
    else attempt (TryDecodeWithMap cropped (l, t) 1%float) None).

(** The quick 1D-only pass on the base image. *)
Definition linear_fast_pass (base : Image) : Stmt :=
  try_pass (attempt (TryDecodeFormats base linear_formats) None).

(** Strategy 1 of the aggressive block: three UPC/EAN-only passes. *)
Definition upc_only_passes (base : Image) : Stmt :=
  try_pass
    (seq (attempt (TryDecodeFormats (enhance_contrast 1.8%float base) upc_formats)
                  (Some "upc-contrast-enhanced"))
    (seq (let '(w, h) := size base in
          if Z.max w h <? 2200
          then bind_image (scaled 2.2%float w h base)
                 (fun upscaled =>
                    attempt (TryDecodeFormats upscaled upc_formats) (Some "upc-upscaled"))
          else skip)
         (attempt (TryDecodeFormats (sharpen (sharpen (sharpen base))) upc_formats)
                  (Some "upc-triple-sharpened (difficult)")))).

(** Strategies 2 to 5 of the aggressive block. *)
Definition difficult_passes (base : Image) : Stmt :=
  let '(w, h) := size base in
  seq (attempt (TryDecode (sharpen (sharpen base))) (Some "double-sharpened (difficult)"))
  (seq (attempt (TryDecode (sharpen (sharpen (enhance_contrast 2%float base))))
                (Some "high-contrast-enhanced (difficult)"))
  (seq (if Z.max w h <? 2000
        then bind_image (scaled 2.5%float w h base)
               (fun huge => attempt (TryDecode huge) (Some "large-upscaled (difficult)"))
        else skip)
       (if 2000 <=? Z.max w h
        then bind_image (scaled 1.5%float w h base)
               (fun upscaled =>
                  attempt (TryDecodeFormats upscaled [Code128])
                          (Some "code128-large-upscaled (difficult)"))
        else skip))).

(** The final fallback. Its results keep their [detection_method]: a
    dataclass instance always has the attribute, so the [hasattr] guard
    never lets the label through. *)
Definition final_fallback (base : Image) : Stmt :=
  let '(w, h) := size base in
  bind_image
    (if 2400 <? Z.max w h
     then
       let scale := PrimFloat.div 2400%float (PyFloat.of_int (Z.max w h)) in
       scaled scale w h base
     else Ok base)
    (fun code128_img => attempt (Code128Focused code128_img) None).

Definition when (c : bool) (s : Stmt) : Stmt := if c then s else skip.

(** The tiers of [detect_barcodes], in source order, after [base] is
    known. *)
Definition cascade_tiers (img base : Image) (aggressive : bool) : Stmt :=
  seq (precheck base)
  (seq (when aggressive (aggressive_fast_path base))
  (seq (for_each (variants base) (fun v => attempt (TryDecode v) None))
  (seq (upscale_fallback aggressive base)
  (seq (when aggressive (grid_fallback img))
  (seq (linear_fast_pass base)
  (seq (when aggressive (seq (upc_only_passes base) (difficult_passes base)))
       (when aggressive (final_fallback base)))))))).

(** The body of [detect_barcodes]: the tiers, then [return []]. *)
Definition cascade (img base : Image) (aggressive : bool) : Stmt :=
  seq (cascade_tiers img base aggressive) (return_ []).

(** Detect barcodes with multiple transforms/rotations for robustness: the
    value returned or the exception raised, and the log of decoder calls.
    [img] is [preloaded_image or load_image(path)]. *)
Definition detect_barcodes (img : Image) (max_side : option Z) (aggressive : bool)
  : Exc (list DetectedBarcode) * list Call :=
  match base_image img max_side with
  | Raise e => (Raise e, [])
  | Ok base =>
      match cascade img base aggressive [] with
      | (Returned res, log) => (Ok res, log)
      | (Raised e, log) => (Raise e, log)
      | (Fallthrough, log) => (Ok [], log)
      end
  end.

End Cascade.

(* ===================================================================== *)
(** ** caper_normalizer.py: price-embedded test *)
(* ===================================================================== *)

(** Check if a barcode is price-embedded. *)
Definition is_price_embedded (value barcode_type : string) : bool :=
  let raw := _digits_only value in
  if PyStr.mem barcode_type ["UPC-A"; "UPCA"] && PyStr.startswith "2" raw then true
  else if String.eqb barcode_type "EAN-13" && (2 <=? PyStr.len raw)
          && PyStr.mem (PyStr.slice None (Some 2) raw)
               ["20"; "21"; "22"; "23"; "24"; "25"; "26"; "27"; "28"; "29"]
  then true
  else if (PyStr.len raw =? 13) && PyStr.startswith "002" raw then true
  else false.

(* ===================================================================== *)
(** ** processor.py: further helpers *)
(* ===================================================================== *)

(** Validate DataBar checksum to detect false positives. The [try] block
    of the source cannot raise: where it runs, [gtin] holds fourteen
    digits. *)
Definition _validate_databar_checksum (value : string) : bool :=
  if negb (PyStr.nonempty value) then false
  else
    let clean := str_replace ")" EmptyString (str_replace "(" EmptyString value) in
    let digits_only := PyStr.filter_chars PyStr.isdigit_char clean in
    if PyStr.len digits_only <? 14 then false
    else
      let gtin :=
        if PyStr.startswith "01" digits_only && (16 <=? PyStr.len digits_only)
        then PyStr.slice (Some 2) (Some 16) digits_only
        else if PyStr.len digits_only =? 14
        then PyStr.slice None (Some 14) digits_only
        else PyStr.slice None (Some 14) digits_only in
      if negb (PyStr.len gtin =? 14) then false
      else
        let total :=
          fold_left (fun total i =>
                       if Z.of_nat i mod 2 =? 0
                       then total + digit_at gtin i * 3
                       else total + digit_at gtin i)
                    (py_range 0 13 1) 0 in
        let check_digit := (10 - (total mod 10)) mod 10 in
        check_digit =? digit_at gtin 13.

(** The area of the bounding box of the quad, 0 without a quad. *)
Definition _quad_area (b : DetectedBarcode) : Z :=
  match quad b with
  | [] => 0
  | p :: ps =>
      let xs := List.map fst ps in
      let ys := List.map snd ps in
      let w := list_max (fst p) xs - list_min (fst p) xs in
      let h := list_max (snd p) ys - list_min (snd p) ys in
      Z.max 0 w * Z.max 0 h
  end.

(* ===================================================================== *)
(** ** unified_barcode_detector.py *)
(* ===================================================================== *)

(** Loop state of [detect_barcodes_unified]. *)
Record UnifiedState := mkUnified {
  found_values : gset string;
  results : list DetectedBarcode
}.

(** One iteration of [for barcode in zxing_results]. *)
Definition unified_step (aggressive : bool) (st : UnifiedState) (barcode : DetectedBarcode)
  : UnifiedState :=
  if bool_decide (barcode_value barcode ∈ found_values st) then st
  else
    let found := found_values st ∪ {[ barcode_value barcode ]} in
    let barcode :=
      if negb (truthy (detection_method barcode))
      then set_detection_method
             (if aggressive then "zxing-cpp (aggressive)" else "zxing-cpp") barcode
      else barcode in
    mkUnified found (results st ++ [barcode]).

(** The de-duplication loop on the primary detector's results. *)
Definition unified_results (aggressive : bool) (zxing_results : list DetectedBarcode)
  : list DetectedBarcode :=
  results (fold_left (unified_step aggressive) zxing_results (mkUnified ∅ [])).

Section Unified.

Variable Image : Type.
Variable size : Image -> Z * Z.
Variable rotate : Z -> Image -> Image.
Variable resize : Z * Z -> Image -> Exc Image.
Variable crop : Box -> Image -> Image.
Variable gray_autocontrast : Image -> Image.
Variable enhance_contrast : float -> Image -> Image.
Variable sharpen : Image -> Image.
Variable _read_barcodes_with_opts : Image -> option FormatMask -> Exc (list RawResult).
Variable _code128_focused : Image -> Exc (list DetectedBarcode).

(** Unified barcode detection; [detect_zxing] is
    [barcode_parser.detect_barcodes]. The flag [try_fallback] is accepted
    and not consulted. *)
Definition detect_barcodes_unified (img : Image) (max_side : option Z)
  (aggressive try_fallback : bool) : Exc (list DetectedBarcode) :=
  zxing_results ← fst (detect_barcodes Image size rotate resize crop gray_autocontrast
                         enhance_contrast sharpen _read_barcodes_with_opts
                         _code128_focused img max_side aggressive);
  Ok (unified_results aggressive zxing_results).

(** Best-effort detection with all strategies enabled. *)
Definition detect_barcodes_best (img : Image) (max_side : option Z) (aggressive : bool)
  : Exc (list DetectedBarcode) :=
  detect_barcodes_unified img max_side aggressive true.

End Unified.

(* ===================================================================== *)
(** ** gs1_parser.py *)
(* ===================================================================== *)

(** [AI_PATTERN = \((\d{2,4})\)] matched at the start of [s]: an opening
    parenthesis, a run of two to four digits, a closing parenthesis. The
    value is the group and the length of the match. *)
Definition ai_match_here (s : string) : option (string * nat) :=
  match s with
  | String c r =>
      let ai := leading_digits r in
      let n := String.length ai in
      if Ascii.eqb c "(" && (2 <=? n)%nat && (n <=? 4)%nat
         && PyStr.startswith ")" (PyStr.drop n r)
      then Some (ai, (n + 2)%nat) else None
  | EmptyString => None
  end.

(** The leftmost match in [s], which begins at position [offset] of the
    data: the group, [m.start()] and [m.end()]. *)
Fixpoint ai_search_from (s : string) (offset : nat) : option (string * nat * nat) :=
  match ai_match_here s with
  | Some (ai, n) => Some (ai, offset, (offset + n)%nat)
  | None =>
      match s with
      | EmptyString => None
      | String _ r => ai_search_from r (S offset)
      end
  end.

(** [AI_PATTERN.search(data, pos)]. *)
Definition AI_PATTERN_search (data : string) (pos : nat) : option (string * nat * nat) :=
  ai_search_from (PyStr.drop pos data) pos.

(** [FIXED_LENGTH.get(ai)]. *)
Definition FIXED_LENGTH : list (string * nat) := [("01", 14); ("17", 6); ("15", 6)]%nat.

Fixpoint fixed_length_get (ai : string) (d : list (string * nat)) : option nat :=
  match d with
  | [] => None
  | (k, v) :: r => if String.eqb ai k then Some v else fixed_length_get ai r
  end.

(** [data[a:b]] for positions counted from the start. *)
Definition substring_between (a b : nat) (data : string) : string :=
  PyStr.slice (Some (Z.of_nat a)) (Some (Z.of_nat b)) data.

(** The loop [while True] of [parse_gs1], from position [pos] with the
    dict [result]. Every iteration moves [pos] past a match; [fuel] bounds
    the number of iterations, and [None] says that it ran out. *)
Fixpoint parse_loop (fuel : nat) (data : string) (pos : nat) (result : gmap string string)
  : option (gmap string string) :=
  match fuel with
  | O => None
  | S fuel' =>
      match AI_PATTERN_search data pos with
      | None => Some result
      | Some (ai, _, start) =>
          match fixed_length_get ai FIXED_LENGTH with
          | Some length =>
              let val := substring_between start (start + length) data in
              parse_loop fuel' data (start + length) (<[ai := val]> result)
          | None =>
              let next_m := AI_PATTERN_search data start in
              let stop :=
                match next_m with
                | Some (_, next_start, _) => next_start
                | None => String.length data
                end in
              let val := substring_between start stop data in
              parse_loop fuel' data (start + String.length val) (<[ai := val]> result)
          end
      end
  end.

(** Parse a GS1 element string, returning a dict of AI->value. The loop
    gets one unit of fuel per character and one more, which it never uses
    up. *)
Definition parse_gs1 (data : string) : gmap string string :=
  if negb (PyStr.nonempty data) then ∅
  else
    let result := default ∅ (parse_loop (S (String.length data)) data 0 ∅) in
    if bool_decide (result = ∅) && PyStr.startswith "01" data && (16 <=? PyStr.len data)
    then
      let gtin := PyStr.slice (Some 2) (Some 16) data in
      let result := <["01" := gtin]> result in
      let rest := PyStr.slice (Some 16) None data in
      if PyStr.startswith "10" rest
      then <["10" := PyStr.slice (Some 2) None rest]> result
      else result
    else result.

Definition extract_gtin (data : string) : option string := parse_gs1 data !! "01".

(* ===================================================================== *)
(** ** processor.py: _validate_name *)
(* ===================================================================== *)

(** The methods of [str] and the classes of [re] that [_validate_name]
    uses, on ASCII text. *)
Module PyText.

(** [ch.isspace()], which is also the class [\s]: tab to carriage return,
    the separators 28 to 31 and the space. *)
Definition isspace_char (c : ascii) : bool :=
  let n := nat_of_ascii c in
  ((9 <=? n)%nat && (n <=? 13)%nat) || ((28 <=? n)%nat && (n <=? 32)%nat).

Definition isupper_char (c : ascii) : bool :=
  let n := nat_of_ascii c in (65 <=? n)%nat && (n <=? 90)%nat.

Definition islower_char (c : ascii) : bool :=
  let n := nat_of_ascii c in (97 <=? n)%nat && (n <=? 122)%nat.

(** The class [[A-Za-z]]. *)
Definition isalpha_char (c : ascii) : bool := isupper_char c || islower_char c.

(** The class [[A-Za-z0-9]]. *)
Definition isalnum_char (c : ascii) : bool := isalpha_char c || PyStr.isdigit_char c.

(** The class [\w]. *)
Definition isword_char (c : ascii) : bool := isalnum_char c || Ascii.eqb c "_".

Fixpoint lstrip (s : string) : string :=
  match s with
  | String c r => if isspace_char c then lstrip r else s
  | EmptyString => EmptyString
  end.

Fixpoint rstrip (s : string) : string :=
  match s with
  | String c r =>
      let r' := rstrip r in
      if isspace_char c && negb (PyStr.nonempty r') then EmptyString else String c r'
  | EmptyString => EmptyString
  end.

(** [s.strip()]. *)
Definition strip (s : string) : string := rstrip (lstrip s).

Definition lower_char (c : ascii) : ascii :=
  if isupper_char c then ascii_of_nat (nat_of_ascii c + 32) else c.

(** [s.lower()]. *)
Fixpoint lower (s : string) : string :=
  match s with
  | String c r => String (lower_char c) (lower r)
  | EmptyString => EmptyString
  end.

(** [s.isupper()]: some cased character, and no lowercase one. *)
Definition isupper (s : string) : bool :=
  PyStr.any_chars isupper_char s && negb (PyStr.any_chars islower_char s).

(** [re.split(r"\s+", s)], as its first piece and the pieces after it. *)
Fixpoint split_whitespace (s : string) : string * list string :=
  match s with
  | EmptyString => (EmptyString, [])
  | String c r =>
      let '(w, ws) := split_whitespace r in
      if isspace_char c then
        match r with
        | String c' _ => if isspace_char c' then (EmptyString, ws) else (EmptyString, w :: ws)
        | EmptyString => (EmptyString, w :: ws)
        end
      else (String c w, ws)
  end.

Definition re_split_whitespace (s : string) : list string :=
  let '(w, ws) := split_whitespace s in w :: ws.

End PyText.

Definition BAD_TERMS : list string :=
  ["upc"; "ean"; "isbn"; "barcode"; "lookup"; "search"; "generator"; "validator"; "database"].

(** [\d{8,14}\b] matched at the head of [s]: the digits at the head are
    eight to fourteen, and a word character does not follow them. (With
    fewer digits taken a digit follows, which is no boundary.) *)
Definition code_match_here (s : string) : bool :=
  let n := String.length (leading_digits s) in
  (8 <=? n)%nat && (n <=? 14)%nat
  && match PyStr.drop n s with
     | String c _ => negb (PyText.isword_char c)
     | EmptyString => true
     end.

(** [RE_CODE.search] from a position on; [prev_word] tells whether a word
    character precedes it. *)
Fixpoint RE_CODE_search_from (prev_word : bool) (s : string) : bool :=
  (negb prev_word && code_match_here s)
  || match s with
     | String c r => RE_CODE_search_from (PyText.isword_char c) r
     | EmptyString => false
     end.

(** [RE_CODE.search(s)] as a truth value. *)
Definition RE_CODE_search (s : string) : bool := RE_CODE_search_from false s.

Definition letters_of (s : string) : string := PyStr.filter_chars PyText.isalpha_char s.

Definition _validate_name (candidate : option string) (barcode_value : string)
  : option string :=
  match candidate with
  | None => None
  | Some candidate =>
      if negb (PyStr.nonempty candidate) then None else
      let c := PyText.strip candidate in
      if negb (PyStr.nonempty c) then None else
      let lc := PyText.lower c in
      if existsb (fun term => PyStr.contains term lc) BAD_TERMS then None else
      if String.eqb c barcode_value
         || (RE_CODE_search c && negb (PyStr.any_chars PyText.isalpha_char c))
      then None else
      let letters_only := letters_of c in
      if PyStr.len letters_only <? 4 then None else
      let alnum := PyStr.filter_chars PyText.isalnum_char c in
      if negb (PyStr.nonempty alnum) then None else
      let alpha_ratio :=
        PrimFloat.div (PyFloat.of_int (PyStr.len letters_only))
                      (PyFloat.of_int (PyStr.len alnum)) in
      if PyFloat.lt alpha_ratio 0.65%float then None else
      let words := List.filter PyStr.nonempty (PyText.re_split_whitespace c) in
      let avg_len :=
        match words with
        | [] => 0%float
        | _ :: _ =>
            PrimFloat.div
              (PyFloat.of_int
                 (fold_right Z.add 0 (List.map (fun w => PyStr.len (letters_of w)) words)))
              (PyFloat.of_int (Z.of_nat (length words)))
        end in
      if PyFloat.lt avg_len 3%float then None else
      if (Z.of_nat (length words) =? 1) && (PyStr.len letters_only <=? 6)
         && PyText.isupper c
      then None else
      Some c
  end.

(* ===================================================================== *)
(** * Vocabulary of the statements *)
(* ===================================================================== *)

(** ** Candidate lists *)

(** A step of the normalizer only ever appends, and never a string that is
    already there. *)
Definition grows (cs cs' : list string) : Prop :=
  exists suffix, cs' = (cs ++ suffix)%list /\ (NoDup cs -> NoDup cs').

(** ** Deduplication *)

(** The pair on which [_dedupe_and_filter] compares detections. *)
Definition key (b : DetectedBarcode) : string * string :=
  (barcode_type b, barcode_value b).

(** The types that pass through the checksum gate. *)
Definition GATED_TYPES : list string := ["EAN-13"; "EAN-8"; "UPC-A"].

(** A detection gets past the checksum gate. *)
Definition passes_gate (b : DetectedBarcode) : bool :=
  negb (PyStr.mem (barcode_type b) GATED_TYPES
        && negb (_is_valid_upcean (barcode_type b) (barcode_value b))).

(** The GTIN check: with weight 1 on the last digit and weights 3 and 1
    alternating leftwards, the weighted digit sum is a multiple of 10. *)
Definition gtin_check_ok (s : string) : bool :=
  weighted_sum (if Nat.even (String.length s) then 0 else 1) s mod 10 =? 0.

(** The number of digits of a gated symbology. *)
Definition gated_length (t : string) : Z :=
  if String.eqb t "EAN-13" then 13
  else if String.eqb t "EAN-8" then 8
  else 12.

(** The next character of a string whose length is known. *)
Ltac next_char s Hlen := destruct s as [|? s]; [simpl in Hlen; lia|].

(** After the length and digit tests of a checksum function, with the
    string spelled out: both sides are sums of digit values, equal by
    [check] (the check digit against the total) and [bounds] (a digit is
    between 0 and 9). *)
Ltac sum_up_digits Hdig check bounds :=
  unfold PyStr.isdigit in Hdig;
  cbn [PyStr.nonempty PyStr.all_chars andb] in Hdig;
  repeat (apply andb_true_iff in Hdig as [? Hdig]);
  unfold gtin_check_ok, py_range, sum_digits, digit_at, PyStr.index;
  cbn [String.length Nat.even weighted_sum List.seq List.map fold_left
       Nat.sub Nat.add Nat.mul Nat.div Nat.divmod fst snd];
  simpl String.get;
  rewrite check by (apply bounds; assumption);
  f_equal; f_equal; lia.

(** The detection is of type [t]. *)
Definition has_type (t : string) (b : DetectedBarcode) : bool :=
  String.eqb (barcode_type b) t.

(** What holds of the loop state after the detections [l] were visited. *)
Record dedupe_inv (l : list DetectedBarcode) (st : DedupeState) : Prop := {
  inv_seen : forall k, k ∈ seen st <-> k ∈ List.map key (unique st);
  inv_types : forall t, t ∈ seen_types st <->
    is_upcean_type t = true /\ exists b, b ∈ unique st /\ barcode_type b = t;
  inv_sub : sublist (unique st) l;
  inv_nodup : NoDup (List.map key (unique st));
  inv_gate : forall b, b ∈ unique st -> passes_gate b = true;
  inv_first : forall t, is_upcean_type t = true ->
    List.filter (has_type t) (unique st)
    = firstn 1 (List.filter (fun b => has_type t b && passes_gate b) l);
  inv_other : forall b, b ∈ l -> is_upcean_type (barcode_type b) = false ->
    key b ∈ List.map key (unique st)
}.

(** Two loop states of [_dedupe_and_filter] that agree up to the quads and
    detection methods of the kept detections. *)
Definition same_keys (st st' : DedupeState) : Prop :=
  seen st = seen st' /\ seen_types st = seen_types st'
  /\ List.map key (unique st) = List.map key (unique st').

(** ** Rows *)

(** Neither a DataBar type nor one of the four UPC/EAN types. *)
Definition outside_displaced_families (b : DetectedBarcode) : bool :=
  negb (is_databar_type (barcode_type b)) && negb (is_upcean_type (barcode_type b)).

(** Collaborators that find nothing, for the worked examples. *)
Definition no_ocr_band : unit -> list (list Point) -> option string := fun _ _ => None.
Definition no_ocr_name : unit -> list Point -> option string := fun _ _ => None.
Definition no_deep_lookup
  : string -> option string -> option string -> option string -> option string :=
  fun _ _ _ _ => None.
Definition no_lookup : string -> option string := fun _ => None.
Definition keep_name : option string -> string -> option string := fun n _ => n.

Definition plain_options : ProcessOptions.t :=
  ProcessOptions.mk false false false false false false false None None None true.

(** [process_image_to_rows] with those collaborators. *)
Definition rows_without_collaborators (barcodes : list DetectedBarcode)
  : list RowDraft.t :=
  process_image_to_rows unit no_ocr_band no_ocr_band no_ocr_name no_ocr_name
    no_deep_lookup no_lookup no_lookup no_lookup keep_name tt barcodes plain_options.

Definition quad_A : list Point := [(10, 10); (210, 10); (210, 90); (10, 90)].
Definition quad_B : list Point := [(10, 300); (310, 300); (310, 380); (10, 380)].

(** Reads of one image: a misread and two good EAN-13, two UPC-E, and one
    Code 39 seen twice. *)
Definition repeated_reads : list DetectedBarcode :=
  [ mkDetected "EAN-13" "4006381333930" [] None;
    mkDetected "EAN-13" "4006381333931" quad_A None;
    mkDetected "EAN-13" "5901234123457" quad_B None;
    mkDetected "UPC-E" "0123456X" [] None;
    mkDetected "UPC-E" "01234565" [] None;
    mkDetected "Code 39" "LOT-7" quad_A None;
    mkDetected "Code 39" "LOT-7" quad_B None ].

(** The scenario of the spec: an EAN-13 and a Code 128 read of one image. *)
Definition ean13_and_code128 : list DetectedBarcode :=
  [ mkDetected "EAN-13" "4006381333931" quad_A None;
    mkDetected "Code 128" "4006381333931XYZ" quad_B None ].

(** ** The stacked-duplicate pass *)

(** The order in which [sorted] leaves two entries. *)
Definition key_le (x y : nat * option Box) : Prop := top_key x <= top_key y.

(** What the outer loop establishes from a set [dropped] on: entries are
    only added, each added entry lies stacked under an entry that stays,
    and no two entries that stay are stacked. *)
Record outer_post (order : list (nat * option Box)) (dropped D : gset nat) : Prop := {
  post_mono : dropped ⊆ D;
  post_dropped : forall j, j ∈ D -> (j ∈ dropped) \/
    exists i bi bj, (i, Some bi) ∈ order /\ (j, Some bj) ∈ order /\ (i ∉ D)
      /\ stacked bi bj = true /\ box_top bi <= box_top bj;
  post_kept : forall i j bi bj,
    (i, Some bi) ∈ order -> (j, Some bj) ∈ order -> i <> j ->
    i ∉ D -> j ∉ D -> stacked bi bj = false
}.

(** The pairs [(i, _bbox_from_quad(b))] of [_prefer_topmost_stacked]. *)
Definition indexed_boxes (barcodes : list DetectedBarcode) : list (nat * option Box) :=
  List.map (fun ib => (fst ib, _bbox_from_quad (snd ib))) (enumerate barcodes).

(** The quad of the rectangle from [(x1, y1)] to [(x2, y2)]. *)
Definition rect (x1 y1 x2 y2 : Z) : list Point := [(x1, y1); (x2, y1); (x2, y2); (x1, y2)].

(** Two Code 128 labels printed one above the other. *)
Definition upper_label : DetectedBarcode :=
  mkDetected "Code 128" "SHIP0000000001" (rect 0 0 100 50) None.
Definition lower_label : DetectedBarcode :=
  mkDetected "Code 128" "SHIP0000000002" (rect 0 200 100 250) None.

(** ** Coordinate remapping *)

(** [[f(x) for x in l]] where [f] may raise: the first exception wins. *)
Fixpoint exc_mapM {A B} (f : A -> Exc B) (l : list A) : Exc (list B) :=
  match l with
  | [] => Ok []
  | x :: r => y ← f x; ys ← exc_mapM f r; Ok (y :: ys)
  end.

(** The remapping as the spec words it: a point [(x, y)] of the variant
    cropped at [(ox, oy)] and scaled by [s] goes to
    [(ox + int(x * (1/s)), oy + int(y * (1/s)))]. *)
Definition remap_point (ox oy : Z) (s : float) (p : Point) : Exc Point :=
  ix ← PyFloat.to_int (PyFloat.int_mul (fst p) (PrimFloat.div 1%float s));
  iy ← PyFloat.to_int (PyFloat.int_mul (snd p) (PrimFloat.div 1%float s));
  Ok (ox + ix, oy + iy).

(** The raw quad points the decoder reports for a result: the four
    corners of its position, clockwise from the top left; none when it
    reports no position. *)
Definition reported_corners (r : RawResult) : list Point :=
  match position r with
  | Some p => [top_left p; top_right p; bottom_right p; bottom_left p]
  | None => []
  end.

(** The detection made of a raw result, its corners remapped one by one. *)
Definition remapped (ox oy : Z) (s : float) (r : RawResult) : Exc DetectedBarcode :=
  quad ← exc_mapM (remap_point ox oy s) (reported_corners r);
  Ok (mkDetected (_friendly_format (format r)) (default EmptyString (text r)) quad None).

(** The detections of a result list: every raw result remapped, those
    with a text kept. *)
Definition remapped_detections (ox oy : Z) (s : float) (results : list RawResult)
  : Exc (list DetectedBarcode) :=
  ds ← exc_mapM (remapped ox oy s) results;
  Ok (List.filter (fun d => PyStr.nonempty (barcode_value d)) ds).

(** The second wording of the spec, [offset + raw_point / scale] truncated:
    [(ox + int(x / s), oy + int(y / s))], the quotient taken in binary64. *)
Definition quotient_point (ox oy : Z) (s : float) (p : Point) : Exc Point :=
  ix ← PyFloat.to_int (PyFloat.int_div (fst p) s);
  iy ← PyFloat.to_int (PyFloat.int_div (snd p) s);
  Ok (ox + ix, oy + iy).

(** The detections of a result list under that second wording. *)
Definition quotient_detections (ox oy : Z) (s : float) (results : list RawResult)
  : Exc (list DetectedBarcode) :=
  ds ← exc_mapM (fun r =>
          quad ← exc_mapM (quotient_point ox oy s) (reported_corners r);
          Ok (mkDetected (_friendly_format (format r)) (default EmptyString (text r))
                quad None)) results;
  Ok (List.filter (fun d => PyStr.nonempty (barcode_value d)) ds).

(** A decoder stub with one EAN-13 read in the pixel space of a grid cell
    345 pixels wide that was enlarged to 1600 pixels. *)
Definition enlarged_cell_stub (_ : unit) (_ : option FormatMask) : Exc (list RawResult) :=
  Ok [mkRaw "BarcodeFormat.EAN13" (Some "4006381333931")
        (Some (mkPosition (960, 320) (1440, 320) (1440, 480) (960, 480)))].

(** A decoder stub with one EAN-13 read in the variant's pixel space. *)
Definition one_read_stub (_ : unit) (_ : option FormatMask) : Exc (list RawResult) :=
  Ok [mkRaw "BarcodeFormat.EAN13" (Some "4006381333931")
        (Some (mkPosition (40, 60) (441, 60) (441, 161) (40, 161)))].

(** ** The cascade as a schedule of calls *)

(** A raw result with a position that stands upright. *)
Definition upright (r : RawResult) : bool :=
  match position r with
  | Some pos => is_vertical pos
  | None => false
  end.

Section CascadePlan.

Variable Image : Type.
Variable size : Image -> Z * Z.
Variable rotate : Z -> Image -> Image.
Variable resize : Z * Z -> Image -> Exc Image.
Variable crop : Box -> Image -> Image.
Variable gray_autocontrast : Image -> Image.
Variable enhance_contrast : float -> Image -> Image.
Variable sharpen : Image -> Image.
Variable _read_barcodes_with_opts : Image -> option FormatMask -> Exc (list RawResult).
Variable _code128_focused : Image -> Exc (list DetectedBarcode).

Local Abbreviation call := (Call Image).
Local Abbreviation stmt := (Stmt Image).
Local Abbreviation tier := (Tier Image).
Local Abbreviation TD := (TryDecode Image).
Local Abbreviation TDF := (TryDecodeFormats Image).
Local Abbreviation TDM := (TryDecodeWithMap Image).
Local Abbreviation outcome_of := (outcome Image _read_barcodes_with_opts _code128_focused).
Local Abbreviation scaled_ := (scaled Image resize).

(** A step of the plan of a cascade: the orientation probe, the decode
    attempt of a tier with the label its detections get, or a preparation
    (a resize, a division) that fails with an exception instead of giving
    a variant to try. *)
Inductive Step :=
| Probe (img : Image)
| Try (a : Attempt Image) (label : option string)
| Fails (e : exn).

(** The step on a variant that has to be made first. *)
Definition prepared (variant : Exc Image) (step : Image -> Step) : Step :=
  match variant with
  | Ok x => step x
  | Raise e => Fails e
  end.

(** The early-stopping priority search over a plan: the steps are taken in
    order; the first attempt that yields detections ends the search with
    them, under the label of its tier; an exception ends the search too;
    a search that runs out of steps has found nothing. The value is how
    the search ends and the decoder calls it made. *)
Fixpoint search (P : list Step) : Exc (list DetectedBarcode) * list call :=
  match P with
  | [] => (Ok [], [])
  | Probe x :: rest =>
      let '(res, calls) := search rest in (res, QuickScan Image x :: calls)
  | Try a label :: rest =>
      match outcome_of a with
      | Ok [] => let '(res, calls) := search rest in (res, tier a :: calls)
      | Ok ds => (Ok (tag label ds), [tier a])
      | Raise e => (Raise e, [tier a])
      end
  | Fails e :: _ => (Raise e, [])
  end.

(** A step after which the search goes on: the probe, or an attempt that
    yields the empty list. *)
Definition quiet (st : Step) : Prop :=
  match st with
  | Probe _ => True
  | Try a _ => outcome_of a = Ok []
  | Fails _ => False
  end.

(** The decoder calls of the steps. *)
Definition calls_of (P : list Step) : list call :=
  flat_map (fun st =>
              match st with
              | Probe x => [QuickScan Image x]
              | Try a _ => [tier a]
              | Fails _ => []
              end) P.

(** How a block of statements ends when the search ends with [res]. *)
Definition flow_of (res : Exc (list DetectedBarcode)) : Flow :=
  match res with
  | Ok [] => Fallthrough
  | Ok ds => Returned ds
  | Raise e => Raised e
  end.

(** The block [s] performs the search over the plan [P], from any log
    on. *)
Definition performs (P : list Step) (s : stmt) : Prop :=
  forall log, s log = (flow_of (fst (search P)), (log ++ snd (search P))%list).

(** No exception ends the search over [P]. *)
Definition calm (P : list Step) : Prop := forall e, fst (search P) <> Raise e.

(** The steps of the orientation pre-check: the probe, then the two
    rotations if the probe shows an upright symbol. *)
Definition precheck_schedule (base : Image) : list Step :=
  Probe base ::
  match _read_barcodes_with_opts base None with
  | Raise _ => []
  | Ok quick_scan =>
      if existsb upright quick_scan
      then [Try (TDF (rotate 90 base) upc_formats) (Some "upc-vertical-rotated-90");
            Try (TDF (rotate (-90) base) upc_formats) (Some "upc-vertical-rotated--90")]
      else []
  end.

Definition fast_path_schedule (base : Image) : list Step :=
  let '(w, h) := size base in
  ([Try (TD (rotate (-4) base)) None; Try (TD (rotate 4 base)) None;
    Try (TD (rotate (-8) base)) None]
   ++ (if Z.max w h <? 1800
       then [prepared (scaled_ 2%float w h base) (fun x => Try (TD x) None)]
       else []))%list.

Definition variants_schedule (base : Image) : list Step :=
  List.map (fun v => Try (TD v) None)
    (variants Image rotate gray_autocontrast enhance_contrast sharpen base).

Definition upscale_schedule (aggressive : bool) (base : Image) : list Step :=
  let '(w, h) := size base in
  if Z.max w h <? 1200
  then [prepared (scaled_ (if aggressive then 2.2%float else 1.8%float) w h base)
                 (fun x => Try (TD x) None)]
  else [].

(** The step on one grid cell: the crop, enlarged to 1600 pixels when it
    is smaller. A crop without pixels makes the division by its size
    fail. *)
Definition grid_step (img : Image) (box : Box) : Step :=
  let '(l, t, r, b) := box in
  let cropped := crop box img in
  let '(cw, ch) := size cropped in
  let max_dim := Z.max cw ch in
  if max_dim <? 1600
  then
    if max_dim =? 0 then Fails ZeroDivisionError
    else
      let scale := PrimFloat.div 1600%float (PyFloat.of_int max_dim) in
      prepared (scaled_ scale cw ch cropped) (fun x => Try (TDM x (l, t) scale) None)
  else Try (TDM cropped (l, t) 1%float) None.

Definition grid_schedule (img : Image) : list Step :=
  let '(W, H) := size img in
  List.map (grid_step img) (_grid_boxes W H 3).

(** The three UPC/EAN-only passes. They stand in one [try] block: when the
    upscale fails, the block is left and its third pass is not made. *)
Definition upc_only_schedule (base : Image) : list Step :=
  let '(w, h) := size base in
  let triple :=
    Try (TDF (sharpen (sharpen (sharpen base))) upc_formats)
        (Some "upc-triple-sharpened (difficult)") in
  Try (TDF (enhance_contrast 1.8%float base) upc_formats) (Some "upc-contrast-enhanced")
  :: (if Z.max w h <? 2200
      then
        match scaled_ 2.2%float w h base with
        | Ok x => [Try (TDF x upc_formats) (Some "upc-upscaled"); triple]
        | Raise _ => []
        end
      else [triple]).

Definition difficult_schedule (base : Image) : list Step :=
  let '(w, h) := size base in
  ([Try (TD (sharpen (sharpen base))) (Some "double-sharpened (difficult)");
    Try (TD (sharpen (sharpen (enhance_contrast 2%float base))))
        (Some "high-contrast-enhanced (difficult)")]
   ++ (if Z.max w h <? 2000
       then [prepared (scaled_ 2.5%float w h base)
                      (fun x => Try (TD x) (Some "large-upscaled (difficult)"))]
       else [])
   ++ (if 2000 <=? Z.max w h
       then [prepared (scaled_ 1.5%float w h base)
                      (fun x => Try (TDF x [Code128])
                                    (Some "code128-large-upscaled (difficult)"))]
       else []))%list.

Definition final_schedule (base : Image) : list Step :=
  let '(w, h) := size base in
  [prepared (if 2400 <? Z.max w h
             then scaled_ (PrimFloat.div 2400%float (PyFloat.of_int (Z.max w h))) w h base
             else Ok base)
            (fun x => Try (Code128Focused Image x) None)].

(** The plan of a cascade, in the order of the tiers. The list depends on
    the images and the effort flag, on PIL through the sizes it refuses,
    and on the decoder only through the probe of the pre-check. *)
Definition schedule (img base : Image) (aggressive : bool) : list Step :=
  (precheck_schedule base
   ++ (if aggressive then fast_path_schedule base else [])
   ++ variants_schedule base
   ++ upscale_schedule aggressive base
   ++ (if aggressive then grid_schedule img else [])
   ++ [Try (TDF base linear_formats) None]
   ++ (if aggressive then upc_only_schedule base ++ difficult_schedule base else [])
   ++ (if aggressive then final_schedule base else []))%list.

End CascadePlan.

(** ** Stubs for runs of the cascade *)

(** Image variants by the way they were made from a 800x600 source, or
    from a strip of 4801 by 2 pixels. *)
Inductive Pic :=
| Source
| Strip
| Rotated (angle : Z) (p : Pic)
| Resized (wh : Z * Z) (p : Pic)
| Cropped (box : Box) (p : Pic)
| GrayAutocontrast (p : Pic)
| Contrast (factor : float) (p : Pic)
| Sharpened (p : Pic).

Fixpoint pic_size (p : Pic) : Z * Z :=
  match p with
  | Source => (800, 600)
  | Strip => (4801, 2)
  | Rotated _ q => pic_size q
  | Resized wh _ => wh
  | Cropped (l, t, r, b) _ => (r - l, b - t)
  | GrayAutocontrast q => pic_size q
  | Contrast _ q => pic_size q
  | Sharpened q => pic_size q
  end.

(** [Image.resize] of PIL: a copy for the size the image has, ValueError
    for another size with a side below one pixel. *)
Definition pic_resize (wh : Z * Z) (p : Pic) : Exc Pic :=
  if bool_decide (wh = pic_size p) then Ok p
  else if (fst wh <? 1) || (snd wh <? 1) then Raise ValueError
  else Ok (Resized wh p).

(** A decoder that reads one EAN-13 on the contrast-boosted source only. *)
Definition contrast_only_stub (p : Pic) (_ : option FormatMask) : Exc (list RawResult) :=
  match p with
  | Contrast _ Source =>
      Ok [mkRaw "BarcodeFormat.EAN13" (Some "4006381333931")
            (Some (mkPosition (40, 60) (441, 60) (441, 161) (40, 161)))]
  | _ => Ok []
  end.

(** A decoder whose probe shows an upright symbol and that reads an EAN-13
    once the image is turned by -90 degrees. *)
Definition upright_stub (p : Pic) (mask : option FormatMask) : Exc (list RawResult) :=
  match p, mask with
  | Source, None =>
      Ok [mkRaw "BarcodeFormat.RSS14" (Some "0100614141999996")
            (Some (mkPosition (100, 50) (150, 50) (150, 450) (100, 450)))]
  | Rotated angle Source, Some _ =>
      if angle =? -90
      then Ok [mkRaw "BarcodeFormat.EAN13" (Some "4006381333931") None]
      else Ok []
  | _, _ => Ok []
  end.

(** A decoder that never reads anything. *)
Definition blind_stub (_ : Pic) (_ : option FormatMask) : Exc (list RawResult) := Ok [].

Definition no_code128 (_ : Pic) : Exc (list DetectedBarcode) := Ok [].

Definition detect_on_pics (stub : Pic -> option FormatMask -> Exc (list RawResult)) :=
  detect_barcodes Pic pic_size Rotated pic_resize Cropped GrayAutocontrast Contrast
    Sharpened stub no_code128.

(** The plan of such a run, and the search over a plan. *)
Definition schedule_on_pics (stub : Pic -> option FormatMask -> Exc (list RawResult)) :=
  schedule Pic pic_size Rotated pic_resize Cropped GrayAutocontrast Contrast Sharpened stub.

Definition search_on_pics (stub : Pic -> option FormatMask -> Exc (list RawResult)) :=
  search Pic stub no_code128.

(** ** Digit strings *)

(** A string of exactly [n] ASCII digits. *)
Definition digits_of_length (n : nat) (s : string) : Prop :=
  String.length s = n /\ PyStr.all_chars PyStr.isdigit_char s = true.

(** ** UPC-E expansion *)

(** The four expansion rules of [_expand_upce_to_upca] on the eight
    characters number system, five manufacturer/product characters, rule
    selector and check character. *)
Definition upce_rules (c0 c1 c2 c3 c4 c5 c6 c7 : ascii) : option string :=
  if negb (PyStr.mem (String c0 EmptyString) ["0"; "1"]) then None
  else Some
    (if PyStr.mem (String c6 EmptyString) ["0"; "1"; "2"]
     then String c0 (String c1 (String c2 (String c6
            ("0000" ++ String c3 (String c4 (String c5 (String c7 EmptyString)))))))
     else if String.eqb (String c6 EmptyString) "3"
     then String c0 (String c1 (String c2 (String c3
            ("00000" ++ String c4 (String c5 (String c7 EmptyString))))))
     else if String.eqb (String c6 EmptyString) "4"
     then String c0 (String c1 (String c2 (String c3 (String c4
            ("00000" ++ String c5 (String c7 EmptyString))))))
     else String c0 (String c1 (String c2 (String c3 (String c4 (String c5
            ("0000" ++ String c6 (String c7 EmptyString)))))))).

(** The digit hypotheses of a spelled-out digit string, one per
    character. *)
Ltac split_digits H :=
  cbn [PyStr.all_chars] in H;
  repeat (let Hc := fresh "Hc" in apply andb_true_iff in H as [Hc H]).

(** A spelled-out string is made of digits: by the hypotheses on its
    characters, [app] being the lemma on [all_chars] of an append. *)
Ltac digits_from_hyps app :=
  repeat (progress (cbn [PyStr.all_chars]; rewrite ?app));
  repeat match goal with
         | Hc : PyStr.isdigit_char ?c = true |- _ => rewrite Hc; clear Hc
         end;
  reflexivity.

(** ** Lookup keys *)

(** What [normalize_candidates] adds after the raw digits: a string of 13
    or of 14 digits. *)
Definition lookup_key (c : string) : Prop :=
  digits_of_length 13 c \/ digits_of_length 14 c.

(** The candidate list while [normalize_candidates] runs: the raw digits,
    then lookup keys. *)
Definition candidates_ok (raw : string) (cs : list string) : Prop :=
  exists rest, cs = raw :: rest /\ Forall lookup_key rest.

(** Evaluate the tests of [normalize_candidates] on literal type names and
    lengths. *)
Ltac eval_type_tests :=
  cbn [String.eqb Ascii.eqb Bool.eqb andb orb negb PyStr.mem existsb
       Z.eqb Z.leb Z.compare Pos.eqb Pos.compare Pos.compare_cont].

(** ** Web lookups *)

(** The strings [process_image_to_rows] hands to the web lookups for one
    detection: the first two candidates, and none for a type outside
    [ALLOWED_WEB_TYPES] or a price-embedded value. *)
Definition lookup_queries (b : DetectedBarcode) : list string :=
  if PyStr.mem (barcode_type b) ALLOWED_WEB_TYPES
     && negb (_is_price_embedded (barcode_type b) (barcode_value b))
  then firstn 2 (normalize_candidates (barcode_value b) (barcode_type b))
  else [].

(** The type [process_image_to_rows] gives an OCR-recovered number. *)
Definition ocr_type (s : string) : string :=
  if PyStr.len s =? 13 then "EAN-13" else if PyStr.len s =? 12 then "UPC-A" else "EAN-8".

(** Stubs: an OCR band reader that always reads the same digits, a lookup
    that knows one product, and one that echoes anything that is not a
    digit string. *)
Definition ocr_reads (s : string) : unit -> list (list Point) -> option string :=
  fun _ _ => Some s.
Definition lookup_one_product (c : string) : option string :=
  if String.eqb c "0003600029145" then Some "Kleenex Tissues" else None.
Definition lookup_echoing_non_digits (c : string) : option string :=
  if PyStr.isdigit c then lookup_one_product c else Some c.

(** Options with the keyless lookup on, and with OCR on. *)
Definition free_lookup_options : ProcessOptions.t :=
  ProcessOptions.mk false false true false false false false None None None true.
Definition ocr_options : ProcessOptions.t :=
  ProcessOptions.mk true false false false false false false None None None true.

(** ** DataBar values *)

(** The fourteen digits [_validate_databar_checksum] checks: those after a
    leading "01" when at least sixteen digits are there, the first
    fourteen otherwise. *)
Definition databar_gtin (d : string) : string :=
  if PyStr.startswith "01" d && (16 <=? PyStr.len d)
  then PyStr.slice (Some 2) (Some 16) d
  else PyStr.slice None (Some 14) d.

(** Evaluate the parity tests of an unrolled loop over literal indices. *)
Ltac eval_parity_tests :=
  repeat match goal with
         | |- context [Z.of_nat ?n mod 2 =? 0] =>
             let v := eval vm_compute in (Z.of_nat n mod 2 =? 0) in
             change (Z.of_nat n mod 2 =? 0) with v
         end;
  cbv iota.

(** ** Labels of the cascade *)

(** The values [detect_barcodes] leaves in [detection_method]: none, the
    label of the orientation pre-check, or (aggressive effort) the label
    of one of the seven labelled passes. *)
Definition cascade_labels (aggressive : bool) : list (option string) :=
  [None; Some "upc-vertical-rotated-90"; Some "upc-vertical-rotated--90"]
  ++ (if aggressive
      then [Some "upc-contrast-enhanced"; Some "upc-upscaled";
            Some "upc-triple-sharpened (difficult)";
            Some "double-sharpened (difficult)";
            Some "high-contrast-enhanced (difficult)";
            Some "large-upscaled (difficult)";
            Some "code128-large-upscaled (difficult)"]
      else [])%list.

(** The test behind the note "Difficult barcode detection" of
    [process_image_to_rows]. *)
Definition flagged_difficult (method : option string) : bool :=
  existsb (fun indicator => PyStr.contains indicator (default EmptyString method))
          difficult_indicators.

(** A detection as the decoder adapters make it: a value, and no
    detection method yet. *)
Definition fresh_detection (d : DetectedBarcode) : Prop :=
  barcode_value d <> EmptyString /\ detection_method d = None.

(** A detection of the cascade under the label [label]. *)
Definition labelled (label : option string) (d : DetectedBarcode) : Prop :=
  barcode_value d <> EmptyString /\ detection_method d = label.

Section CascadeResults.

Variable Image : Type.
Variable _code128_focused : Image -> Exc (list DetectedBarcode).

(** Every value a block can return satisfies [Q]. *)
Definition returns_only (Q : list DetectedBarcode -> Prop) (s : Stmt Image) : Prop :=
  forall log r log', s log = (Returned r, log') -> Q r.

(** What a tier can return: the list of the Code128-focused fallback as
    it is, or detections with values, all under one of the cascade's
    labels. *)
Definition tier_result (aggressive : bool) (r : list DetectedBarcode) : Prop :=
  (aggressive = true /\ exists i, _code128_focused i = Ok r)
  \/ (exists label, label ∈ cascade_labels aggressive /\ Forall (labelled label) r).

End CascadeResults.

(** ** Unified detection *)

(** The detection method [detect_barcodes_unified] gives a detection that
    has none. *)
Definition default_method (aggressive : bool) : string :=
  if aggressive then "zxing-cpp (aggressive)" else "zxing-cpp".

(** What holds of the loop state of [detect_barcodes_unified] after the
    detections [l] were visited. *)
Record unified_inv (aggressive : bool) (l : list DetectedBarcode) (st : UnifiedState)
  : Prop := {
  uinv_found : forall v, v ∈ found_values st <-> v ∈ List.map barcode_value (results st);
  uinv_nodup : NoDup (List.map barcode_value (results st));
  uinv_all : forall d0, d0 ∈ l -> barcode_value d0 ∈ List.map barcode_value (results st);
  uinv_method : forall d, d ∈ results st -> truthy (detection_method d) = true;
  uinv_origin : forall d, d ∈ results st ->
    exists d0, d0 ∈ l
      /\ barcode_type d = barcode_type d0 /\ barcode_value d = barcode_value d0
      /\ quad d = quad d0
      /\ detection_method d
         = (if truthy (detection_method d0) then detection_method d0
            else Some (default_method aggressive))
}.

(** ** GS1 element strings *)

(** No opening parenthesis anywhere in the text. *)
Definition paren_free (s : string) : bool :=
  PyStr.all_chars (fun c => negb (Ascii.eqb c "(")) s.

(** Every GTIN recorded under AI "01" has at most fourteen characters. *)
Definition gtin_entry_short (result : gmap string string) : Prop :=
  forall g, result !! "01" = Some g -> (String.length g <= 14)%nat.

(* ===================================================================== *)
(** * Properties *)
(* ===================================================================== *)

(** ** Strings and candidate lists *)

Lemma mem_true_iff (x : string) (xs : list string) :
  PyStr.mem x xs = true <-> x ∈ xs.
Proof.
  unfold PyStr.mem. rewrite existsb_exists. split.
  - intros (y & Hy & Heq). apply String.eqb_eq in Heq. subst y.
    by apply list_elem_of_In.
  - intros Hin. exists x. split; [by apply list_elem_of_In | apply String.eqb_refl].
Qed.

Lemma mem_false_iff (x : string) (xs : list string) :
  PyStr.mem x xs = false <-> x ∉ xs.
Proof.
  rewrite <- mem_true_iff. destruct (PyStr.mem x xs); naive_solver.
Qed.

Lemma grows_refl cs : grows cs cs.
Proof. exists []. by rewrite app_nil_r. Qed.

Lemma grows_trans cs1 cs2 cs3 : grows cs1 cs2 -> grows cs2 cs3 -> grows cs1 cs3.
Proof.
  intros (s1 & -> & H1) (s2 & -> & H2). exists (s1 ++ s2)%list.
  rewrite app_assoc. auto.
Qed.

Lemma grows_snoc cs v : v ∉ cs -> grows cs (cs ++ [v])%list.
Proof.
  intros Hv. exists [v]. split; [done|]. intros Hnd.
  apply NoDup_app. repeat split; [done | | apply NoDup_singleton].
  intros x Hx Hx'. apply list_elem_of_singleton in Hx'. by subst.
Qed.

Lemma grows_append_if_absent v cs : grows cs (append_if_absent v cs).
Proof.
  unfold append_if_absent. destruct (PyStr.mem v cs) eqn:E; simpl.
  - apply grows_refl.
  - apply grows_snoc. by apply mem_false_iff.
Qed.

Lemma grows_append_if_new v cs : grows cs (append_if_new v cs).
Proof.
  unfold append_if_new. destruct (PyStr.nonempty v); simpl; [|apply grows_refl].
  destruct (PyStr.mem v cs) eqn:E; simpl.
  - apply grows_refl.
  - apply grows_snoc. by apply mem_false_iff.
Qed.

Lemma grows_then_new cs cs' v : grows cs cs' -> grows cs (append_if_new v cs').
Proof. intros H. eapply grows_trans; [exact H|apply grows_append_if_new]. Qed.

Lemma grows_then_absent cs cs' v : grows cs cs' -> grows cs (append_if_absent v cs').
Proof. intros H. eapply grows_trans; [exact H|apply grows_append_if_absent]. Qed.

Create HintDb grows discriminated.
#[local] Hint Resolve grows_refl grows_then_new grows_then_absent : grows.

Lemma grows_step_upce raw t cs : grows cs (step_upce raw t cs).
Proof. unfold step_upce. repeat case_match; auto with grows. Qed.

Lemma grows_step_ean8 raw t cs : grows cs (step_ean8 raw t cs).
Proof. unfold step_ean8. repeat case_match; auto with grows. Qed.

Lemma grows_step_databar value raw t cs : grows cs (step_databar value raw t cs).
Proof. unfold step_databar. repeat case_match; auto with grows. Qed.

Lemma grows_step_code128 raw t cs : grows cs (step_code128 raw t cs).
Proof. unfold step_code128. simpl fold_left. repeat case_match; auto with grows. Qed.

Lemma grows_step_002 raw cs : grows cs (step_002 raw cs).
Proof. unfold step_002. repeat case_match; auto with grows. Qed.

Lemma grows_step_upca raw t cs : grows cs (step_upca raw t cs).
Proof. unfold step_upca. repeat case_match; auto with grows. Qed.

Lemma grows_step_ean13 raw t cs : grows cs (step_ean13 raw t cs).
Proof. unfold step_ean13. repeat case_match; auto with grows. Qed.

(** From the first append on, the list of [normalize_candidates] grows out
    of [[raw]]. *)
Lemma normalize_candidates_grows value t :
  PyStr.nonempty (_digits_only value) = true ->
  grows [_digits_only value] (normalize_candidates value t).
Proof.
  intros Hne. unfold normalize_candidates. rewrite Hne. simpl negb. cbv iota.
  destruct (if (_ && _)%bool then _ else None) as [m|].
  - eapply grows_trans; [apply grows_append_if_absent|apply grows_append_if_absent].
  - eapply grows_trans; [apply grows_step_upce|].
    eapply grows_trans; [apply grows_step_ean8|].
    eapply grows_trans; [apply grows_step_databar|].
    eapply grows_trans; [apply grows_step_code128|].
    eapply grows_trans; [apply grows_step_002|].
    eapply grows_trans; [apply grows_step_upca|].
    apply grows_step_ean13.
Qed.

Lemma filter_chars_nonempty p s :
  PyStr.any_chars p s = true -> PyStr.nonempty (PyStr.filter_chars p s) = true.
Proof.
  induction s as [|c r IH]; simpl; [done|].
  destruct (p c); simpl; auto.
Qed.

(** C5. For every raw text with at least one digit character and every
    symbology, [normalize_candidates] returns a non-empty list whose first
    element is the digit-only projection of the raw text (its decimal
    digits, in order, and nothing else), and no string occurs twice in
    it. *)
Theorem normalize_candidates_first_raw_no_duplicates (raw_text symbology : string) :
  PyStr.any_chars PyStr.isdigit_char raw_text = true ->
  exists rest,
    normalize_candidates raw_text symbology
    = PyStr.filter_chars PyStr.isdigit_char raw_text :: rest
    /\ NoDup (normalize_candidates raw_text symbology).
Proof.
  intros Hdigit.
  apply filter_chars_nonempty in Hdigit.
  destruct (normalize_candidates_grows raw_text symbology Hdigit) as (suffix & Heq & Hnd).
  exists suffix. split; [exact Heq|].
  apply Hnd. apply NoDup_singleton.
Qed.

Lemma normalize_candidates_first_raw_no_duplicates_witness :
  PyStr.any_chars PyStr.isdigit_char "2-012345-678905" = true
  /\ normalize_candidates "2-012345-678905" "EAN-13"
     = ["2012345678905"; "0020123400000"; "2012345600000"]
  /\ PyStr.filter_chars PyStr.isdigit_char "2-012345-678905" = "2012345678905"
  /\ exists rest,
       normalize_candidates "2-012345-678905" "EAN-13"
       = PyStr.filter_chars PyStr.isdigit_char "2-012345-678905" :: rest
       /\ NoDup (normalize_candidates "2-012345-678905" "EAN-13").
Proof.
  split; [reflexivity|]. split; [vm_compute; reflexivity|]. split; [reflexivity|].
  apply (normalize_candidates_first_raw_no_duplicates "2-012345-678905" "EAN-13").
  reflexivity.
Defined.

(** C4 as stated fails: the second and third candidate of the spec's
    example are not what the code yields. *)
Lemma price_embedded_example_as_stated_fails :
  normalize_candidates "2012345678905" "EAN-13"
  <> ["2012345678905";
      PyStr.ljust 13 "0" ("002" ++ "12345");
      "20123450" ++ "00000"].
Proof. vm_compute. discriminate. Qed.

(** C4, amended. Normalizing the price-embedded EAN-13 text
    "2012345678905" yields the raw text, then "002" followed by the item
    code "01234" (the five digits after the leading "2") padded with
    trailing zeros to 13 digits, then the first eight digits "20123456"
    followed by five zeros; the price field is "67890". *)
Theorem price_embedded_example :
  _EAN13_PRICE_EMBEDDED "2012345678905"
  = Some (mkEan13PriceMatch "2" "01234" "5" "67890" "5")
  /\ normalize_candidates "2012345678905" "EAN-13"
     = ["2012345678905";
        PyStr.ljust 13 "0" ("002" ++ "01234");
        "20123456" ++ "00000"]
  /\ normalize_candidates "2012345678905" "EAN-13"
     = ["2012345678905"; "0020123400000"; "2012345600000"]
  /\ extract_price_from_barcode "2012345678905" "EAN-13" = Some 67890.
Proof. repeat split; vm_compute; reflexivity. Qed.

(** C6. The UPC-E text "01234565" expands (last-digit rule 5-9) to the
    12-digit UPC-A "012345000065", whose check digit is valid; stripping
    that check digit and left-padding to 13 gives the second candidate
    "0001234500006", a 13-digit string different from the raw first
    candidate. *)
Theorem upce_example :
  _expand_upce_to_upca "01234565" = Some "012345000065"
  /\ PyStr.len "012345000065" = 12
  /\ _is_valid_check_digit "012345000065" = true
  /\ _remove_check_digit_and_pad "012345000065" = "0001234500006"
  /\ normalize_candidates "01234565" "UPC-E" = ["01234565"; "0001234500006"]
  /\ PyStr.len "0001234500006" = 13
  /\ PyStr.isdigit "0001234500006" = true
  /\ "0001234500006" <> "01234565".
Proof. repeat split; try (vm_compute; reflexivity). discriminate. Qed.

(** ** Deduplication and checksum gate *)

Lemma mod10_check_digit (total d : Z) :
  0 <= d <= 9 ->
  ((10 - total mod 10) mod 10 =? d) = ((total + d) mod 10 =? 0).
Proof.
  intros Hd.
  destruct (Z.eqb_spec ((10 - total mod 10) mod 10) d) as [H|H];
    destruct (Z.eqb_spec ((total + d) mod 10) 0) as [H'|H']; try reflexivity;
    exfalso; revert H H'; Z.div_mod_to_equations; lia.
Qed.

Lemma digit_val_bounds c : PyStr.isdigit_char c = true -> 0 <= PyStr.digit_val c <= 9.
Proof.
  unfold PyStr.isdigit_char, PyStr.digit_val. intros H.
  apply andb_true_iff in H as [H1 H2].
  apply Nat.leb_le in H1, H2. lia.
Qed.

(** The three checksum functions are the GTIN check on strings of 13, 8
    and 12 digits. *)
Lemma checksum_ean13_is_gtin_check s :
  _checksum_ean13 s = (PyStr.len s =? 13) && PyStr.isdigit s && gtin_check_ok s.
Proof.
  unfold _checksum_ean13.
  destruct (Z.eqb_spec (PyStr.len s) 13) as [Hlen|Hlen]; [|reflexivity].
  destruct (PyStr.isdigit s) eqn:Hdig; [|reflexivity].
  cbn [negb orb andb].
  unfold PyStr.len in Hlen. do 13 next_char s Hlen.
  destruct s; [|simpl in Hlen; lia].
  sum_up_digits Hdig mod10_check_digit digit_val_bounds.
Qed.

Lemma checksum_ean8_is_gtin_check s :
  _checksum_ean8 s = (PyStr.len s =? 8) && PyStr.isdigit s && gtin_check_ok s.
Proof.
  unfold _checksum_ean8.
  destruct (Z.eqb_spec (PyStr.len s) 8) as [Hlen|Hlen]; [|reflexivity].
  destruct (PyStr.isdigit s) eqn:Hdig; [|reflexivity].
  cbn [negb orb andb].
  unfold PyStr.len in Hlen. do 8 next_char s Hlen.
  destruct s; [|simpl in Hlen; lia].
  sum_up_digits Hdig mod10_check_digit digit_val_bounds.
Qed.

Lemma checksum_upca_is_gtin_check s :
  _checksum_upca s = (PyStr.len s =? 12) && PyStr.isdigit s && gtin_check_ok s.
Proof.
  unfold _checksum_upca.
  destruct (Z.eqb_spec (PyStr.len s) 12) as [Hlen|Hlen]; [|reflexivity].
  destruct (PyStr.isdigit s) eqn:Hdig; [|reflexivity].
  cbn [negb orb andb].
  unfold PyStr.len in Hlen. do 12 next_char s Hlen.
  destruct s; [|simpl in Hlen; lia].
  sum_up_digits Hdig mod10_check_digit digit_val_bounds.
Qed.

Lemma is_valid_upcean_is_gtin_check t v :
  PyStr.mem t GATED_TYPES = true ->
  _is_valid_upcean t v
  = (PyStr.len v =? gated_length t) && PyStr.isdigit v && gtin_check_ok v.
Proof.
  intros Ht. apply mem_true_iff in Ht. unfold GATED_TYPES in Ht.
  rewrite !elem_of_cons in Ht.
  destruct Ht as [->|[->|[->|Ht]]]; [| | |by apply elem_of_nil in Ht].
  - apply checksum_ean13_is_gtin_check.
  - apply checksum_ean8_is_gtin_check.
  - apply checksum_upca_is_gtin_check.
Qed.

Lemma gated_is_upcean t : PyStr.mem t GATED_TYPES = true -> is_upcean_type t = true.
Proof.
  unfold is_upcean_type. rewrite !mem_true_iff. unfold GATED_TYPES, UPCEAN_TYPES.
  rewrite !elem_of_cons.
  intros [->|[->|[->|H]]]; [tauto|tauto|tauto|by apply elem_of_nil in H].
Qed.

Lemma firstn_1_app_nonempty {A} (xs ys : list A) :
  xs <> [] -> firstn 1 (xs ++ ys) = firstn 1 xs.
Proof. destruct xs; [done|]. intros _. reflexivity. Qed.

Lemma firstn_1_nil {A} (xs : list A) : firstn 1 xs = [] -> xs = [].
Proof. destruct xs; [done|discriminate]. Qed.

Lemma filter_has_type_nonempty t b (l : list DetectedBarcode) :
  b ∈ l -> barcode_type b = t -> List.filter (has_type t) l <> [].
Proof.
  intros Hin Ht Hnil.
  assert (Hb : In b (List.filter (has_type t) l)).
  { apply filter_In. split; [by apply list_elem_of_In|].
    unfold has_type. rewrite Ht. apply String.eqb_refl. }
  rewrite Hnil in Hb. destruct Hb.
Qed.

Lemma filter_has_type_nil t (l : list DetectedBarcode) :
  (forall b, b ∈ l -> barcode_type b <> t) -> List.filter (has_type t) l = [].
Proof.
  induction l as [|a l IH]; intros H; simpl; [done|].
  unfold has_type at 1. destruct (String.eqb_spec (barcode_type a) t) as [E|E].
  - exfalso. apply (H a); [left|done].
  - apply IH. intros b Hb. apply H. by right.
Qed.

Lemma dedupe_inv_init : dedupe_inv [] (mkDedupe ∅ ∅ []).
Proof.
  split; simpl; try done.
  - intros k. split; [set_solver|]. intros H. by apply elem_of_nil in H.
  - intros t. split; [set_solver|]. intros (_ & b & Hb & _). by apply elem_of_nil in Hb.
  - constructor.
  - intros b Hb. by apply elem_of_nil in Hb.
  - intros b Hb. by apply elem_of_nil in Hb.
Qed.

(** A detection left out changes nothing when it could not have been the
    first of its type. *)
Lemma dedupe_inv_skip l st b :
  dedupe_inv l st ->
  (forall t, is_upcean_type t = true -> has_type t b && passes_gate b = true ->
     exists b', b' ∈ unique st /\ barcode_type b' = t) ->
  (is_upcean_type (barcode_type b) = false -> key b ∈ List.map key (unique st)) ->
  dedupe_inv (l ++ [b]) st.
Proof.
  intros [Hs Ht Hsub Hnd Hg Hf Ho] Hfirst Hother. split; try done.
  - by apply sublist_inserts_r.
  - intros t Hup. rewrite (Hf t Hup), List.filter_app. simpl.
    destruct (has_type t b && passes_gate b) eqn:E; [|by rewrite app_nil_r].
    destruct (Hfirst t Hup E) as (b' & Hb' & Hty).
    rewrite firstn_1_app_nonempty; [done|].
    intros Hnil.
    apply (filter_has_type_nonempty t b' (unique st) Hb' Hty).
    rewrite (Hf t Hup), Hnil. reflexivity.
  - intros x Hx Hup. apply elem_of_app in Hx as [Hx|Hx]; [by apply Ho|].
    apply list_elem_of_singleton in Hx. subst x. by apply Hother.
Qed.

(** A detection appended: it is new by its key, gets past the gate, and
    is the first of its type if that type is one of the four. *)
Lemma dedupe_inv_keep l st b types' :
  dedupe_inv l st ->
  key b ∉ seen st ->
  passes_gate b = true ->
  (is_upcean_type (barcode_type b) = true ->
     (barcode_type b ∉ seen_types st) /\ types' = seen_types st ∪ {[ barcode_type b ]}) ->
  (is_upcean_type (barcode_type b) = false -> types' = seen_types st) ->
  dedupe_inv (l ++ [b]) (mkDedupe (seen st ∪ {[ key b ]}) types' (unique st ++ [b])).
Proof.
  intros [Hs Ht Hsub Hnd Hg Hf Ho] Hnew Hgate Hup Hnup. split; simpl.
  - intros k. rewrite List.map_app, elem_of_app, elem_of_union, Hs. simpl.
    rewrite list_elem_of_singleton, elem_of_singleton. done.
  - intros t. destruct (is_upcean_type (barcode_type b)) eqn:E.
    + destruct (Hup eq_refl) as [_ ->]. rewrite elem_of_union, Ht, elem_of_singleton.
      split.
      * intros [(H1 & b' & Hb' & Hty)| ->].
        -- split; [done|]. exists b'. split; [|done]. apply elem_of_app. by left.
        -- split; [done|]. exists b. split; [|done]. apply elem_of_app. right. by left.
      * intros (H1 & b' & Hb' & Hty). apply elem_of_app in Hb' as [Hb'|Hb'].
        -- left. eauto.
        -- apply list_elem_of_singleton in Hb'. subst b'. by right.
    + rewrite (Hnup eq_refl), Ht. split.
      * intros (H1 & b' & Hb' & Hty). split; [done|]. exists b'. split; [|done].
        apply elem_of_app. by left.
      * intros (H1 & b' & Hb' & Hty). split; [done|].
        apply elem_of_app in Hb' as [Hb'|Hb']; [eauto|].
        apply list_elem_of_singleton in Hb'. subst b'. congruence.
  - by apply sublist_app.
  - rewrite List.map_app. apply NoDup_app. repeat split; [done| |apply NoDup_singleton].
    intros k Hk Hk'. simpl in Hk'. apply list_elem_of_singleton in Hk'. subst k.
    apply Hnew. by apply Hs.
  - intros x Hx. apply elem_of_app in Hx as [Hx|Hx]; [by apply Hg|].
    apply list_elem_of_singleton in Hx. by subst x.
  - intros t Htup. rewrite !List.filter_app. simpl.
    destruct (has_type t b) eqn:E; simpl.
    + unfold has_type in E. apply String.eqb_eq in E.
      rewrite Hgate.
      assert (Hnone : List.filter (has_type t) (unique st) = []).
      { apply filter_has_type_nil. intros b' Hb' Hty.
        rewrite <- E in Htup. destruct (Hup Htup) as [Hnotin _].
        apply Hnotin. apply Ht. split; [done|]. exists b'. split; [done|congruence]. }
      rewrite Hnone. simpl.
      rewrite (Hf t Htup) in Hnone. apply firstn_1_nil in Hnone.
      rewrite Hnone. reflexivity.
    + rewrite !app_nil_r. by apply Hf.
  - intros x Hx Hxup. rewrite List.map_app, elem_of_app.
    apply elem_of_app in Hx as [Hx|Hx]; [left; by apply Ho|].
    apply list_elem_of_singleton in Hx. subst x. right. simpl. by left.
Qed.

Lemma dedupe_step_inv l st b :
  dedupe_inv l st -> dedupe_inv (l ++ [b]) (dedupe_step st b).
Proof.
  intros Hinv. unfold dedupe_step. fold (key b).
  destruct (bool_decide (key b ∈ seen st)) eqn:Eseen.
  { apply bool_decide_eq_true in Eseen. apply (inv_seen _ _ Hinv) in Eseen.
    apply dedupe_inv_skip; [done| |done].
    intros t Hup Hq. apply andb_true_iff in Hq as [Hty _].
    apply String.eqb_eq in Hty.
    apply list_elem_of_In, in_map_iff in Eseen as (b' & Hk & Hb').
    exists b'. split; [by apply list_elem_of_In|].
    unfold key in Hk. congruence. }
  apply bool_decide_eq_false in Eseen.
  destruct (PyStr.mem (barcode_type b) ["EAN-13"; "EAN-8"; "UPC-A"]
            && negb (_is_valid_upcean (barcode_type b) (barcode_value b))) eqn:Egate.
  { apply dedupe_inv_skip; [done| |].
    - intros t Hup Hq. apply andb_true_iff in Hq as [_ Hp].
      unfold passes_gate, GATED_TYPES in Hp. rewrite Egate in Hp. discriminate.
    - intros Hnup. apply andb_true_iff in Egate as [Hg _].
      apply gated_is_upcean in Hg. congruence. }
  assert (Hpass : passes_gate b = true).
  { unfold passes_gate, GATED_TYPES. by rewrite Egate. }
  fold (is_upcean_type (barcode_type b)).
  destruct (is_upcean_type (barcode_type b)) eqn:Eup.
  - destruct (bool_decide (barcode_type b ∈ seen_types st)) eqn:Etypes.
    + apply bool_decide_eq_true in Etypes.
      apply dedupe_inv_skip; [done| |congruence].
      intros t Hup Hq. apply andb_true_iff in Hq as [Hty _].
      apply String.eqb_eq in Hty. subst t.
      apply (inv_types _ _ Hinv) in Etypes as (_ & b' & Hb' & Hty). eauto.
    + apply bool_decide_eq_false in Etypes.
      apply dedupe_inv_keep; [done|done|done| |congruence].
      intros _. by split.
  - apply dedupe_inv_keep; [done|done|done|congruence|done].
Qed.

Lemma dedupe_fold_inv l : dedupe_inv l (fold_left dedupe_step l (mkDedupe ∅ ∅ [])).
Proof.
  induction l as [|b l IH] using rev_ind; [apply dedupe_inv_init|].
  rewrite fold_left_app. simpl. by apply dedupe_step_inv.
Qed.

(** C2. On every list of detections, [_dedupe_and_filter] keeps the
    detections in their order and: no (symbology, raw_text) pair is kept
    twice; every kept EAN-13, EAN-8 or UPC-A detection has a valid
    checksum (13, 8 or 12 digits whose weighted sum, check digit
    included, is 0 mod 10), while the gate lets every UPC-E value through;
    for each of
    UPC-A, UPC-E, EAN-13 and EAN-8 exactly the first detection of that type
    that gets past the gate is kept, so at most one per type; and a
    detection of any other type is only ever dropped as a duplicate. *)
Theorem dedupe_and_filter_first_valid_per_type (barcodes : list DetectedBarcode) :
  let out := _dedupe_and_filter barcodes in
  sublist out barcodes
  /\ NoDup (List.map key out)
  /\ (forall b, b ∈ out -> PyStr.mem (barcode_type b) GATED_TYPES = true ->
        _is_valid_upcean (barcode_type b) (barcode_value b) = true
        /\ PyStr.len (barcode_value b) = gated_length (barcode_type b)
        /\ PyStr.isdigit (barcode_value b) = true
        /\ gtin_check_ok (barcode_value b) = true)
  /\ (forall value, _is_valid_upcean "UPC-E" value = true)
  /\ List.filter (has_type "UPC-E") out
     = firstn 1 (List.filter (has_type "UPC-E") barcodes)
  /\ (forall t, t ∈ UPCEAN_TYPES ->
        List.filter (has_type t) out
        = firstn 1 (List.filter (fun b => has_type t b && passes_gate b) barcodes))
  /\ (forall t, t ∈ UPCEAN_TYPES -> (length (List.filter (has_type t) out) <= 1)%nat)
  /\ (forall b, b ∈ barcodes -> is_upcean_type (barcode_type b) = false ->
        key b ∈ List.map key out).
Proof.
  intros out. unfold out, _dedupe_and_filter.
  destruct (dedupe_fold_inv barcodes) as [Hs Ht Hsub Hnd Hg Hf Ho].
  set (st := fold_left dedupe_step barcodes (mkDedupe ∅ ∅ [])) in *.
  assert (Hfirst : forall t, t ∈ UPCEAN_TYPES ->
            List.filter (has_type t) (unique st)
            = firstn 1 (List.filter (fun b => has_type t b && passes_gate b) barcodes)).
  { intros t Hin. apply Hf. unfold is_upcean_type. by apply mem_true_iff. }
  split; [exact Hsub|]. split; [exact Hnd|]. split; [|split; [|split; [|split; [|split]]]].
  - intros b Hb Hgated. specialize (Hg b Hb). unfold passes_gate in Hg.
    rewrite Hgated in Hg. simpl in Hg.
    assert (Hvalid : _is_valid_upcean (barcode_type b) (barcode_value b) = true)
      by (by destruct (_is_valid_upcean _ _)).
    split; [exact Hvalid|].
    rewrite (is_valid_upcean_is_gtin_check _ _ Hgated) in Hvalid.
    apply andb_true_iff in Hvalid as [Hvalid Hsum].
    apply andb_true_iff in Hvalid as [Hlen Hdig].
    apply Z.eqb_eq in Hlen. done.
  - reflexivity.
  - rewrite Hfirst; [|unfold UPCEAN_TYPES; rewrite !elem_of_cons; tauto].
    f_equal. apply List.filter_ext. intros b. unfold has_type, passes_gate.
    destruct (String.eqb_spec (barcode_type b) "UPC-E") as [->|]; reflexivity.
  - exact Hfirst.
  - intros t Hin. rewrite (Hfirst t Hin). apply firstn_le_length.
  - exact Ho.
Qed.

Example dedupe_and_filter_repeated_reads :
  _dedupe_and_filter repeated_reads
  = [ mkDetected "EAN-13" "4006381333931" quad_A None;
      mkDetected "UPC-E" "0123456X" [] None;
      mkDetected "Code 39" "LOT-7" quad_A None ].
Proof. vm_compute. reflexivity. Qed.

Example checksums :
  _checksum_ean13 "4006381333931" = true /\ _checksum_ean13 "4006381333930" = false
  /\ _checksum_upca "036000291452" = true /\ _checksum_upca "036000291453" = false
  /\ _checksum_ean8 "73513537" = true /\ _checksum_ean8 "73513536" = false.
Proof. repeat split; vm_compute; reflexivity. Qed.

(** ** Rows of one image *)

Lemma dedupe_and_filter_subset (barcodes : list DetectedBarcode) b :
  b ∈ _dedupe_and_filter barcodes -> b ∈ barcodes.
Proof.
  intros Hb. unfold _dedupe_and_filter in Hb.
  pose proof (inv_sub _ _ (dedupe_fold_inv barcodes)) as Hsub.
  eapply sublist_subseteq in Hsub. by apply Hsub.
Qed.

Lemma filter_idempotent {A} (p : A -> bool) (l : list A) :
  List.filter p (List.filter p l) = List.filter p l.
Proof.
  induction l as [|a l IH]; simpl; [done|].
  destruct (p a) eqn:E; simpl; [rewrite E; by f_equal|done].
Qed.

Lemma elem_of_filter_bool {A} (p : A -> bool) (l : list A) x :
  x ∈ List.filter p l <-> x ∈ l /\ p x = true.
Proof. rewrite !list_elem_of_In. apply filter_In. Qed.

Lemma existsb_false_filter {A} (p : A -> bool) (l : list A) :
  existsb p l = false -> List.filter (fun x => negb (p x)) l = l.
Proof.
  induction l as [|a l IH]; simpl; [done|].
  intros H. apply orb_false_iff in H as [Ha Hl]. rewrite Ha. simpl. by rewrite IH.
Qed.

Lemma filter_filter_and {A} (p q : A -> bool) (l : list A) :
  List.filter q (List.filter p l) = List.filter (fun x => p x && q x) l.
Proof.
  induction l as [|a l IH]; simpl; [done|].
  destruct (p a); simpl; [destruct (q a); by rewrite IH|done].
Qed.

(** With a Code 128 read present, [prefer_code128] keeps exactly the reads
    outside the DataBar and UPC/EAN families. *)
Lemma prefer_code128_filter (ds : list DetectedBarcode) :
  existsb (fun b => is_code128_type (barcode_type b)) ds = true ->
  prefer_code128 ds = List.filter outside_displaced_families ds.
Proof.
  intros Hc. unfold prefer_code128. rewrite Hc. simpl.
  set (nd := fun b => negb (is_databar_type (barcode_type b))).
  set (nu := fun b => negb (is_upcean_type (barcode_type b))).
  assert (Hboth : List.filter outside_displaced_families ds
                  = List.filter nu (List.filter nd ds)).
  { symmetry. apply filter_filter_and. }
  assert (Hswap : List.filter nu (List.filter nd ds)
                  = List.filter nd (List.filter nu ds)).
  { rewrite !filter_filter_and. apply List.filter_ext. intros b. apply andb_comm. }
  destruct (existsb (fun b => is_databar_type (barcode_type b)) ds) eqn:Ed;
    destruct (existsb (fun b => is_upcean_type (barcode_type b)) ds) eqn:Eu.
  - by rewrite Hboth.
  - rewrite Hboth, Hswap. unfold nu at 1.
    by rewrite (existsb_false_filter _ _ Eu).
  - rewrite Hboth. unfold nd at 1.
    by rewrite (existsb_false_filter _ _ Ed).
  - rewrite Hboth. unfold nd at 1. rewrite (existsb_false_filter _ _ Ed).
    unfold nu. by rewrite (existsb_false_filter _ _ Eu).
Qed.

Lemma prefer_code128_subset (ds : list DetectedBarcode) b :
  b ∈ prefer_code128 ds -> b ∈ ds.
Proof.
  unfold prefer_code128.
  destruct (_ && _); destruct (_ && _); rewrite ?elem_of_filter_bool; tauto.
Qed.

Section ProcessorFacts.

Variable Image : Type.
Variable ocr_upcean_digit_band : Image -> list (list Point) -> option string.
Variable ocr_upcean_numeric : Image -> list (list Point) -> option string.
Variable ocr_bold_name : Image -> list Point -> option string.
Variable ocr_item_name : Image -> list Point -> option string.
Variable deep_lookup_product_name :
  string -> option string -> option string -> option string -> option string.
Variable duckduckgo_lookup : string -> option string.
Variable lookup_product_name : string -> option string.
Variable extract_gtin : string -> option string.
Variable _validate_name : option string -> string -> option string.

Local Abbreviation rows_of :=
  (process_image_to_rows Image ocr_upcean_digit_band ocr_upcean_numeric
     ocr_bold_name ocr_item_name deep_lookup_product_name duckduckgo_lookup
     lookup_product_name extract_gtin _validate_name).
Local Abbreviation row_of :=
  (row_for Image ocr_bold_name ocr_item_name deep_lookup_product_name
     duckduckgo_lookup lookup_product_name extract_gtin _validate_name).
Local Abbreviation deduplicated_of :=
  (deduplicated Image ocr_upcean_digit_band ocr_upcean_numeric).
Local Abbreviation reconcile_of :=
  (reconcile Image ocr_upcean_digit_band ocr_upcean_numeric).
Local Abbreviation ocr_recover_of :=
  (ocr_recover Image ocr_upcean_digit_band ocr_upcean_numeric).

Lemma row_for_type image opts b :
  RowDraft.barcode_type (row_of image opts b) = barcode_type b.
Proof.
  unfold row_for. destruct (_display_value_for extract_gtin b). reflexivity.
Qed.

Lemma row_for_value_plain image opts b :
  is_databar_type (barcode_type b) = false ->
  RowDraft.barcode_value (row_of image opts b) = barcode_value b.
Proof.
  intros Hd. unfold row_for, _display_value_for, _is_gs1_databar.
  unfold is_databar_type in Hd. rewrite Hd. reflexivity.
Qed.

Lemma rows_types image barcodes opts :
  List.map RowDraft.barcode_type (rows_of image barcodes opts)
  = List.map barcode_type (reconcile_of image opts barcodes).
Proof.
  unfold process_image_to_rows. rewrite List.map_map.
  apply List.map_ext. intros b. apply row_for_type.
Qed.

Lemma ocr_recover_types image opts (l : list DetectedBarcode) b :
  b ∈ ocr_recover_of image opts l ->
  b ∈ l \/ barcode_type b ∈ ["EAN-13"; "UPC-A"; "EAN-8"].
Proof.
  unfold ocr_recover.
  destruct (_ && ProcessOptions.ocr opts); [|by left].
  destruct (py_or _ _) as [s|]; [|by left].
  destruct (PyStr.nonempty s && _); [|by left].
  intros Hb. apply list_elem_of_singleton in Hb. subst b. right. simpl.
  destruct (PyStr.len s =? 13); [set_solver|].
  destruct (PyStr.len s =? 12); set_solver.
Qed.

Lemma deduplicated_not_excluded image opts barcodes b :
  b ∈ deduplicated_of image opts barcodes ->
  PyStr.mem (barcode_type b) EXCLUDED_2D_TYPES = false.
Proof.
  unfold deduplicated. intros Hb.
  apply dedupe_and_filter_subset in Hb.
  apply ocr_recover_types in Hb as [Hb|Hb].
  - apply elem_of_filter_bool in Hb as [_ Hb]. by apply negb_true_iff in Hb.
  - apply mem_false_iff. unfold EXCLUDED_2D_TYPES. intros Hex.
    rewrite !elem_of_cons in Hb, Hex.
    destruct Hb as [Hb|[Hb|[Hb|Hb]]]; [| | |by apply elem_of_nil in Hb];
      rewrite Hb in Hex;
      (destruct Hex as [Hex|[Hex|[Hex|Hex]]];
       [discriminate|discriminate|discriminate|by apply elem_of_nil in Hex]).
Qed.

(** C10. On every detection list and every option set, the detections of
    type "QR Code" or "Data Matrix" (and of type "QRCode", the third
    spelling the filter knows) are removed before anything else happens:
    the rows are the same as if they had never been in the input, and no
    row has one of these types; yet the decoder adapter names both
    symbologies. *)
Theorem rows_never_qr_or_data_matrix image barcodes opts :
  rows_of image barcodes opts
  = rows_of image
      (List.filter
         (fun b => negb (bool_decide
                           (barcode_type b ∈ ["Data Matrix"; "QR Code"; "QRCode"])))
         barcodes)
      opts
  /\ (forall row, row ∈ rows_of image barcodes opts ->
        RowDraft.barcode_type row <> "QR Code"
        /\ RowDraft.barcode_type row <> "Data Matrix"
        /\ RowDraft.barcode_type row <> "QRCode")
  /\ _friendly_format "BarcodeFormat.QRCode" = "QR Code"
  /\ _friendly_format "BarcodeFormat.DataMatrix" = "Data Matrix".
Proof.
  split; [|split; [|split; reflexivity]].
  - assert (Hfilter :
      List.filter
        (fun b => negb (bool_decide
                          (barcode_type b ∈ ["Data Matrix"; "QR Code"; "QRCode"])))
        barcodes
      = List.filter (fun b => negb (PyStr.mem (barcode_type b) EXCLUDED_2D_TYPES))
          barcodes).
    { apply List.filter_ext. intros b. f_equal.
      destruct (PyStr.mem (barcode_type b) EXCLUDED_2D_TYPES) eqn:E.
      - apply bool_decide_eq_true_2. by apply mem_true_iff in E.
      - apply bool_decide_eq_false_2. by apply mem_false_iff in E. }
    rewrite Hfilter.
    unfold process_image_to_rows, reconcile, deduplicated.
    by rewrite filter_idempotent.
  - intros row Hrow. unfold process_image_to_rows in Hrow.
    apply list_elem_of_fmap in Hrow as (b & -> & Hb).
    rewrite row_for_type.
    apply prefer_code128_subset in Hb.
    apply (deduplicated_not_excluded image opts barcodes) in Hb.
    apply mem_false_iff in Hb. unfold EXCLUDED_2D_TYPES in Hb.
    rewrite !elem_of_cons in Hb. tauto.
Qed.

(** C7. Whenever the deduplicated detections of an image contain a Code 128
    read, the rows are built from exactly the detections that are neither
    of a DataBar type nor of type UPC-A, UPC-E, EAN-13 or EAN-8: every
    DataBar and every UPC/EAN read is dropped, and every read of type
    "Code 128" has its row, with its raw value. *)
Theorem code128_displaces_databar_and_upcean image barcodes opts :
  let ds := deduplicated_of image opts barcodes in
  let rows := rows_of image barcodes opts in
  existsb (fun b => is_code128_type (barcode_type b)) ds = true ->
  rows = List.map (row_of image opts) (List.filter outside_displaced_families ds)
  /\ (forall row, row ∈ rows ->
        is_databar_type (RowDraft.barcode_type row) = false
        /\ is_upcean_type (RowDraft.barcode_type row) = false)
  /\ (forall b, b ∈ ds -> barcode_type b = "Code 128" ->
        exists row, row ∈ rows
          /\ RowDraft.barcode_type row = "Code 128"
          /\ RowDraft.barcode_value row = barcode_value b).
Proof.
  intros ds rows Hc.
  assert (Hrows : rows = List.map (row_of image opts)
                           (List.filter outside_displaced_families ds)).
  { unfold rows, process_image_to_rows, reconcile.
    fold ds. by rewrite (prefer_code128_filter ds Hc). }
  split; [exact Hrows|]. split.
  - intros row Hrow. rewrite Hrows in Hrow.
    apply list_elem_of_fmap in Hrow as (b & -> & Hb).
    apply elem_of_filter_bool in Hb as [_ Hb].
    rewrite row_for_type. unfold outside_displaced_families in Hb.
    apply andb_true_iff in Hb as [H1 H2].
    by apply negb_true_iff in H1, H2.
  - intros b Hb Hty. exists (row_of image opts b). split; [|split].
    + rewrite Hrows. apply list_elem_of_fmap. exists b. split; [done|].
      apply elem_of_filter_bool. split; [done|].
      unfold outside_displaced_families. by rewrite Hty.
    + by rewrite row_for_type.
    + apply row_for_value_plain. by rewrite Hty.
Qed.

End ProcessorFacts.

(** *** A run without collaborators *)

Example ean13_and_code128_rows :
  rows_without_collaborators ean13_and_code128
  = [RowDraft.mk "Code 128" "4006381333931XYZ" None None].
Proof. vm_compute. reflexivity. Qed.

Lemma code128_displaces_databar_and_upcean_witness :
  existsb (fun b => is_code128_type (barcode_type b))
    (deduplicated unit no_ocr_band no_ocr_band tt plain_options ean13_and_code128) = true
  /\ forall row, row ∈ rows_without_collaborators ean13_and_code128 ->
       is_databar_type (RowDraft.barcode_type row) = false
       /\ is_upcean_type (RowDraft.barcode_type row) = false.
Proof.
  split; [vm_compute; reflexivity|].
  apply (code128_displaces_databar_and_upcean unit no_ocr_band no_ocr_band no_ocr_name
           no_ocr_name no_deep_lookup no_lookup no_lookup no_lookup keep_name
           tt ean13_and_code128 plain_options).
  vm_compute. reflexivity.
Defined.

(** ** The stacked-duplicate pass *)

Lemma overlap_ratio_sym a1 a2 b1 b2 :
  _overlap_ratio_1d a1 a2 b1 b2 = _overlap_ratio_1d b1 b2 a1 a2.
Proof.
  unfold _overlap_ratio_1d.
  by rewrite (Z.max_comm a1 b1), (Z.min_comm a2 b2),
    (Z.min_comm (Z.max 0 (a2 - a1)) (Z.max 0 (b2 - b1))).
Qed.

Lemma stacked_sym box_i box_j : stacked box_i box_j = stacked box_j box_i.
Proof.
  destruct box_i as [[[ix1 iy1] ix2] iy2], box_j as [[[jx1 jy1] jx2] jy2].
  unfold stacked.
  by rewrite (overlap_ratio_sym ix1 ix2 jx1 jx2), (overlap_ratio_sym iy1 iy2 jy1 jy2).
Qed.

Lemma insert_by_key_perm x l : insert_by_key x l ≡ₚ x :: l.
Proof.
  induction l as [|y r IH]; simpl; [done|].
  destruct (top_key x <=? top_key y); [done|].
  rewrite IH. apply perm_swap.
Qed.

Lemma sorted_by_top_perm l : sorted_by_top l ≡ₚ l.
Proof.
  induction l as [|x l IH]; simpl; [done|].
  rewrite insert_by_key_perm. by rewrite IH.
Qed.

Lemma insert_by_key_sorted x l :
  StronglySorted key_le l -> StronglySorted key_le (insert_by_key x l).
Proof.
  induction 1 as [|y r Hr IH Hy]; simpl.
  - repeat constructor.
  - destruct (Z.leb_spec (top_key x) (top_key y)) as [Hle|Hgt].
    + constructor; [by constructor|].
      constructor; [exact Hle|].
      eapply Forall_impl; [exact Hy|]. intros z Hz. unfold key_le in *. lia.
    + constructor; [exact IH|].
      rewrite insert_by_key_perm. constructor; [unfold key_le; lia|exact Hy].
Qed.

Lemma sorted_by_top_sorted l : StronglySorted key_le (sorted_by_top l).
Proof.
  induction l as [|x l IH]; simpl; [constructor|by apply insert_by_key_sorted].
Qed.

(** The inner loop, for an entry above all the entries still to come:
    it drops exactly the entries stacked under it. *)
Lemma stacked_inner_spec i bi rest :
  (forall j bj, (j, Some bj) ∈ rest -> box_top bi <= box_top bj) ->
  forall dropped j,
    (j ∈ stacked_inner i bi rest dropped)
    <-> (j ∈ dropped) \/ exists bj, (j, Some bj) ∈ rest /\ stacked bi bj = true.
Proof.
  induction rest as [|[j' box_j] rest IH]; intros Hsorted dropped j; simpl.
  - split; [by left|]. intros [H|(bj & H & _)]; [done|by apply elem_of_nil in H].
  - assert (Hrest : forall j bj, (j, Some bj) ∈ rest -> box_top bi <= box_top bj).
    { intros j0 bj0 H0. apply (Hsorted j0 bj0). by right. }
    destruct box_j as [bj'|].
    + destruct (bool_decide (j' ∈ dropped)) eqn:Edrop.
      * apply bool_decide_eq_true in Edrop. rewrite (IH Hrest). split.
        -- intros [H|(bj & H & Hst)]; [by left|]. right. exists bj. split; [by right|done].
        -- intros [H|(bj & H & Hst)]; [by left|].
           apply elem_of_cons in H as [H|H].
           ++ left. congruence.
           ++ right. eauto.
      * destruct (stacked bi bj') eqn:Est.
        -- assert (Hle : (box_top bi <=? box_top bj') = true).
           { apply Z.leb_le. apply (Hsorted j' bj'). by left. }
           rewrite Hle, (IH Hrest). rewrite elem_of_union, elem_of_singleton. split.
           ++ intros [[H| ->]|(bj & H & Hst)].
              ** by left.
              ** right. exists bj'. split; [by left|done].
              ** right. exists bj. split; [by right|done].
           ++ intros [H|(bj & H & Hst)]; [by left; left|].
              apply elem_of_cons in H as [H|H].
              ** left. right. congruence.
              ** right. eauto.
        -- rewrite (IH Hrest). split.
           ++ intros [H|(bj & H & Hst)]; [by left|]. right. exists bj.
              split; [by right|done].
           ++ intros [H|(bj & H & Hst)]; [by left|].
              apply elem_of_cons in H as [H|H]; [|right; eauto].
              inversion H; subst. congruence.
    + rewrite (IH Hrest). split.
      * intros [H|(bj & H & Hst)]; [by left|]. right. exists bj. split; [by right|done].
      * intros [H|(bj & H & Hst)]; [by left|].
        apply elem_of_cons in H as [H|H]; [discriminate|right; eauto].
Qed.

Lemma outer_post_lift x order dropped D :
  outer_post order dropped D ->
  (forall i bi, x = (i, Some bi) -> i ∈ D) ->
  outer_post (x :: order) dropped D.
Proof.
  intros [Hm Hd Hk] Hx. split; [done| |].
  - intros j Hj. destruct (Hd j Hj) as [H|(i & bi & bj & Hi & Hjj & H)]; [by left|].
    right. exists i, bi, bj. split; [by right|]. split; [by right|done].
  - intros i j bi bj Hi Hj Hne Hni Hnj.
    apply elem_of_cons in Hi as [Hi|Hi].
    { exfalso. apply Hni. by apply (Hx i bi). }
    apply elem_of_cons in Hj as [Hj|Hj].
    { exfalso. apply Hnj. by apply (Hx j bj). }
    by apply (Hk i j bi bj).
Qed.

Lemma stacked_outer_spec order :
  StronglySorted key_le order -> NoDup (List.map fst order) ->
  forall dropped, outer_post order dropped (stacked_outer order dropped).
Proof.
  induction 1 as [|[i box_i] rest Hsorted IH Hhead]; intros Hnd dropped;
    cbn [stacked_outer].
  - split; [done|by left|].
    intros i j bi bj Hi. by apply elem_of_nil in Hi.
  - change (List.map fst ((i, box_i) :: rest)) with (i :: List.map fst rest) in Hnd.
    apply NoDup_cons in Hnd as [Hi_rest Hnd].
    specialize (IH Hnd).
    destruct box_i as [bi|].
    2:{ apply outer_post_lift; [apply IH|]. intros i0 b Hb. discriminate. }
    destruct (bool_decide (i ∈ dropped)) eqn:Edrop.
    { apply bool_decide_eq_true in Edrop.
      apply outer_post_lift; [apply IH|].
      intros i0 b Hb. inversion Hb; subst i0 b.
      by apply (post_mono _ _ _ (IH dropped)). }
    apply bool_decide_eq_false in Edrop.
    assert (Htop : forall j bj, (j, Some bj) ∈ rest -> box_top bi <= box_top bj).
    { intros j bj Hj. rewrite Forall_forall in Hhead. apply (Hhead _ Hj). }
    pose proof (stacked_inner_spec i bi rest Htop dropped) as Hinner.
    set (D1 := stacked_inner i bi rest dropped) in *.
    destruct (IH D1) as [Hm Hd Hk].
    set (D := stacked_outer rest D1) in *.
    assert (Hfst : forall j bj, (j, Some bj) ∈ rest -> j <> i).
    { intros j bj Hj ->. apply Hi_rest.
      apply list_elem_of_fmap. by exists (i, Some bj). }
    assert (Hi_D1 : i ∉ D1).
    { intros Hin. apply Hinner in Hin as [Hin|(bj & Hin & _)]; [done|].
      by apply (Hfst i bj Hin). }
    assert (Hi_D : i ∉ D).
    { intros Hin. destruct (Hd i Hin) as [Hin'|(i' & bi' & bj & _ & Hin' & _)]; [done|].
      by apply (Hfst i bj Hin'). }
    split.
    + intros j Hj. apply Hm. apply Hinner. by left.
    + intros j Hj. destruct (Hd j Hj) as [Hj1|(i' & bi' & bj & Hi' & Hjj & Hrest)].
      * apply Hinner in Hj1 as [Hj1|(bj & Hjj & Hst)]; [by left|].
        right. exists i, bi, bj. split; [by left|]. split; [by right|].
        split; [done|]. split; [done|]. by apply (Htop j bj).
      * right. exists i', bi', bj. split; [by right|]. split; [by right|done].
    + intros i1 i2 b1 b2 H1 H2 Hne Hn1 Hn2.
      apply elem_of_cons in H1 as [H1|H1]; apply elem_of_cons in H2 as [H2|H2].
      * congruence.
      * inversion H1; subst i1 b1.
        destruct (stacked bi b2) eqn:Est; [|done].
        exfalso. apply Hn2, Hm, Hinner. right. eauto.
      * inversion H2; subst i2 b2. rewrite stacked_sym.
        destruct (stacked bi b1) eqn:Est; [|done].
        exfalso. apply Hn1, Hm, Hinner. right. eauto.
      * by apply (Hk i1 i2 b1 b2).
Qed.

Lemma elem_of_combine_seq {A} (l : list A) s i (b : A) :
  (i, b) ∈ List.combine (List.seq s (length l)) l
  <-> exists k, i = (s + k)%nat /\ l !! k = Some b.
Proof.
  revert s. induction l as [|a l IH]; intros s; simpl.
  - split; [intros H; by apply elem_of_nil in H|]. intros (k & _ & H). done.
  - rewrite elem_of_cons, IH. split.
    + intros [H|(k & -> & H)].
      * inversion H; subst. exists 0%nat. split; [lia|done].
      * exists (S k). split; [lia|done].
    + intros ([|k] & -> & H); simpl in H.
      * left. inversion H; subst. f_equal. lia.
      * right. exists k. split; [lia|done].
Qed.

Lemma elem_of_enumerate {A} (l : list A) i (b : A) :
  (i, b) ∈ enumerate l <-> l !! i = Some b.
Proof.
  unfold enumerate. rewrite elem_of_combine_seq. split.
  - by intros (k & -> & H).
  - intros H. by exists i.
Qed.

Lemma map_fst_combine_seq {A} (l : list A) s :
  List.map fst (List.combine (List.seq s (length l)) l) = List.seq s (length l).
Proof.
  revert s. induction l as [|a l IH]; intros s; simpl; [done|]. by rewrite IH.
Qed.

Lemma elem_of_indexed_boxes barcodes i box :
  (i, box) ∈ indexed_boxes barcodes
  <-> exists b, barcodes !! i = Some b /\ box = _bbox_from_quad b.
Proof.
  unfold indexed_boxes. rewrite list_elem_of_fmap. split.
  - intros ([i' b] & Heq & Hin). simpl in Heq. inversion Heq; subst.
    apply elem_of_enumerate in Hin. eauto.
  - intros (b & Hb & ->). exists (i, b). split; [done|]. by apply elem_of_enumerate.
Qed.

Lemma indexed_boxes_nodup barcodes : NoDup (List.map fst (indexed_boxes barcodes)).
Proof.
  unfold indexed_boxes. rewrite List.map_map. simpl.
  unfold enumerate. rewrite map_fst_combine_seq. apply NoDup_seq.
Qed.

(** What [_prefer_topmost_stacked] does on any list: it keeps the
    detections whose index is not in a set [dropped], in their order; every
    dropped detection has a quad and lies stacked under a kept detection
    whose top edge is not below its own; and no two kept detections with
    quads are stacked. *)
Lemma prefer_topmost_stacked_spec (barcodes : list DetectedBarcode) :
  exists dropped : gset nat,
    _prefer_topmost_stacked barcodes
    = List.map snd
        (List.filter (fun ib => negb (bool_decide (fst ib ∈ dropped))) (enumerate barcodes))
    /\ (forall j, j ∈ dropped ->
          exists i b_i b_j box_i box_j,
            barcodes !! i = Some b_i /\ barcodes !! j = Some b_j /\ (i ∉ dropped)
            /\ _bbox_from_quad b_i = Some box_i /\ _bbox_from_quad b_j = Some box_j
            /\ stacked box_i box_j = true /\ box_top box_i <= box_top box_j)
    /\ (forall i j b_i b_j box_i box_j,
          barcodes !! i = Some b_i -> barcodes !! j = Some b_j -> i <> j ->
          i ∉ dropped -> j ∉ dropped ->
          _bbox_from_quad b_i = Some box_i -> _bbox_from_quad b_j = Some box_j ->
          stacked box_i box_j = false).
Proof.
  set (order := sorted_by_top (indexed_boxes barcodes)).
  exists (stacked_outer order ∅). split; [reflexivity|].
  assert (Hperm : order ≡ₚ indexed_boxes barcodes) by apply sorted_by_top_perm.
  assert (Hnd : NoDup (List.map fst order)).
  { assert (Hfst : List.map fst order ≡ₚ List.map fst (indexed_boxes barcodes))
      by (by apply Permutation_map).
    rewrite Hfst. apply indexed_boxes_nodup. }
  destruct (stacked_outer_spec order (sorted_by_top_sorted _) Hnd ∅) as [_ Hd Hk].
  assert (Hmem : forall i box, (i, Some box) ∈ order
            <-> exists b, barcodes !! i = Some b /\ _bbox_from_quad b = Some box).
  { intros i box. rewrite Hperm, elem_of_indexed_boxes. split.
    - intros (b & Hb & Hbox). eauto.
    - intros (b & Hb & Hbox). eauto. }
  split.
  - intros j Hj. destruct (Hd j Hj) as [H|(i & bi & bj & Hi & Hjj & Hni & Hst & Hle)].
    { by apply not_elem_of_empty in H. }
    apply Hmem in Hi as (b_i & Hbi & Hboxi). apply Hmem in Hjj as (b_j & Hbj & Hboxj).
    exists i, b_i, b_j, bi, bj. done.
  - intros i j b_i b_j box_i box_j Hi Hj Hne Hni Hnj Hbi Hbj.
    apply (Hk i j box_i box_j); try done; apply Hmem; eauto.
Qed.

(** The two cases of the spec: quads at y=[0,50] and y=[5,55] over one
    x-span overlap too much vertically and both stay; quads at y=[0,50] and
    y=[200,250] are stacked and only the upper one stays. *)
Example overlapping_pair_both_survive :
  let a := mkDetected "Code 39" "A" (rect 0 0 100 50) None in
  let b := mkDetected "Code 39" "B" (rect 0 5 100 55) None in
  _prefer_topmost_stacked [a; b] = [a; b] /\ _prefer_topmost_stacked [b; a] = [b; a].
Proof. split; vm_compute; reflexivity. Qed.

Example stacked_pair_collapses_to_topmost :
  let a := mkDetected "Code 39" "A" (rect 0 0 100 50) None in
  let b := mkDetected "Code 39" "B" (rect 0 200 100 250) None in
  _prefer_topmost_stacked [a; b] = [a] /\ _prefer_topmost_stacked [b; a] = [a].
Proof. split; vm_compute; reflexivity. Qed.

(** A staircase of three: the middle one goes, and with it the reason for
    the lowest one to go. *)
Example staircase_keeps_lowest :
  let a := mkDetected "Code 39" "A" (rect 0 0 100 50) None in
  let b := mkDetected "Code 39" "B" (rect 40 100 140 150) None in
  let c := mkDetected "Code 39" "C" (rect 80 200 180 250) None in
  _prefer_topmost_stacked [a; b; c] = [a; c]
  /\ match _bbox_from_quad b, _bbox_from_quad c with
     | Some box, Some box' => stacked box box'
     | _, _ => false
     end = true.
Proof. split; vm_compute; reflexivity. Qed.

(** *** Reconciliation does not look at quads *)

Lemma dedupe_step_same_keys st st' b b' :
  same_keys st st' -> key b = key b' ->
  same_keys (dedupe_step st b) (dedupe_step st' b').
Proof.
  intros (Hs & Ht & Hu) Hk. unfold key in Hk. inversion Hk as [[Hty Hval]].
  unfold dedupe_step. rewrite <- Hty, <- Hval, <- Hs, <- Ht.
  destruct (bool_decide _); [done|].
  destruct (_ && _); [done|].
  destruct (PyStr.mem _ _).
  - destruct (bool_decide _); [done|].
    unfold same_keys. simpl. split; [done|]. split; [done|].
    rewrite !List.map_app, Hu. simpl. unfold key. by rewrite Hty, Hval.
  - unfold same_keys. simpl. split; [done|]. split; [done|].
    rewrite !List.map_app, Hu. simpl. unfold key. by rewrite Hty, Hval.
Qed.

Lemma dedupe_fold_same_keys l : forall l' st st',
  same_keys st st' -> List.map key l = List.map key l' ->
  same_keys (fold_left dedupe_step l st) (fold_left dedupe_step l' st').
Proof.
  induction l as [|b l IH]; intros [|b' l'] st st' Hst Hl; simpl in *;
    try discriminate; [done|].
  inversion Hl as [[Hb Hl']].
  apply IH; [|done]. apply dedupe_step_same_keys; [done|].
  unfold key. congruence.
Qed.

Lemma dedupe_and_filter_keys_only l l' :
  List.map key l = List.map key l' ->
  List.map key (_dedupe_and_filter l) = List.map key (_dedupe_and_filter l').
Proof.
  intros Hl. unfold _dedupe_and_filter.
  by destruct (dedupe_fold_same_keys l l' (mkDedupe ∅ ∅ []) (mkDedupe ∅ ∅ [])
                 (conj eq_refl (conj eq_refl eq_refl)) Hl) as (_ & _ & H).
Qed.

Lemma filter_by_type_keys_only (p : string -> bool) l : forall l',
  List.map key l = List.map key l' ->
  List.map key (List.filter (fun b => p (barcode_type b)) l)
  = List.map key (List.filter (fun b => p (barcode_type b)) l').
Proof.
  induction l as [|b l IH]; intros [|b' l'] Hl; simpl in *; try discriminate; [done|].
  inversion Hl as [[Hty Hval Hl']].
  replace (barcode_type b') with (barcode_type b) by congruence.
  destruct (p (barcode_type b)); simpl; [|by apply IH].
  f_equal; [unfold key; congruence|by apply IH].
Qed.

Lemma existsb_by_type_keys_only (p : string -> bool) l : forall l',
  List.map key l = List.map key l' ->
  existsb (fun b => p (barcode_type b)) l = existsb (fun b => p (barcode_type b)) l'.
Proof.
  induction l as [|b l IH]; intros [|b' l'] Hl; simpl in *; try discriminate; [done|].
  inversion Hl as [[Hty Hval Hl']].
  replace (barcode_type b') with (barcode_type b) by congruence.
  f_equal. by apply IH.
Qed.

Lemma prefer_code128_keys_only l l' :
  List.map key l = List.map key l' ->
  List.map key (prefer_code128 l) = List.map key (prefer_code128 l').
Proof.
  intros Hl. unfold prefer_code128.
  rewrite <- (existsb_by_type_keys_only is_code128_type l l' Hl).
  rewrite <- (existsb_by_type_keys_only is_databar_type l l' Hl).
  rewrite <- (existsb_by_type_keys_only is_upcean_type l l' Hl).
  destruct (_ && _); destruct (_ && _).
  - apply (filter_by_type_keys_only (fun t => negb (is_upcean_type t))).
    by apply (filter_by_type_keys_only (fun t => negb (is_databar_type t))).
  - by apply (filter_by_type_keys_only (fun t => negb (is_upcean_type t))).
  - by apply (filter_by_type_keys_only (fun t => negb (is_databar_type t))).
  - done.
Qed.

Section ReconciliationFacts.

Variable Image : Type.
Variable ocr_upcean_digit_band : Image -> list (list Point) -> option string.
Variable ocr_upcean_numeric : Image -> list (list Point) -> option string.
Variable ocr_bold_name : Image -> list Point -> option string.
Variable ocr_item_name : Image -> list Point -> option string.
Variable deep_lookup_product_name :
  string -> option string -> option string -> option string -> option string.
Variable duckduckgo_lookup : string -> option string.
Variable lookup_product_name : string -> option string.
Variable extract_gtin : string -> option string.
Variable _validate_name : option string -> string -> option string.

Local Abbreviation rows_of :=
  (process_image_to_rows Image ocr_upcean_digit_band ocr_upcean_numeric
     ocr_bold_name ocr_item_name deep_lookup_product_name duckduckgo_lookup
     lookup_product_name extract_gtin _validate_name).
Local Abbreviation reconcile_of :=
  (reconcile Image ocr_upcean_digit_band ocr_upcean_numeric).

Lemma reconcile_keys_only image opts barcodes barcodes' :
  ProcessOptions.ocr opts = false ->
  List.map key barcodes = List.map key barcodes' ->
  List.map key (reconcile_of image opts barcodes)
  = List.map key (reconcile_of image opts barcodes').
Proof.
  intros Hocr Hl. unfold reconcile, deduplicated, ocr_recover.
  rewrite Hocr, !andb_false_r.
  apply prefer_code128_keys_only, dedupe_and_filter_keys_only.
  by apply (filter_by_type_keys_only (fun t => negb (PyStr.mem t EXCLUDED_2D_TYPES))).
Qed.

(** C3, amended. The stacked-duplicate pass is the helper
    [_prefer_topmost_stacked], which [process_image_to_rows] never calls:
    with OCR recovery off, the types of the rows are a function of the
    (type, value) sequence of the input alone, whatever the quads. The
    helper, on any list, keeps the detections in their order except a set
    of dropped ones; every dropped detection has a quad with horizontal
    overlap ratio at least 0.6 and vertical overlap ratio at most 0.1 with
    the quad of a kept detection whose top edge is not below its own; and
    no two kept detections with quads are stacked in that sense. *)
Theorem stacked_pass_is_a_helper_outside_reconciliation
  image opts (barcodes barcodes' : list DetectedBarcode) :
  ProcessOptions.ocr opts = false ->
  List.map key barcodes = List.map key barcodes' ->
  List.map RowDraft.barcode_type (rows_of image barcodes opts)
  = List.map RowDraft.barcode_type (rows_of image barcodes' opts)
  /\ exists dropped : gset nat,
       _prefer_topmost_stacked barcodes
       = List.map snd
           (List.filter (fun ib => negb (bool_decide (fst ib ∈ dropped)))
                        (enumerate barcodes))
       /\ (forall j, j ∈ dropped ->
             exists i b_i b_j box_i box_j,
               barcodes !! i = Some b_i /\ barcodes !! j = Some b_j /\ (i ∉ dropped)
               /\ _bbox_from_quad b_i = Some box_i /\ _bbox_from_quad b_j = Some box_j
               /\ stacked box_i box_j = true /\ box_top box_i <= box_top box_j)
       /\ (forall i j b_i b_j box_i box_j,
             barcodes !! i = Some b_i -> barcodes !! j = Some b_j -> i <> j ->
             i ∉ dropped -> j ∉ dropped ->
             _bbox_from_quad b_i = Some box_i -> _bbox_from_quad b_j = Some box_j ->
             stacked box_i box_j = false).
Proof.
  intros Hocr Hl. split; [|apply prefer_topmost_stacked_spec].
  rewrite !(rows_types Image ocr_upcean_digit_band ocr_upcean_numeric ocr_bold_name
              ocr_item_name deep_lookup_product_name duckduckgo_lookup
              lookup_product_name extract_gtin _validate_name).
  pose proof (reconcile_keys_only image opts barcodes barcodes' Hocr Hl) as Hk.
  apply (f_equal (List.map fst)) in Hk. rewrite !List.map_map in Hk. exact Hk.
Qed.

End ReconciliationFacts.

(** C3 as stated fails: the two labels are stacked (full horizontal
    overlap, no vertical overlap), the helper alone would keep the upper
    one only, and yet both have their row. *)
Lemma stacked_pair_survives_reconciliation :
  match _bbox_from_quad upper_label, _bbox_from_quad lower_label with
  | Some box_i, Some box_j => stacked box_i box_j && (box_top box_i <? box_top box_j)
  | _, _ => false
  end = true
  /\ _prefer_topmost_stacked [upper_label; lower_label] = [upper_label]
  /\ List.map RowDraft.barcode_value
       (rows_without_collaborators [upper_label; lower_label])
     = ["SHIP0000000001"; "SHIP0000000002"].
Proof. repeat split; vm_compute; reflexivity. Qed.

Lemma stacked_pass_is_a_helper_outside_reconciliation_witness :
  ProcessOptions.ocr plain_options = false
  /\ List.map key [upper_label; lower_label]
     = List.map key [mkDetected "Code 128" "SHIP0000000001" [] None;
                     mkDetected "Code 128" "SHIP0000000002" quad_A (Some "grid")]
  /\ List.map RowDraft.barcode_type (rows_without_collaborators [upper_label; lower_label])
     = List.map RowDraft.barcode_type
         (rows_without_collaborators
            [mkDetected "Code 128" "SHIP0000000001" [] None;
             mkDetected "Code 128" "SHIP0000000002" quad_A (Some "grid")]).
Proof.
  split; [reflexivity|]. split; [reflexivity|].
  apply (stacked_pass_is_a_helper_outside_reconciliation unit no_ocr_band no_ocr_band
           no_ocr_name no_ocr_name no_deep_lookup no_lookup no_lookup no_lookup keep_name
           tt plain_options [upper_label; lower_label]
           [mkDetected "Code 128" "SHIP0000000001" [] None;
            mkDetected "Code 128" "SHIP0000000002" quad_A (Some "grid")]);
    reflexivity.
Defined.

(** ** Coordinate remapping *)

Lemma remap_point_eq ox oy s x y :
  remap_point ox oy s (x, y)
  = match PyFloat.to_int (PyFloat.int_mul x (PrimFloat.div 1%float s)) with
    | Ok ix =>
        match PyFloat.to_int (PyFloat.int_mul y (PrimFloat.div 1%float s)) with
        | Ok iy => Ok (ox + ix, oy + iy)
        | Raise e => Raise e
        end
    | Raise e => Raise e
    end.
Proof. reflexivity. Qed.

Lemma remapped_eq ox oy s r :
  remapped ox oy s r
  = match exc_mapM (remap_point ox oy s) (reported_corners r) with
    | Ok quad =>
        Ok (mkDetected (_friendly_format (format r)) (default EmptyString (text r)) quad None)
    | Raise e => Raise e
    end.
Proof. reflexivity. Qed.

(** [_extract_quad] returns the corners the decoder reports. *)
Lemma extract_quad_corners (r : RawResult) :
  _extract_quad (position r) = reported_corners r.
Proof. unfold _extract_quad, reported_corners. by destruct (position r). Qed.

Lemma remap_loop_mapM ox oy s quad_raw : forall quad,
  remap_loop ox oy (PrimFloat.div 1%float s) quad_raw quad
  = (qs ← exc_mapM (remap_point ox oy s) quad_raw; Ok (quad ++ qs)%list).
Proof.
  induction quad_raw as [|[x y] rest IH]; intros quad; cbn [remap_loop exc_mapM].
  - unfold mbind, exc_bind. by rewrite app_nil_r.
  - unfold mbind, exc_bind in *. rewrite remap_point_eq.
    destruct (PyFloat.to_int (PyFloat.int_mul x _)) as [ix|e]; [|done].
    destruct (PyFloat.to_int (PyFloat.int_mul y _)) as [iy|e]; [|done].
    rewrite IH.
    destruct (exc_mapM (remap_point ox oy s) rest) as [qs|e]; [|done].
    by rewrite <- app_assoc.
Qed.

Lemma map_results_loop_mapM ox oy s results : forall detected,
  map_results_loop ox oy (PrimFloat.div 1%float s) results detected
  = (ds ← exc_mapM (remapped ox oy s) results;
     Ok (detected ++ List.filter (fun d => PyStr.nonempty (barcode_value d)) ds)%list).
Proof.
  induction results as [|r rest IH]; intros detected;
    cbn [map_results_loop exc_mapM].
  - unfold mbind, exc_bind. cbn [List.filter]. by rewrite app_nil_r.
  - rewrite remap_loop_mapM, extract_quad_corners.
    unfold mbind, exc_bind in *. rewrite remapped_eq.
    destruct (exc_mapM (remap_point ox oy s) _) as [quad|e]; [|done].
    rewrite IH. cbn [app].
    destruct (exc_mapM (remapped ox oy s) rest) as [ds|e]; [|done].
    cbn [List.filter barcode_value].
    destruct (PyStr.nonempty (default EmptyString (text r))); [|done].
    by rewrite <- app_assoc.
Qed.

Section RemappingFacts.

Variable Image : Type.
Variable _read_barcodes_with_opts : Image -> option FormatMask -> Exc (list RawResult).

(** C9, amended. For a nonzero scale [s] and crop origin [(ox, oy)], both
    mapped decode entry points return, for the raw results of the decoder,
    the detections whose quads are the four corners of the decoder's
    position with every corner [(x, y)] sent to
    [(ox + int(x * (1/s)), oy + int(y * (1/s)))], in order, where [1/s]
    and the products are binary64 values; they raise exactly where the
    decoder or one of these [int] conversions raises (the masked entry
    point turns a decoder exception into the empty list). *)
Theorem mapped_decode_remaps_every_point
  (img : Image) (ox oy : Z) (s : float) (formats_mask : FormatMask) :
  PyFloat.nonzero s = true ->
  _try_decode_with_map Image _read_barcodes_with_opts img (ox, oy) s
  = (results ← _read_barcodes_with_opts img None; remapped_detections ox oy s results)
  /\ _try_decode_with_map_formats Image _read_barcodes_with_opts img (ox, oy) s formats_mask
     = match _read_barcodes_with_opts img (Some formats_mask) with
       | Raise _ => Ok []
       | Ok results => remapped_detections ox oy s results
       end.
Proof.
  intros Hs. unfold _try_decode_with_map, _try_decode_with_map_formats, inverse_scale.
  rewrite Hs. split.
  - unfold mbind at 1 2, exc_bind.
    destruct (_read_barcodes_with_opts img None) as [results|e]; [|done].
    rewrite map_results_loop_mapM. unfold remapped_detections, mbind, exc_bind.
    by destruct (exc_mapM _ results).
  - destruct (_read_barcodes_with_opts img (Some formats_mask)) as [results|e]; [|done].
    rewrite map_results_loop_mapM. unfold remapped_detections, mbind, exc_bind.
    by destruct (exc_mapM _ results).
Qed.

End RemappingFacts.

(** C9 as stated fails: the remapped corner is not [offset + raw_point /
    scale] truncated. In a grid cell 345 pixels wide, enlarged by
    1600/345, the corner at x = 960 is sent to 206; the quotient
    960 / (1600/345) is 207, in binary64 as in exact arithmetic
    (960 * 345 = 207 * 1600). *)
Lemma mapped_decode_is_not_the_truncated_quotient :
  _try_decode_with_map unit enlarged_cell_stub tt (0, 0)
    (PrimFloat.div 1600%float (PyFloat.of_int 345))
  <> (results ← enlarged_cell_stub tt None;
      quotient_detections 0 0 (PrimFloat.div 1600%float (PyFloat.of_int 345)) results).
Proof. vm_compute. discriminate. Qed.

(** The two readings of that corner, side by side. *)
Example enlarged_cell_corner :
  remap_point 0 0 (PrimFloat.div 1600%float (PyFloat.of_int 345)) (960, 320) = Ok (206, 69)
  /\ quotient_point 0 0 (PrimFloat.div 1600%float (PyFloat.of_int 345)) (960, 320)
     = Ok (207, 69)
  /\ 960 * 345 = 207 * 1600.
Proof. repeat split; vm_compute; reflexivity. Qed.

Example mapped_decode_example :
  _try_decode_with_map unit one_read_stub tt (100, 200) 2%float
  = Ok [mkDetected "EAN-13" "4006381333931"
          [(120, 230); (320, 230); (320, 280); (120, 280)] None].
Proof. vm_compute. reflexivity. Qed.

(** The product [x * (1/s)] is rounded twice: at scale 49 the point 49
    lands on 0, not on 49/49 = 1. *)
Example remap_point_rounds_twice :
  remap_point 0 0 49%float (49, 98) = Ok (0, 1).
Proof. vm_compute. reflexivity. Qed.

(** With a scale so small that [1/s] overflows the conversion raises. *)
Example remap_point_overflow :
  remap_point 0 0 0x1p-1074%float (1, 1) = Raise OverflowError.
Proof. vm_compute. reflexivity. Qed.

Lemma mapped_decode_remaps_every_point_witness :
  PyFloat.nonzero 2%float = true
  /\ _try_decode_with_map unit one_read_stub tt (100, 200) 2%float
     = (results ← one_read_stub tt None; remapped_detections 100 200 2%float results)
  /\ _try_decode_with_map_formats unit one_read_stub tt (100, 200) 2%float upc_formats
     = match one_read_stub tt (Some upc_formats) with
       | Raise _ => Ok []
       | Ok results => remapped_detections 100 200 2%float results
       end.
Proof.
  split; [reflexivity|].
  apply (mapped_decode_remaps_every_point unit one_read_stub tt 100 200 2%float upc_formats).
  reflexivity.
Defined.
(** ** The cascade *)

Lemma grid_boxes_large (w h grid : Z) l t r b :
  (l, t, r, b) ∈ _grid_boxes w h grid -> 40 < r - l /\ 40 < b - t.
Proof.
  unfold _grid_boxes. rewrite list_elem_of_In, in_flat_map.
  intros (gy & _ & Hin). apply in_flat_map in Hin as (gx & _ & Hin).
  unfold grid_cell in Hin.
  match type of Hin with
  | In _ (if ?c then _ else _) => destruct c eqn:Hc; [|destruct Hin]
  end.
  destruct Hin as [Heq|[]]. inversion Heq; subst.
  apply andb_true_iff in Hc as [H1 H2]. apply Z.ltb_lt in H1, H2. done.
Qed.

Lemma flat_map_singleton {A B} (f : A -> B) (l : list A) :
  flat_map (fun x => [f x]) l = List.map f l.
Proof. induction l as [|x l IH]; simpl; [done|by rewrite IH]. Qed.

(** A tier's label leaves no list empty that was not. *)
Lemma tag_cons label d (ds : list DetectedBarcode) :
  exists d' ds', tag label (d :: ds) = d' :: ds'.
Proof. destruct label; simpl; eauto. Qed.

Section CascadeFacts.

Variable Image : Type.
Variable size : Image -> Z * Z.
Variable rotate : Z -> Image -> Image.
Variable resize : Z * Z -> Image -> Exc Image.
Variable crop : Box -> Image -> Image.
Variable gray_autocontrast : Image -> Image.
Variable enhance_contrast : float -> Image -> Image.
Variable sharpen : Image -> Image.
Variable _read_barcodes_with_opts : Image -> option FormatMask -> Exc (list RawResult).
Variable _code128_focused : Image -> Exc (list DetectedBarcode).

(** The statements and plans at this decoder and these transforms. *)
Local Abbreviation call := (Call Image).
Local Abbreviation stmt := (Stmt Image).
Local Abbreviation step := (Step Image).
Local Abbreviation tier := (Tier Image).
Local Abbreviation TD := (TryDecode Image).
Local Abbreviation TDF := (TryDecodeFormats Image).
Local Abbreviation TDM := (TryDecodeWithMap Image).
Local Abbreviation outcome_of := (outcome Image _read_barcodes_with_opts _code128_focused).
Local Abbreviation attempt_ := (attempt Image _read_barcodes_with_opts _code128_focused).
Local Abbreviation seq_ := (seq Image).
Local Abbreviation skip_ := (skip Image).
Local Abbreviation try_pass_ := (try_pass Image).
Local Abbreviation raise_ := (raise Image).
Local Abbreviation when_ := (when Image).
Local Abbreviation bind_image_ := (bind_image Image).
Local Abbreviation scaled_ := (scaled Image resize).
Local Abbreviation search_ := (search Image _read_barcodes_with_opts _code128_focused).
Local Abbreviation quiet_ := (quiet Image _read_barcodes_with_opts _code128_focused).
Local Abbreviation calls_of_ := (calls_of Image).
Local Abbreviation performs_ :=
  (performs Image _read_barcodes_with_opts _code128_focused).
Local Abbreviation calm_ := (calm Image _read_barcodes_with_opts _code128_focused).
Local Abbreviation precheck_schedule_ :=
  (precheck_schedule Image rotate _read_barcodes_with_opts).
Local Abbreviation fast_path_schedule_ := (fast_path_schedule Image size rotate resize).
Local Abbreviation variants_schedule_ :=
  (variants_schedule Image rotate gray_autocontrast enhance_contrast sharpen).
Local Abbreviation upscale_schedule_ := (upscale_schedule Image size resize).
Local Abbreviation grid_step_ := (grid_step Image size resize crop).
Local Abbreviation grid_schedule_ := (grid_schedule Image size resize crop).
Local Abbreviation upc_only_schedule_ :=
  (upc_only_schedule Image size resize enhance_contrast sharpen).
Local Abbreviation difficult_schedule_ :=
  (difficult_schedule Image size resize enhance_contrast sharpen).
Local Abbreviation final_schedule_ := (final_schedule Image size resize).
Local Abbreviation schedule_ :=
  (schedule Image size rotate resize crop gray_autocontrast enhance_contrast sharpen
     _read_barcodes_with_opts).

(** *** The search *)

Lemma search_app (P1 P2 : list step) :
  search_ (P1 ++ P2)
  = match search_ P1 with
    | (Ok [], calls1) => let '(res, calls2) := search_ P2 in (res, (calls1 ++ calls2)%list)
    | other => other
    end.
Proof.
  induction P1 as [|st P1 IH]; cbn [app search].
  - by destruct (search_ P2).
  - destruct st as [x|a label|e]; [| |done].
    + rewrite IH. destruct (search_ P1) as [[[|d ds]|e] calls1]; [|done|done].
      by destruct (search_ P2).
    + destruct (outcome_of a) as [[|d ds]|e]; [| |done].
      * rewrite IH. destruct (search_ P1) as [[[|d ds]|e] calls1]; [|done|done].
        by destruct (search_ P2).
      * by destruct (tag_cons label d ds) as (d' & ds' & ->).
Qed.

(** Quiet steps are all taken, and the search goes on after them. *)
Lemma search_quiet (P : list step) :
  Forall quiet_ P -> search_ P = (Ok [], calls_of_ P).
Proof.
  induction 1 as [|st P Hst _ IH]; [done|]. cbn [search calls_of flat_map].
  destruct st as [x|a label|e]; simpl in Hst; [| |done].
  - by rewrite IH.
  - by rewrite Hst, IH.
Qed.

(** The search never makes more calls than the plan has steps. *)
Lemma search_calls_length (P : list step) :
  (length (snd (search_ P)) <= length P)%nat.
Proof.
  induction P as [|st P IH]; [done|]. cbn [search].
  destruct st as [x|a label|e]; [| |simpl; lia].
  - destruct (search_ P) as [res calls]. simpl in *. lia.
  - destruct (outcome_of a) as [[|d ds]|e].
    + destruct (search_ P) as [res calls]. simpl in *. lia.
    + simpl. lia.
    + simpl. lia.
Qed.

(** What a search can end with: nothing, or the result of one of its
    attempts under the label of the step. *)
Lemma search_result (P : list step) res :
  fst (search_ P) = Ok res ->
  res = []
  \/ exists a label d ds,
       Try Image a label ∈ P /\ outcome_of a = Ok (d :: ds) /\ res = tag label (d :: ds).
Proof.
  induction P as [|st P IH]; cbn [search]; [intros [= <-]; by left|].
  destruct st as [x|a label|e]; [| |done].
  - destruct (search_ P) as [r calls]. simpl in *. intros H.
    destruct (IH H) as [->|(a & label & d & ds & Hin & Hout & ->)]; [by left|].
    right. exists a, label, d, ds. split; [by right|done].
  - destruct (outcome_of a) as [[|d ds]|e] eqn:Ea; [| |done].
    + destruct (search_ P) as [r calls]. simpl in *. intros H.
      destruct (IH H) as [->|(a' & label' & d & ds & Hin & Hout & ->)]; [by left|].
      right. exists a', label', d, ds. split; [by right|done].
    + simpl. intros [= <-]. right. exists a, label, d, ds. split; [by left|done].
Qed.

(** *** Statements and the plans they perform *)

Lemma performs_skip : performs_ [] skip_.
Proof. intros log. unfold skip. simpl. by rewrite app_nil_r. Qed.

Lemma performs_raise e : performs_ [Fails Image e] (raise_ e).
Proof. intros log. unfold raise. simpl. by rewrite app_nil_r. Qed.

Lemma performs_attempt a label : performs_ [Try Image a label] (attempt_ a label).
Proof.
  intros log. unfold attempt, logged. cbn [search].
  destruct (outcome_of a) as [[|d ds]|e]; [done| |done].
  by destruct (tag_cons label d ds) as (d' & ds' & ->).
Qed.

Lemma performs_seq (P1 P2 : list step) (s1 s2 : stmt) :
  performs_ P1 s1 -> performs_ P2 s2 -> performs_ (P1 ++ P2) (seq_ s1 s2).
Proof.
  intros H1 H2 log. unfold seq. rewrite H1, search_app.
  destruct (search_ P1) as [[[|d ds]|e] calls1]; [|done|done].
  cbn [fst snd flow_of]. rewrite H2.
  destruct (search_ P2) as [res calls2]. simpl. by rewrite app_assoc.
Qed.

Lemma performs_if (c : bool) (P1 P2 : list step) (s1 s2 : stmt) :
  performs_ P1 s1 -> performs_ P2 s2 ->
  performs_ (if c then P1 else P2) (if c then s1 else s2).
Proof. by destruct c. Qed.

Lemma performs_when (c : bool) (P : list step) (s : stmt) :
  performs_ P s -> performs_ (if c then P else []) (when_ c s).
Proof. destruct c; [done|]. intros _. apply performs_skip. Qed.

Lemma performs_for_each {A} (xs : list A) (plan : A -> list step) (body : A -> stmt) :
  (forall x, x ∈ xs -> performs_ (plan x) (body x)) ->
  performs_ (flat_map plan xs) (for_each Image xs body).
Proof.
  induction xs as [|x xs IH]; intros H; simpl.
  - apply performs_skip.
  - apply performs_seq; [apply H; by left|].
    apply IH. intros y Hy. apply H. by right.
Qed.

(** A variant that has to be made first: one step, the attempt on it or
    the failure to make it. *)
Lemma performs_bind_image (variant : Exc Image) (st : Image -> step)
  (body : Image -> stmt) :
  (forall x, performs_ [st x] (body x)) ->
  performs_ [prepared Image variant st] (bind_image_ variant body).
Proof.
  intros H log. unfold bind_image, prepared. destruct variant as [x|e].
  - apply H.
  - simpl. by rewrite app_nil_r.
Qed.

(** A call made before the block starts. *)
Lemma performs_probed x (P : list step) (s : stmt) :
  performs_ P s ->
  performs_ (Probe Image x :: P) (fun log => s (logged Image log (QuickScan Image x))).
Proof.
  intros H log. unfold logged. rewrite H. cbn [search].
  destruct (search_ P) as [res calls]. simpl. by rewrite <- app_assoc.
Qed.

(** [try: ... except Exception: pass] around a block that lets no
    exception out. *)
Lemma performs_try_pass (P : list step) (s : stmt) :
  performs_ P s -> calm_ P -> performs_ P (try_pass_ s).
Proof.
  intros H Hcalm log. unfold try_pass. rewrite H.
  specialize (Hcalm). unfold calm in Hcalm.
  destruct (search_ P) as [[[|d ds]|e] calls]; [done|done|].
  by destruct (Hcalm e).
Qed.

(** [try: ... except Exception: pass] around a block in which a
    preparation fails: the block is left there. *)
Lemma performs_try_pass_cut (P1 P2 : list step) e (s : stmt) :
  performs_ (P1 ++ Fails Image e :: P2) s -> calm_ P1 -> performs_ P1 (try_pass_ s).
Proof.
  intros H Hcalm log. unfold try_pass. rewrite H, search_app.
  unfold calm in Hcalm.
  destruct (search_ P1) as [[[|d ds]|e1] calls]; [|done|].
  - cbn [search]. simpl. by rewrite app_nil_r.
  - by destruct (Hcalm e1).
Qed.

Lemma calm_nil : calm_ [].
Proof. intros e. done. Qed.

Lemma calm_probe x (P : list step) : calm_ P -> calm_ (Probe Image x :: P).
Proof.
  intros H e. specialize (H e). cbn [search].
  by destruct (search_ P) as [res calls].
Qed.

(** The masked entry point turns a decoder exception into the empty
    list, so an attempt through it lets no exception out. *)
Lemma calm_formats x m label (P : list step) :
  calm_ P -> calm_ (Try Image (TDF x m) label :: P).
Proof.
  intros H e. specialize (H e). cbn [search outcome]. unfold _try_decode_formats.
  destruct (_read_barcodes_with_opts x (Some m)) as [results|e'].
  - destruct (_to_detected results) as [|d ds]; [|done].
    by destruct (search_ P) as [res calls].
  - by destruct (search_ P) as [res calls].
Qed.

(** *** The tiers *)

Lemma formats_pass_performs base m label :
  performs_ [Try Image (TDF base m) label] (try_pass_ (attempt_ (TDF base m) label)).
Proof.
  apply performs_try_pass; [apply performs_attempt|apply calm_formats, calm_nil].
Qed.

Lemma vertical_rotations_performs base :
  performs_ [Try Image (TDF (rotate 90 base) upc_formats) (Some "upc-vertical-rotated-90");
             Try Image (TDF (rotate (-90) base) upc_formats)
               (Some "upc-vertical-rotated--90")]
    (vertical_rotations Image rotate _read_barcodes_with_opts _code128_focused base).
Proof.
  unfold vertical_rotations. cbn [for_each].
  replace ("upc-vertical-rotated-" ++ pretty 90) with "upc-vertical-rotated-90"
    by (vm_compute; reflexivity).
  replace ("upc-vertical-rotated-" ++ pretty (-90)) with "upc-vertical-rotated--90"
    by (vm_compute; reflexivity).
  apply (performs_seq [_] [_]); [apply formats_pass_performs|].
  rewrite <- (app_nil_r [_]).
  apply performs_seq; [apply formats_pass_performs|apply performs_skip].
Qed.

Lemma precheck_loop_performs base quick_scan :
  performs_
    (if existsb upright quick_scan
     then [Try Image (TDF (rotate 90 base) upc_formats) (Some "upc-vertical-rotated-90");
           Try Image (TDF (rotate (-90) base) upc_formats)
             (Some "upc-vertical-rotated--90")]
     else [])
    (precheck_loop Image rotate _read_barcodes_with_opts _code128_focused base quick_scan).
Proof.
  induction quick_scan as [|r rest IH]; simpl; [apply performs_skip|].
  unfold upright at 1.
  destruct (position r) as [pos|]; simpl; [|exact IH].
  destruct (is_vertical pos); simpl; [apply vertical_rotations_performs|exact IH].
Qed.

Lemma precheck_performs base :
  performs_ (precheck_schedule_ base)
    (precheck Image rotate _read_barcodes_with_opts _code128_focused base).
Proof.
  unfold precheck, precheck_schedule.
  destruct (_read_barcodes_with_opts base None) as [quick_scan|e].
  - apply performs_try_pass.
    + apply (performs_probed base). apply precheck_loop_performs.
    + apply calm_probe. destruct (existsb upright quick_scan); [|apply calm_nil].
      apply calm_formats, calm_formats, calm_nil.
  - intros log. unfold try_pass, logged. reflexivity.
Qed.

Lemma fast_path_performs base :
  performs_ (fast_path_schedule_ base)
    (aggressive_fast_path Image size rotate resize _read_barcodes_with_opts
       _code128_focused base).
Proof.
  unfold fast_path_schedule, aggressive_fast_path. destruct (size base) as [w h].
  apply performs_seq.
  - apply (performs_for_each [-4; 4; -8] (fun a => [Try Image (TD (rotate a base)) None])).
    intros a _. apply performs_attempt.
  - apply performs_if; [|apply performs_skip].
    apply performs_bind_image. intros x. apply performs_attempt.
Qed.

Lemma variants_performs base :
  performs_ (variants_schedule_ base)
    (for_each Image
       (variants Image rotate gray_autocontrast enhance_contrast sharpen base)
       (fun v => attempt_ (TD v) None)).
Proof.
  unfold variants_schedule.
  rewrite <- (flat_map_singleton (fun v => Try Image (TD v) None)).
  apply performs_for_each. intros v _. apply performs_attempt.
Qed.

Lemma upscale_performs aggressive base :
  performs_ (upscale_schedule_ aggressive base)
    (upscale_fallback Image size resize _read_barcodes_with_opts _code128_focused
       aggressive base).
Proof.
  unfold upscale_schedule, upscale_fallback. destruct (size base) as [w h].
  apply performs_if; [|apply performs_skip].
  apply performs_bind_image. intros x. apply performs_attempt.
Qed.

Lemma grid_performs img :
  performs_ (grid_schedule_ img)
    (grid_fallback Image size resize crop _read_barcodes_with_opts _code128_focused img).
Proof.
  unfold grid_schedule, grid_fallback. destruct (size img) as [W H].
  rewrite <- (flat_map_singleton (grid_step_ img)).
  apply performs_for_each. intros [[[l t] r] b] _. unfold grid_step.
  destruct (size (crop (l, t, r, b) img)) as [cw ch].
  destruct (Z.max cw ch <? 1600); [|apply performs_attempt].
  destruct (Z.max cw ch =? 0); [apply performs_raise|].
  apply performs_bind_image. intros x. apply performs_attempt.
Qed.

Lemma upc_only_performs base :
  performs_ (upc_only_schedule_ base)
    (upc_only_passes Image size resize enhance_contrast sharpen _read_barcodes_with_opts
       _code128_focused base).
Proof.
  unfold upc_only_schedule, upc_only_passes. destruct (size base) as [w h].
  destruct (Z.max w h <? 2200).
  - destruct (scaled_ 2.2%float w h base) as [x|e].
    + apply performs_try_pass; [|apply calm_formats, calm_formats, calm_formats, calm_nil].
      apply (performs_seq [_] [_; _]); [apply performs_attempt|].
      apply (performs_seq [_] [_]); [|apply performs_attempt].
      apply (performs_bind_image (Ok x)
               (fun y => Try Image (TDF y upc_formats) (Some "upc-upscaled"))).
      intros y. apply performs_attempt.
    + apply (performs_try_pass_cut [_]
               [Try Image (TDF (sharpen (sharpen (sharpen base))) upc_formats)
                  (Some "upc-triple-sharpened (difficult)")] e);
        [|apply calm_formats, calm_nil].
      apply (performs_seq [_] [_; _]); [apply performs_attempt|].
      apply (performs_seq [_] [_]); [|apply performs_attempt].
      apply (performs_bind_image (Raise e)
               (fun y => Try Image (TDF y upc_formats) (Some "upc-upscaled"))).
      intros y. apply performs_attempt.
  - apply performs_try_pass; [|apply calm_formats, calm_formats, calm_nil].
    apply (performs_seq [_] [_]); [apply performs_attempt|].
    apply (performs_seq [] [_]); [apply performs_skip|apply performs_attempt].
Qed.

Lemma difficult_performs base :
  performs_ (difficult_schedule_ base)
    (difficult_passes Image size resize enhance_contrast sharpen _read_barcodes_with_opts
       _code128_focused base).
Proof.
  unfold difficult_schedule, difficult_passes. destruct (size base) as [w h].
  apply (performs_seq [_]); [apply performs_attempt|].
  apply (performs_seq [_]); [apply performs_attempt|].
  apply performs_seq; (apply performs_if; [|apply performs_skip]);
    apply performs_bind_image; intros x; apply performs_attempt.
Qed.

Lemma final_performs base :
  performs_ (final_schedule_ base)
    (final_fallback Image size resize _read_barcodes_with_opts _code128_focused base).
Proof.
  unfold final_schedule, final_fallback. destruct (size base) as [w h].
  apply performs_bind_image. intros x. apply performs_attempt.
Qed.

(** The tiers of the cascade perform the search over the plan. *)
Lemma cascade_tiers_performs img base aggressive :
  performs_ (schedule_ img base aggressive)
    (cascade_tiers Image size rotate resize crop gray_autocontrast enhance_contrast
       sharpen _read_barcodes_with_opts _code128_focused img base aggressive).
Proof.
  unfold schedule, cascade_tiers.
  apply performs_seq; [apply precheck_performs|].
  apply performs_seq; [apply performs_when, fast_path_performs|].
  apply performs_seq; [apply variants_performs|].
  apply performs_seq; [apply upscale_performs|].
  apply performs_seq; [apply performs_when, grid_performs|].
  apply performs_seq; [apply formats_pass_performs|].
  apply performs_seq.
  - apply performs_when. apply performs_seq; [apply upc_only_performs|apply difficult_performs].
  - apply performs_when, final_performs.
Qed.

Local Abbreviation detect :=
  (detect_barcodes Image size rotate resize crop gray_autocontrast enhance_contrast
     sharpen _read_barcodes_with_opts _code128_focused).
Local Abbreviation base_of := (base_image Image size resize).

(** [detect_barcodes] is the search over the plan. *)
Lemma detect_is_search img (max_side : option Z) (aggressive : bool) base :
  base_of img max_side = Ok base ->
  detect img max_side aggressive = search_ (schedule_ img base aggressive).
Proof.
  intros Hbase. unfold detect_barcodes, cascade, seq, return_. rewrite Hbase.
  rewrite (cascade_tiers_performs img base aggressive []).
  by destruct (search_ (schedule_ img base aggressive)) as [[[|d ds]|e] calls].
Qed.

(** C1. For every decoder, image, [max_side] and effort flag,
    [detect_barcodes] is an early-stopping priority search over the plan
    of its tiers: it makes the calls of the plan in their order, up to
    and including the first attempt that yields detections (or raises),
    and all of them if there is none. So when the attempt of a tier
    yields a non-empty list of detections and every step before it was
    quiet, the calls made are exactly those of the steps before it and
    that attempt, no step after it is taken, and its result (under the
    tier's label) is what [detect_barcodes] returns. When the base image
    cannot be made, no call is made at all. *)
Theorem cascade_stops_at_first_success img (max_side : option Z) (aggressive : bool) :
  match base_of img max_side with
  | Raise e => detect img max_side aggressive = (Raise e, [])
  | Ok base =>
      detect img max_side aggressive = search_ (schedule_ img base aggressive)
      /\ forall pre a label post d ds,
           schedule_ img base aggressive = (pre ++ Try Image a label :: post)%list ->
           Forall quiet_ pre ->
           outcome_of a = Ok (d :: ds) ->
           detect img max_side aggressive
           = (Ok (tag label (d :: ds)), (calls_of_ pre ++ [tier a])%list)
  end.
Proof.
  destruct (base_of img max_side) as [base|e] eqn:Hbase.
  - split; [by apply detect_is_search|].
    intros pre a label post d ds Hplan Hquiet Hout.
    rewrite (detect_is_search img max_side aggressive base Hbase), Hplan, search_app.
    rewrite (search_quiet pre Hquiet). cbn [search]. by rewrite Hout.
  - unfold detect_barcodes. by rewrite Hbase.
Qed.

End CascadeFacts.

(** The sixth attempt succeeds: the seventh variant and all later tiers
    are never tried. *)
Example sixth_attempt_wins :
  detect_on_pics contrast_only_stub Source None false
  = (Ok [mkDetected "EAN-13" "4006381333931"
           [(40, 60); (441, 60); (441, 161); (40, 161)] None],
     [ QuickScan Pic Source;
       Tier Pic (TryDecode Pic Source);
       Tier Pic (TryDecode Pic (Rotated 90 Source));
       Tier Pic (TryDecode Pic (Rotated 180 Source));
       Tier Pic (TryDecode Pic (Rotated 270 Source));
       Tier Pic (TryDecode Pic (GrayAutocontrast Source));
       Tier Pic (TryDecode Pic (Contrast 1.6%float Source)) ]).
Proof. vm_compute. reflexivity. Qed.

(** The plan of that run: the attempt on the contrast-boosted image is
    its seventh step; the three steps after it are never taken. *)
Example sixth_attempt_in_the_plan :
  schedule_on_pics contrast_only_stub Source Source false
  = [ Probe Pic Source;
      Try Pic (TryDecode Pic Source) None;
      Try Pic (TryDecode Pic (Rotated 90 Source)) None;
      Try Pic (TryDecode Pic (Rotated 180 Source)) None;
      Try Pic (TryDecode Pic (Rotated 270 Source)) None;
      Try Pic (TryDecode Pic (GrayAutocontrast Source)) None;
      Try Pic (TryDecode Pic (Contrast 1.6%float Source)) None;
      Try Pic (TryDecode Pic (Sharpened Source)) None;
      Try Pic (TryDecode Pic (Resized (1440, 1080) Source)) None;
      Try Pic (TryDecodeFormats Pic Source linear_formats) None ].
Proof. vm_compute. reflexivity. Qed.

(** An upright symbol: the probe, the turn by 90 degrees that reads
    nothing, the turn by -90 degrees that reads the EAN-13; the result
    carries the label of that rotation. *)
Example upright_symbol_run :
  detect_on_pics upright_stub Source None true
  = (Ok [mkDetected "EAN-13" "4006381333931" [] (Some "upc-vertical-rotated--90")],
     [ QuickScan Pic Source;
       Tier Pic (TryDecodeFormats Pic (Rotated 90 Source) upc_formats);
       Tier Pic (TryDecodeFormats Pic (Rotated (-90) Source) upc_formats) ]).
Proof. vm_compute. reflexivity. Qed.

(** In aggressive effort a blind decoder is asked thirty times on the
    800x600 source: the probe, 4 fast-path attempts, 7 variants, the
    upscale, 9 grid cells, the 1D pass, 6 difficult passes and the final
    fallback. *)
Example blind_aggressive_run :
  fst (detect_on_pics blind_stub Source None true) = Ok []
  /\ length (snd (detect_on_pics blind_stub Source None true)) = 30%nat.
Proof. split; vm_compute; reflexivity. Qed.

(** In standard effort a blind decoder is asked ten times. *)
Example blind_standard_run :
  fst (detect_on_pics blind_stub Source None false) = Ok []
  /\ length (snd (detect_on_pics blind_stub Source None false)) = 10%nat.
Proof. split; vm_compute; reflexivity. Qed.

(** C8. A cascade in which every tier finds nothing can raise all the
    same. On a strip of 4801 by 2 pixels, in aggressive effort and with a
    decoder that reads nothing, the seventeen calls before the
    Code128-focused fallback are made and each yields the empty list; the
    downscale of the fallback then asks PIL for the size (2400, 0), and
    [detect_barcodes] raises ValueError where the claim has it return the
    empty list. The same happens before any tier when [max_side] = 500
    meets an image of 1000 by 1 pixels: the base image would have the
    size (500, 0). *)
Theorem exhausted_cascade_raises_on_a_strip :
  detect_on_pics blind_stub Strip None true
  = (Raise ValueError,
     [ QuickScan Pic Strip;
       Tier Pic (TryDecode Pic (Rotated (-4) Strip));
       Tier Pic (TryDecode Pic (Rotated 4 Strip));
       Tier Pic (TryDecode Pic (Rotated (-8) Strip));
       Tier Pic (TryDecode Pic Strip);
       Tier Pic (TryDecode Pic (Rotated 90 Strip));
       Tier Pic (TryDecode Pic (Rotated 180 Strip));
       Tier Pic (TryDecode Pic (Rotated 270 Strip));
       Tier Pic (TryDecode Pic (GrayAutocontrast Strip));
       Tier Pic (TryDecode Pic (Contrast 1.6%float Strip));
       Tier Pic (TryDecode Pic (Sharpened Strip));
       Tier Pic (TryDecodeFormats Pic Strip linear_formats);
       Tier Pic (TryDecodeFormats Pic (Contrast 1.8%float Strip) upc_formats);
       Tier Pic (TryDecodeFormats Pic (Sharpened (Sharpened (Sharpened Strip))) upc_formats);
       Tier Pic (TryDecode Pic (Sharpened (Sharpened Strip)));
       Tier Pic (TryDecode Pic (Sharpened (Sharpened (Contrast 2%float Strip))));
       Tier Pic (TryDecodeFormats Pic (Resized (7201, 3) Strip) [Code128]) ])
  /\ (forall a, outcome Pic blind_stub no_code128 a = Ok [])
  /\ last (schedule_on_pics blind_stub Strip Strip true) = Some (Fails Pic ValueError)
  /\ detect_on_pics blind_stub (Resized (1000, 1) Source) (Some 500) false
     = (Raise ValueError, []).
Proof.
  split; [vm_compute; reflexivity|]. split.
  - intros [p|p m|p [ox oy] s|p]; reflexivity.
  - split; vm_compute; reflexivity.
Qed.

(* ===================================================================== *)
(** * Further properties of the code *)
(* ===================================================================== *)

(** ** Facts about strings *)

Lemma str_app_cons c (a b : string) : String c a ++ b = String c (a ++ b).
Proof. reflexivity. Qed.

Lemma str_app_nil_l (b : string) : EmptyString ++ b = b.
Proof. reflexivity. Qed.

Lemma str_length_app (a b : string) :
  String.length (a ++ b) = (String.length a + String.length b)%nat.
Proof.
  induction a as [|c a IH]; [done|]. rewrite str_app_cons. simpl. by rewrite IH.
Qed.

Lemma str_app_nil_r (a : string) : a ++ EmptyString = a.
Proof. induction a as [|c a IH]; [done|]. rewrite str_app_cons. by rewrite IH. Qed.

Lemma str_app_assoc (a b c : string) : (a ++ b) ++ c = a ++ (b ++ c).
Proof. induction a as [|x a IH]; [done|]. rewrite !str_app_cons. by rewrite IH. Qed.

Lemma all_chars_app p (a b : string) :
  PyStr.all_chars p (a ++ b) = PyStr.all_chars p a && PyStr.all_chars p b.
Proof.
  induction a as [|c a IH]; [done|]. rewrite str_app_cons. simpl.
  rewrite IH. apply andb_assoc.
Qed.

Lemma all_chars_filter p (s : string) :
  PyStr.all_chars p (PyStr.filter_chars p s) = true.
Proof.
  induction s as [|c s IH]; simpl; [done|].
  destruct (p c) eqn:E; simpl; [by rewrite E|done].
Qed.

Lemma filter_chars_all p (s : string) :
  PyStr.all_chars p s = true -> PyStr.filter_chars p s = s.
Proof.
  induction s as [|c s IH]; simpl; [done|].
  intros H. apply andb_true_iff in H as [Hc Hs]. rewrite Hc. by rewrite IH.
Qed.

Lemma take_length n (s : string) :
  String.length (PyStr.take n s) = Nat.min n (String.length s).
Proof.
  revert s. induction n as [|n IH]; intros [|c s]; simpl; try done. by rewrite IH.
Qed.

Lemma drop_length n (s : string) :
  String.length (PyStr.drop n s) = (String.length s - n)%nat.
Proof.
  revert s. induction n as [|n IH]; intros [|c s]; simpl; try done. 
Qed.

Lemma take_drop n (s : string) : PyStr.take n s ++ PyStr.drop n s = s.
Proof.
  revert s. induction n as [|n IH]; intros [|c s]; simpl; try done.
  rewrite str_app_cons. by rewrite IH.
Qed.

Lemma take_all n (s : string) : (String.length s <= n)%nat -> PyStr.take n s = s.
Proof.
  revert s. induction n as [|n IH]; intros [|c s]; simpl; try done; try lia.
  intros H. rewrite IH; [done|lia].
Qed.

Lemma take_app_exact (a b : string) : PyStr.take (String.length a) (a ++ b) = a.
Proof.
  induction a as [|c a IH]; [by destruct b|]. rewrite str_app_cons. simpl. by rewrite IH.
Qed.

Lemma drop_app_exact (a b : string) : PyStr.drop (String.length a) (a ++ b) = b.
Proof. induction a as [|c a IH]; [by destruct b|]. rewrite str_app_cons. by simpl. Qed.

Lemma all_chars_take p n (s : string) :
  PyStr.all_chars p s = true -> PyStr.all_chars p (PyStr.take n s) = true.
Proof.
  revert s. induction n as [|n IH]; intros [|c s]; simpl; try done.
  intros H. apply andb_true_iff in H as [-> Hs]. simpl. by apply IH.
Qed.

Lemma all_chars_drop p n (s : string) :
  PyStr.all_chars p s = true -> PyStr.all_chars p (PyStr.drop n s) = true.
Proof.
  revert s. induction n as [|n IH]; intros [|c s]; simpl; try done.
  intros H. apply andb_true_iff in H as [_ Hs]. by apply IH.
Qed.

Lemma all_chars_slice p lo hi (s : string) :
  PyStr.all_chars p s = true -> PyStr.all_chars p (PyStr.slice lo hi s) = true.
Proof. intros H. unfold PyStr.slice. by apply all_chars_take, all_chars_drop. Qed.

Lemma repeat_char_length c n : String.length (PyStr.repeat_char c n) = n.
Proof. induction n as [|n IH]; simpl; [done|by rewrite IH]. Qed.

Lemma all_chars_repeat p c n :
  p c = true -> PyStr.all_chars p (PyStr.repeat_char c n) = true.
Proof. intros H. induction n as [|n IH]; simpl; [done|by rewrite H]. Qed.

(** Slices with both bounds inside the string. *)
Lemma slice_inside (a b : nat) (s : string) :
  (a <= b <= String.length s)%nat ->
  PyStr.slice (Some (Z.of_nat a)) (Some (Z.of_nat b)) s
  = PyStr.take (b - a) (PyStr.drop a s).
Proof.
  intros H. unfold PyStr.slice, PyStr.clamp, PyStr.len.
  destruct (Z.ltb_spec (Z.of_nat a) 0); [lia|].
  destruct (Z.ltb_spec (Z.of_nat b) 0); [lia|].
  replace (Z.to_nat (Z.max 0 (Z.min (Z.of_nat (String.length s)) (Z.of_nat a)))) with a by lia.
  replace (Z.to_nat (Z.max 0 (Z.min (Z.of_nat (String.length s)) (Z.of_nat b)))) with b by lia.
  done.
Qed.

Lemma slice_prefix (b : nat) (s : string) :
  PyStr.slice None (Some (Z.of_nat b)) s = PyStr.take b s.
Proof.
  unfold PyStr.slice, PyStr.clamp, PyStr.len.
  destruct (Z.ltb_spec (Z.of_nat b) 0); [lia|]. simpl PyStr.drop.
  rewrite Nat.sub_0_r.
  destruct (Nat.le_gt_cases b (String.length s)).
  - f_equal. lia.
  - rewrite !take_all; [done|lia|lia].
Qed.

Lemma drop_all n (s : string) : (String.length s <= n)%nat -> PyStr.drop n s = EmptyString.
Proof.
  revert s. induction n as [|n IH]; intros [|c s]; simpl; try done; try lia.
  intros. apply IH. lia.
Qed.

Lemma slice_suffix (a : nat) (s : string) :
  PyStr.slice (Some (Z.of_nat a)) None s = PyStr.drop a s.
Proof.
  unfold PyStr.slice, PyStr.clamp, PyStr.len.
  destruct (Z.ltb_spec (Z.of_nat a) 0); [lia|].
  rewrite Nat2Z.id.
  destruct (Nat.le_gt_cases a (String.length s)).
  - replace (Z.to_nat (Z.max 0 (Z.min (Z.of_nat (String.length s)) (Z.of_nat a)))) with a by lia.
    apply take_all. rewrite drop_length. lia.
  - replace (Z.to_nat (Z.max 0 (Z.min (Z.of_nat (String.length s)) (Z.of_nat a))))
      with (String.length s) by lia.
    rewrite (drop_all a s) by lia. rewrite (drop_all (String.length s) s) by lia.
    by destruct (_ - _)%nat.
Qed.

(** [s[:-1]] and [s[-1:]] of a non-empty string. *)
Lemma slice_init (s : string) :
  PyStr.slice None (Some (-1)) s = PyStr.take (String.length s - 1) s.
Proof.
  unfold PyStr.slice, PyStr.clamp, PyStr.len. simpl PyStr.drop. rewrite Nat.sub_0_r.
  change (-1 <? 0) with true. cbv iota. f_equal. lia.
Qed.

Lemma slice_last (s : string) :
  PyStr.slice (Some (-1)) None s = PyStr.drop (String.length s - 1) s.
Proof.
  unfold PyStr.slice, PyStr.clamp, PyStr.len.
  change (-1 <? 0) with true. cbv iota.
  replace (Z.to_nat (Z.max 0 (Z.min (Z.of_nat (String.length s)) (-1 + Z.of_nat (String.length s)))))
    with (String.length s - 1)%nat by lia.
  apply take_all. rewrite drop_length, Nat2Z.id. lia.
Qed.

(** ** Padding to 13 digits *)

Lemma digits_only_digits s : PyStr.all_chars PyStr.isdigit_char (_digits_only s) = true.
Proof. apply all_chars_filter. Qed.

Lemma digits_only_idem s : _digits_only (_digits_only s) = _digits_only s.
Proof. apply filter_chars_all, digits_only_digits. Qed.

Lemma digits_only_of_digits s :
  PyStr.all_chars PyStr.isdigit_char s = true -> _digits_only s = s.
Proof. apply filter_chars_all. Qed.

Lemma nonempty_length (s : string) :
  PyStr.nonempty s = true <-> (0 < String.length s)%nat.
Proof. destruct s; simpl; split; intros; try done; lia. Qed.

Lemma nonempty_false (s : string) : PyStr.nonempty s = false <-> s = EmptyString.
Proof. destruct s; simpl; split; intros; done. Qed.

Lemma left_pad_of_digits d :
  PyStr.all_chars PyStr.isdigit_char d = true -> digits_of_length 13 (_left_pad_to_13 d).
Proof.
  intros Hd. unfold _left_pad_to_13. rewrite (digits_only_of_digits d Hd).
  unfold PyStr.len. destruct (Z.leb_spec 13 (Z.of_nat (String.length d))) as [H|H].
  - change (Some 13) with (Some (Z.of_nat 13)). rewrite slice_prefix. split.
    + rewrite take_length. lia.
    + by apply all_chars_take.
  - split.
    + rewrite str_length_app, repeat_char_length. lia.
    + rewrite all_chars_app, all_chars_repeat, Hd; done.
Qed.

Lemma left_pad_digits s : digits_of_length 13 (_left_pad_to_13 s).
Proof.
  assert (H : _left_pad_to_13 s = _left_pad_to_13 (_digits_only s)).
  { unfold _left_pad_to_13. by rewrite digits_only_idem. }
  rewrite H. apply left_pad_of_digits, digits_only_digits.
Qed.

Lemma remove_check_digit_and_pad_cases s :
  (_digits_only s = EmptyString /\ _remove_check_digit_and_pad s = EmptyString)
  \/ (_digits_only s <> EmptyString /\ digits_of_length 13 (_remove_check_digit_and_pad s)).
Proof.
  unfold _remove_check_digit_and_pad.
  destruct (_digits_only s) as [|c d] eqn:E; [by left|right].
  split; [done|]. simpl negb. cbv iota. apply left_pad_digits.
Qed.

Lemma int_of_digits_fold (l : list ascii) acc :
  fold_left (fun acc c => 10 * acc + PyStr.digit_val c) l acc
  = acc * 10 ^ Z.of_nat (length l)
    + fold_left (fun acc c => 10 * acc + PyStr.digit_val c) l 0.
Proof.
  revert acc. induction l as [|c l IH]; intros acc; simpl fold_left.
  - simpl. lia.
  - rewrite (IH (10 * acc + _)), (IH (10 * 0 + _)).
    replace (Z.of_nat (length (c :: l))) with (Z.succ (Z.of_nat (length l)))
      by (simpl length; lia).
    rewrite Z.pow_succ_r by lia. lia.
Qed.

Lemma list_ascii_app (a b : string) :
  list_ascii_of_string (a ++ b) = (list_ascii_of_string a ++ list_ascii_of_string b)%list.
Proof. induction a as [|c a IH]; [done|]. rewrite str_app_cons. simpl. by rewrite IH. Qed.

Lemma list_ascii_length (a : string) : length (list_ascii_of_string a) = String.length a.
Proof. induction a as [|c a IH]; simpl; [done|by rewrite IH]. Qed.

(** [int(a + b) = int(a) * 10**len(b) + int(b)]. *)
Lemma int_of_digits_app (a b : string) :
  PyStr.int_of_digits (a ++ b)
  = PyStr.int_of_digits a * 10 ^ PyStr.len b + PyStr.int_of_digits b.
Proof.
  unfold PyStr.int_of_digits, PyStr.len. rewrite list_ascii_app, fold_left_app.
  rewrite int_of_digits_fold. by rewrite list_ascii_length.
Qed.

Lemma int_of_digits_zeros n : PyStr.int_of_digits (PyStr.repeat_char "0" n) = 0.
Proof.
  induction n as [|n IH]; [done|].
  change (PyStr.repeat_char "0" (S n)) with ("0" ++ PyStr.repeat_char "0" n).
  rewrite int_of_digits_app, IH. reflexivity.
Qed.

Lemma int_of_digits_fold_bounds (s : string) acc :
  PyStr.all_chars PyStr.isdigit_char s = true -> 0 <= acc ->
  acc * 10 ^ PyStr.len s
  <= fold_left (fun acc c => 10 * acc + PyStr.digit_val c) (list_ascii_of_string s) acc
  < (acc + 1) * 10 ^ PyStr.len s.
Proof.
  revert acc. induction s as [|c s IH]; intros acc Hd Hacc.
  - unfold PyStr.len. simpl. lia.
  - simpl in Hd. apply andb_true_iff in Hd as [Hc Hs].
    pose proof (digit_val_bounds c Hc) as Hb.
    simpl fold_left. specialize (IH (10 * acc + PyStr.digit_val c) Hs ltac:(lia)).
    unfold PyStr.len in *. simpl String.length. rewrite Nat2Z.inj_succ.
    rewrite Z.pow_succ_r by lia.
    assert (0 < 10 ^ Z.of_nat (String.length s)) by (apply Z.pow_pos_nonneg; lia).
    nia.
Qed.

Lemma int_of_digits_bounds (s : string) :
  PyStr.all_chars PyStr.isdigit_char s = true ->
  0 <= PyStr.int_of_digits s < 10 ^ PyStr.len s.
Proof.
  intros Hd. pose proof (int_of_digits_fold_bounds s 0 Hd ltac:(lia)) as H.
  unfold PyStr.int_of_digits. lia.
Qed.

(** X1. The three padding helpers of the normalizer always produce
    thirteen digits: [_left_pad_to_13] and [_to_padded_raw_barcode] on
    every text (a text without digits gives thirteen zeros), and
    [_remove_check_digit_and_pad] on every text with a digit (on a text
    without digits it gives the empty string). Padding keeps the number:
    the result denotes the same integer as the first 13 digits of the
    text. *)
Theorem padding_helpers_give_13_digits (s : string) :
  digits_of_length 13 (_left_pad_to_13 s)
  /\ digits_of_length 13 (_to_padded_raw_barcode s)
  /\ _to_padded_raw_barcode s = _left_pad_to_13 s
  /\ PyStr.int_of_digits (_left_pad_to_13 s)
     = PyStr.int_of_digits (PyStr.take 13 (_digits_only s))
  /\ ((_digits_only s = EmptyString /\ _remove_check_digit_and_pad s = EmptyString)
      \/ (_digits_only s <> EmptyString
          /\ digits_of_length 13 (_remove_check_digit_and_pad s))).
Proof.
  assert (Hraw : _to_padded_raw_barcode s = _left_pad_to_13 s).
  { unfold _to_padded_raw_barcode, _left_pad_to_13. by rewrite digits_only_idem. }
  split; [apply left_pad_digits|].
  split; [rewrite Hraw; apply left_pad_digits|].
  split; [exact Hraw|].
  split; [|apply remove_check_digit_and_pad_cases].
  unfold _left_pad_to_13, PyStr.len.
  destruct (Z.leb_spec 13 (Z.of_nat (String.length (_digits_only s)))) as [H|H].
  - change (Some 13) with (Some (Z.of_nat 13)). by rewrite slice_prefix.
  - rewrite int_of_digits_app, int_of_digits_zeros, take_all by lia. lia.
Qed.

(** ** Check digits *)

Lemma weighted_sum_app i (a b : string) :
  weighted_sum i (a ++ b) = weighted_sum i a + weighted_sum (i + String.length a) b.
Proof.
  revert i. induction a as [|c a IH]; intros i.
  - rewrite str_app_nil_l. simpl. by rewrite Nat.add_0_r.
  - rewrite str_app_cons. simpl. rewrite IH.
    replace (S i + String.length a)%nat with (i + S (String.length a))%nat by lia. lia.
Qed.

(** A non-empty string is its body followed by its last character. *)
Lemma str_snoc_inv (s : string) :
  s <> EmptyString ->
  exists core ch, s = core ++ String ch EmptyString
    /\ String.length core = (String.length s - 1)%nat.
Proof.
  intros Hne.
  assert (Hlen : (0 < String.length s)%nat) by (destruct s; [done|simpl; lia]).
  pose proof (take_drop (String.length s - 1) s) as Hsplit.
  pose proof (drop_length (String.length s - 1) s) as Hd.
  destruct (PyStr.drop (String.length s - 1) s) as [|ch [|x r]] eqn:E; simpl in Hd; try lia.
  exists (PyStr.take (String.length s - 1) s), ch. split; [done|].
  rewrite take_length. lia.
Qed.

Lemma is_valid_check_digit_snoc (core : string) ch :
  core <> EmptyString ->
  _is_valid_check_digit (core ++ String ch EmptyString)
  = match _calculate_check_digit core with
    | Some check => String.eqb (PyStr.digit_str check) (String ch EmptyString)
    | None => false
    end.
Proof.
  intros Hne. unfold _is_valid_check_digit.
  assert (Hlen : (0 < String.length core)%nat) by (destruct core; [done|simpl; lia]).
  unfold PyStr.len. rewrite str_length_app. simpl String.length.
  destruct (Z.ltb_spec (Z.of_nat (String.length core + 1)) 2) as [H|H]; [lia|].
  rewrite slice_init, slice_last, str_length_app. simpl String.length.
  replace (String.length core + 1 - 1)%nat with (String.length core) by lia.
  by rewrite take_app_exact, drop_app_exact.
Qed.

Lemma digit_str_of_digit ch :
  PyStr.isdigit_char ch = true -> PyStr.digit_str (PyStr.digit_val ch) = String ch EmptyString.
Proof.
  intros H. unfold PyStr.digit_str, PyStr.digit_val.
  unfold PyStr.isdigit_char in H. apply andb_true_iff in H as [H1 H2].
  apply Nat.leb_le in H1, H2.
  replace (Z.to_nat (Z.of_nat (nat_of_ascii ch) - 48 + 48)) with (nat_of_ascii ch) by lia.
  by rewrite ascii_nat_embedding.
Qed.

Lemma digit_str_digit (c : Z) :
  0 <= c <= 9 ->
  exists ch, PyStr.digit_str c = String ch EmptyString
    /\ PyStr.isdigit_char ch = true /\ PyStr.digit_val ch = c.
Proof.
  intros Hc. exists (ascii_of_nat (Z.to_nat (c + 48))). split; [done|].
  unfold PyStr.isdigit_char, PyStr.digit_val.
  rewrite nat_ascii_embedding by lia.
  split; [|lia]. apply andb_true_iff. split; apply Nat.leb_le; lia.
Qed.

(** Comparing [str(check)] with a character. *)
Lemma digit_str_eqb (c : Z) ch :
  0 <= c <= 9 ->
  String.eqb (PyStr.digit_str c) (String ch EmptyString)
  = PyStr.isdigit_char ch && (c =? PyStr.digit_val ch).
Proof.
  intros Hc. destruct (digit_str_digit c Hc) as (x & Hx & Hdx & Hvx).
  rewrite Hx.
  destruct (String.eqb_spec (String x EmptyString) (String ch EmptyString)) as [E|E].
  - injection E as <-. rewrite Hdx, Hvx, Z.eqb_refl. done.
  - destruct (PyStr.isdigit_char ch) eqn:Hch; [|done]. simpl.
    symmetry. apply Z.eqb_neq. intros Heq. apply E.
    rewrite <- Hx, Heq. by apply digit_str_of_digit.
Qed.

Lemma calculate_check_digit_some (core : string) :
  PyStr.isdigit core = true ->
  _calculate_check_digit core = Some ((10 - weighted_sum 0 core mod 10) mod 10).
Proof.
  intros H. unfold _calculate_check_digit. rewrite H.
  unfold PyStr.isdigit in H. apply andb_true_iff in H as [-> _]. done.
Qed.

Lemma calculate_check_digit_none (core : string) :
  PyStr.isdigit core = false -> _calculate_check_digit core = None.
Proof.
  intros H. unfold _calculate_check_digit. rewrite H. simpl. by rewrite orb_true_r.
Qed.

(** X2. The check digit round trip. For every non-empty digit string
    [core], [_calculate_check_digit] returns a digit value [c] between 0
    and 9, and [_is_valid_check_digit] accepts [core] followed by one more
    character exactly when that character is the decimal digit [c]: the
    computed check digit validates, and no other final character does. *)
Theorem check_digit_round_trip (core : string) :
  PyStr.isdigit core = true ->
  exists c,
    _calculate_check_digit core = Some c
    /\ 0 <= c <= 9
    /\ _is_valid_check_digit (core ++ PyStr.digit_str c) = true
    /\ forall ch, _is_valid_check_digit (core ++ String ch EmptyString) = true
                  <-> String ch EmptyString = PyStr.digit_str c.
Proof.
  intros Hd. exists ((10 - weighted_sum 0 core mod 10) mod 10).
  assert (Hc : 0 <= (10 - weighted_sum 0 core mod 10) mod 10 <= 9)
    by (pose proof (Z.mod_pos_bound (10 - weighted_sum 0 core mod 10) 10); lia).
  assert (Hne : core <> EmptyString).
  { intros ->. discriminate. }
  assert (Hall : forall ch, _is_valid_check_digit (core ++ String ch EmptyString) = true
                  <-> String ch EmptyString
                      = PyStr.digit_str ((10 - weighted_sum 0 core mod 10) mod 10)).
  { intros ch. rewrite (is_valid_check_digit_snoc core ch Hne).
    rewrite (calculate_check_digit_some core Hd).
    rewrite String.eqb_eq. split; intros H; by symmetry. }
  split; [by apply calculate_check_digit_some|]. split; [exact Hc|]. split; [|exact Hall].
  destruct (digit_str_digit _ Hc) as (x & Hx & _). rewrite Hx. apply Hall. by symmetry.
Qed.

Lemma check_digit_round_trip_witness :
  PyStr.isdigit "03600029145" = true
  /\ exists c,
       _calculate_check_digit "03600029145" = Some c
       /\ 0 <= c <= 9
       /\ _is_valid_check_digit ("03600029145" ++ PyStr.digit_str c) = true
       /\ forall ch, _is_valid_check_digit ("03600029145" ++ String ch EmptyString) = true
                     <-> String ch EmptyString = PyStr.digit_str c.
Proof.
  split; [reflexivity|]. apply (check_digit_round_trip "03600029145"). reflexivity.
Defined.

(** What [_is_valid_check_digit] computes on any string: at least two
    characters, all of them digits, and the sum of the digits weighted 3, 1,
    3, ... from the left over the body, plus the last digit, is a multiple
    of 10. *)
Lemma is_valid_check_digit_spec (core : string) ch :
  core <> EmptyString ->
  _is_valid_check_digit (core ++ String ch EmptyString)
  = PyStr.isdigit (core ++ String ch EmptyString)
    && ((weighted_sum 0 core + PyStr.digit_val ch) mod 10 =? 0).
Proof.
  intros Hne. rewrite (is_valid_check_digit_snoc core ch Hne).
  assert (Hdig : PyStr.isdigit (core ++ String ch EmptyString)
                 = PyStr.isdigit core && PyStr.isdigit_char ch).
  { unfold PyStr.isdigit. rewrite all_chars_app. simpl.
    destruct core; [done|]. rewrite str_app_cons. simpl. by rewrite andb_true_r. }
  rewrite Hdig.
  destruct (PyStr.isdigit core) eqn:Hd.
  - rewrite (calculate_check_digit_some core Hd).
    rewrite digit_str_eqb
      by (pose proof (Z.mod_pos_bound (10 - weighted_sum 0 core mod 10) 10); lia).
    simpl. destruct (PyStr.isdigit_char ch) eqn:Hch; [|done]. simpl.
    apply mod10_check_digit. by apply digit_val_bounds.
  - by rewrite (calculate_check_digit_none core Hd).
Qed.

Lemma is_valid_check_digit_even (s : string) :
  Nat.even (String.length s) = true ->
  _is_valid_check_digit s = PyStr.isdigit s && gtin_check_ok s.
Proof.
  intros Hev. destruct (String.eqb_spec s EmptyString) as [->|Hne]; [done|].
  destruct (str_snoc_inv s Hne) as (core & ch & -> & Hlen).
  rewrite str_length_app in *. simpl String.length in *.
  assert (Hcore : core <> EmptyString).
  { intros ->. simpl in Hev. discriminate. }
  rewrite (is_valid_check_digit_spec core ch Hcore). f_equal.
  unfold gtin_check_ok. rewrite str_length_app. simpl String.length. rewrite Hev.
  rewrite weighted_sum_app. simpl weighted_sum.
  assert (Hodd : Nat.even (String.length core) = false).
  { replace (String.length core + 1)%nat with (S (String.length core)) in Hev by lia.
    rewrite Nat.even_succ in Hev. rewrite <- Nat.negb_odd. by rewrite Hev. }
  simpl Nat.add. rewrite Hodd. do 2 f_equal. lia.
Qed.

(** X3. On a text with an even number of characters (UPC-A, EAN-8,
    GTIN-14) [_is_valid_check_digit] is the GTIN check: the text consists
    of digits and its digit sum with weights 1 on the last digit and 3, 1
    alternating leftwards is 0 mod 10. In particular it agrees with
    [processor._checksum_upca] on every text of 12 characters and with
    [processor._checksum_ean8] on every text of 8 characters. *)
Theorem is_valid_check_digit_is_gtin_check_on_even_lengths (s : string) :
  Nat.even (String.length s) = true ->
  _is_valid_check_digit s = PyStr.isdigit s && gtin_check_ok s
  /\ (String.length s = 12%nat -> _is_valid_check_digit s = _checksum_upca s)
  /\ (String.length s = 8%nat -> _is_valid_check_digit s = _checksum_ean8 s).
Proof.
  intros Hev. pose proof (is_valid_check_digit_even s Hev) as H.
  split; [exact H|]. split; intros Hlen.
  - rewrite checksum_upca_is_gtin_check, H. unfold PyStr.len. rewrite Hlen. done.
  - rewrite checksum_ean8_is_gtin_check, H. unfold PyStr.len. rewrite Hlen. done.
Qed.

Lemma is_valid_check_digit_is_gtin_check_on_even_lengths_witness :
  Nat.even (String.length "036000291452") = true
  /\ (_is_valid_check_digit "036000291452"
      = PyStr.isdigit "036000291452" && gtin_check_ok "036000291452"
      /\ (String.length "036000291452" = 12%nat
          -> _is_valid_check_digit "036000291452" = _checksum_upca "036000291452")
      /\ (String.length "036000291452" = 8%nat
          -> _is_valid_check_digit "036000291452" = _checksum_ean8 "036000291452")).
Proof.
  split; [reflexivity|].
  apply (is_valid_check_digit_is_gtin_check_on_even_lengths "036000291452"). reflexivity.
Defined.

(** ** UPC-E expansion *)

Lemma expand_upce_8 upce c0 c1 c2 c3 c4 c5 c6 c7 :
  _digits_only upce
  = String c0 (String c1 (String c2 (String c3 (String c4 (String c5 (String c6
      (String c7 EmptyString))))))) ->
  _expand_upce_to_upca upce = upce_rules c0 c1 c2 c3 c4 c5 c6 c7.
Proof. intros H. unfold _expand_upce_to_upca. rewrite H. vm_compute. reflexivity. Qed.

Lemma expand_upce_7 upce c0 c1 c2 c3 c4 c5 c6 :
  _digits_only upce
  = String c0 (String c1 (String c2 (String c3 (String c4 (String c5 (String c6
      EmptyString)))))) ->
  _expand_upce_to_upca upce = upce_rules c0 c1 c2 c3 c4 c5 c6 "0".
Proof. intros H. unfold _expand_upce_to_upca. rewrite H. vm_compute. reflexivity. Qed.

Lemma expand_upce_6 upce c1 c2 c3 c4 c5 c6 :
  _digits_only upce
  = String c1 (String c2 (String c3 (String c4 (String c5 (String c6 EmptyString))))) ->
  _expand_upce_to_upca upce = upce_rules "0" c1 c2 c3 c4 c5 c6 "0".
Proof. intros H. unfold _expand_upce_to_upca. rewrite H. vm_compute. reflexivity. Qed.

Lemma upce_rules_shape c0 c1 c2 c3 c4 c5 c6 c7 :
  PyStr.all_chars PyStr.isdigit_char
    (String c0 (String c1 (String c2 (String c3 (String c4 (String c5 (String c6
      (String c7 EmptyString)))))))) = true ->
  match upce_rules c0 c1 c2 c3 c4 c5 c6 c7 with
  | Some u =>
      digits_of_length 12 u
      /\ PyStr.take 1 u = String c0 EmptyString
      /\ PyStr.mem (String c0 EmptyString) ["0"; "1"] = true
      /\ PyStr.drop 11 u = String c7 EmptyString
  | None => PyStr.mem (String c0 EmptyString) ["0"; "1"] = false
  end.
Proof.
  intros Hd. split_digits Hd. unfold upce_rules.
  destruct (PyStr.mem (String c0 EmptyString) ["0"; "1"]) eqn:E0; [|done].
  cbn [negb].
  repeat case_match; (split; [split; [reflexivity|digits_from_hyps all_chars_app]|done]).
Qed.

Lemma expand_upce_to_upca_shape_aux (upce : string) :
  let d := _digits_only upce in
  match _expand_upce_to_upca upce with
  | Some u =>
      digits_of_length 12 u
      /\ 6 <= PyStr.len d <= 8
      /\ PyStr.mem (PyStr.take 1 u) ["0"; "1"] = true
      /\ PyStr.take 1 u = (if PyStr.len d =? 6 then "0" else PyStr.take 1 d)
      /\ PyStr.drop 11 u = (if PyStr.len d =? 8 then PyStr.drop 7 d else "0")
      /\ match list_ascii_of_string d with
         | [c0; c1; c2; c3; c4; c5; c6; c7] => Some u = upce_rules c0 c1 c2 c3 c4 c5 c6 c7
         | _ => True
         end
  | None =>
      ~ (6 <= PyStr.len d <= 8)
      \/ (PyStr.len d <> 6 /\ PyStr.mem (PyStr.take 1 d) ["0"; "1"] = false)
  end.
Proof.
  intros d. pose proof (digits_only_digits upce) as Hd. fold d in Hd.
  assert (Hshort : (String.length d < 6)%nat -> _expand_upce_to_upca upce = None).
  { intros Hlen. unfold _expand_upce_to_upca. fold d. unfold PyStr.len.
    destruct (Z.eqb_spec (Z.of_nat (String.length d)) 6); [lia|].
    destruct (Z.eqb_spec (Z.of_nat (String.length d)) 7); [lia|].
    destruct (Z.eqb_spec (Z.of_nat (String.length d)) 8); [lia|]. done. }
  assert (Hlong : (8 < String.length d)%nat -> _expand_upce_to_upca upce = None).
  { intros Hlen. unfold _expand_upce_to_upca. fold d. unfold PyStr.len.
    destruct (Z.eqb_spec (Z.of_nat (String.length d)) 6); [lia|].
    destruct (Z.eqb_spec (Z.of_nat (String.length d)) 7); [lia|].
    destruct (Z.eqb_spec (Z.of_nat (String.length d)) 8); [lia|]. done. }
  destruct d as [|c0 [|c1 [|c2 [|c3 [|c4 [|c5 [|c6 [|c7 [|c8 r]]]]]]]]] eqn:E;
    try (rewrite Hshort by (simpl; lia); left; unfold PyStr.len; simpl String.length; lia).
  - (* six digits *)
    rewrite (expand_upce_6 upce _ _ _ _ _ _ E).
    assert (Hd8 : PyStr.all_chars PyStr.isdigit_char
              (String "0" (String c0 (String c1 (String c2 (String c3 (String c4
                 (String c5 "0"))))))) = true).
    { split_digits Hd. digits_from_hyps all_chars_app. }
    pose proof (upce_rules_shape _ _ _ _ _ _ _ _ Hd8) as Hs.
    destruct (upce_rules "0" c0 c1 c2 c3 c4 c5 "0") as [u|]; [|discriminate Hs].
    destruct Hs as (H12 & Htake & Hmem & Hdrop).
    rewrite Htake, Hdrop. repeat split; try done; apply H12.
  - (* seven digits *)
    rewrite (expand_upce_7 upce _ _ _ _ _ _ _ E).
    assert (Hd8 : PyStr.all_chars PyStr.isdigit_char
              (String c0 (String c1 (String c2 (String c3 (String c4 (String c5
                 (String c6 "0"))))))) = true).
    { split_digits Hd. digits_from_hyps all_chars_app. }
    pose proof (upce_rules_shape _ _ _ _ _ _ _ _ Hd8) as Hs.
    destruct (upce_rules c0 c1 c2 c3 c4 c5 c6 "0") as [u|].
    + destruct Hs as (H12 & Htake & Hmem & Hdrop).
      rewrite Htake, Hdrop. repeat split; try done; apply H12.
    + right. split; [done|exact Hs].
  - (* eight digits *)
    rewrite (expand_upce_8 upce _ _ _ _ _ _ _ _ E).
    pose proof (upce_rules_shape _ _ _ _ _ _ _ _ Hd) as Hs.
    destruct (upce_rules c0 c1 c2 c3 c4 c5 c6 c7) as [u|] eqn:Eu.
    + destruct Hs as (H12 & Htake & Hmem & Hdrop).
      rewrite Htake, Hdrop. repeat split; try done; apply H12.
    + right. split; [done|exact Hs].
  - (* more than eight digits *)
    rewrite Hlong by (simpl; lia). left. unfold PyStr.len. simpl String.length. lia.
Qed.

(** X4. [_expand_upce_to_upca] succeeds exactly when the text has 6, 7
    or 8 digits and, for 7 or 8 digits, begins with the number system 0 or
    1 (six digits get the number system 0). Every expansion is a string of
    12 digits that begins with the number system; its last digit is the
    eighth digit of the input, and "0" when the input has only 6 or 7
    digits: the expansion computes no check digit. On eight digits the
    result is the one of the four expansion rules selected by the seventh
    digit. *)
Theorem expand_upce_to_upca_shape (upce : string) :
  let d := _digits_only upce in
  match _expand_upce_to_upca upce with
  | Some u =>
      digits_of_length 12 u
      /\ 6 <= PyStr.len d <= 8
      /\ PyStr.mem (PyStr.take 1 u) ["0"; "1"] = true
      /\ PyStr.take 1 u = (if PyStr.len d =? 6 then "0" else PyStr.take 1 d)
      /\ PyStr.drop 11 u = (if PyStr.len d =? 8 then PyStr.drop 7 d else "0")
      /\ match list_ascii_of_string d with
         | [c0; c1; c2; c3; c4; c5; c6; c7] => Some u = upce_rules c0 c1 c2 c3 c4 c5 c6 c7
         | _ => True
         end
  | None =>
      ~ (6 <= PyStr.len d <= 8)
      \/ (PyStr.len d <> 6 /\ PyStr.mem (PyStr.take 1 d) ["0"; "1"] = false)
  end.
Proof. apply expand_upce_to_upca_shape_aux. Qed.

(** ** The candidates are digit strings *)

Lemma candidates_ok_snoc raw cs v :
  candidates_ok raw cs -> lookup_key v -> candidates_ok raw (cs ++ [v])%list.
Proof.
  intros (rest & -> & Hr) Hv. exists (rest ++ [v])%list. split; [done|].
  apply Forall_app. split; [done|]. by constructor.
Qed.

Lemma candidates_ok_append_if_new raw cs v :
  candidates_ok raw cs -> v = EmptyString \/ lookup_key v ->
  candidates_ok raw (append_if_new v cs).
Proof.
  intros Hok Hv. unfold append_if_new.
  destruct (PyStr.nonempty v) eqn:Hne; [|done]. simpl.
  destruct (PyStr.mem v cs); [done|]. simpl.
  destruct Hv as [->|Hv]; [discriminate|]. by apply candidates_ok_snoc.
Qed.

Lemma candidates_ok_append_if_absent raw cs v :
  candidates_ok raw cs -> v = raw \/ lookup_key v ->
  candidates_ok raw (append_if_absent v cs).
Proof.
  intros Hok Hv. unfold append_if_absent.
  destruct (PyStr.mem v cs) eqn:Hmem; [done|]. simpl.
  destruct Hv as [->|Hv]; [|by apply candidates_ok_snoc].
  destruct Hok as (rest & -> & _). simpl in Hmem. by rewrite String.eqb_refl in Hmem.
Qed.

Lemma remove_check_digit_and_pad_key s :
  _remove_check_digit_and_pad s = EmptyString \/ lookup_key (_remove_check_digit_and_pad s).
Proof.
  destruct (remove_check_digit_and_pad_cases s) as [[_ H]|[_ H]]; [by left|right; by left].
Qed.

Lemma to_padded_raw_barcode_key s : lookup_key (_to_padded_raw_barcode s).
Proof.
  left. unfold _to_padded_raw_barcode, _left_pad_to_13. rewrite digits_only_idem.
  apply left_pad_digits.
Qed.

Lemma databar_expanded_key raw g :
  _DATABAR_EXPANDED raw = Some g -> digits_of_length 13 g.
Proof.
  unfold _DATABAR_EXPANDED. intros H. cbv zeta in H.
  match type of H with
  | (if ?c then _ else _) = _ => destruct c eqn:E; [|discriminate]
  end.
  assert (Hg : g = PyStr.slice (Some 2) (Some 15) (PyStr.take 15 raw)) by congruence.
  subst g. clear H.
  repeat (apply andb_true_iff in E as [E ?]).
  apply Nat.eqb_eq in E.
  change (Some 2) with (Some (Z.of_nat 2)). change (Some 15) with (Some (Z.of_nat 15)).
  rewrite slice_inside by lia. split.
  - rewrite take_length, drop_length. lia.
  - by apply all_chars_take.
Qed.

Lemma no_price_key raw :
  PyStr.all_chars PyStr.isdigit_char raw = true -> PyStr.len raw = 13 ->
  digits_of_length 13 (PyStr.slice None (Some 8) raw ++ "00000").
Proof.
  intros Hd Hlen. unfold PyStr.len in Hlen.
  change (Some 8) with (Some (Z.of_nat 8)). rewrite slice_prefix. split.
  - rewrite str_length_app, take_length.
    change (String.length "00000") with 5%nat. lia.
  - rewrite all_chars_app, all_chars_take; done.
Qed.

Lemma price_lookup_key raw m :
  PyStr.all_chars PyStr.isdigit_char raw = true ->
  _EAN13_PRICE_EMBEDDED raw = Some m ->
  digits_of_length 13 (PyStr.ljust 13 "0" ("002" ++ pm_itemCode m)).
Proof.
  intros Hd H. unfold _EAN13_PRICE_EMBEDDED in H. cbv zeta in H.
  match type of H with
  | (if ?c then _ else _) = _ => destruct c eqn:E; [|discriminate]
  end.
  assert (Hm : pm_itemCode m = PyStr.slice (Some 1) (Some 6) (PyStr.take 13 raw))
    by (injection H as <-; reflexivity).
  rewrite Hm. clear H Hm.
  repeat (apply andb_true_iff in E as [E ?]).
  apply Nat.eqb_eq in E.
  change (Some 1) with (Some (Z.of_nat 1)). change (Some 6) with (Some (Z.of_nat 6)).
  rewrite slice_inside by lia.
  assert (Hlen : String.length (PyStr.take (6 - 1) (PyStr.drop 1 (PyStr.take 13 raw))) = 5%nat).
  { rewrite take_length, drop_length. lia. }
  unfold PyStr.ljust. rewrite !str_length_app, Hlen. split.
  - rewrite !str_length_app, Hlen, repeat_char_length.
    change (String.length "002") with 3%nat. lia.
  - rewrite !all_chars_app, all_chars_take, all_chars_repeat; try done.
    by apply all_chars_drop.
Qed.

Lemma candidates_ok_step_upce raw t cs :
  candidates_ok raw cs -> candidates_ok raw (step_upce raw t cs).
Proof.
  intros H. unfold step_upce. repeat case_match; try done.
  apply candidates_ok_append_if_new; [done|apply remove_check_digit_and_pad_key].
Qed.

Lemma candidates_ok_step_ean8 raw t cs :
  candidates_ok raw cs -> candidates_ok raw (step_ean8 raw t cs).
Proof.
  intros H. unfold step_ean8. case_match; [|done].
  apply candidates_ok_append_if_new; [done|apply remove_check_digit_and_pad_key].
Qed.

Lemma candidates_ok_step_databar value raw t cs :
  PyStr.all_chars PyStr.isdigit_char raw = true ->
  candidates_ok raw cs -> candidates_ok raw (step_databar value raw t cs).
Proof.
  intros Hd H. unfold step_databar. case_match; [|done].
  assert (H1 : candidates_ok raw
            (if PyStr.startswith "01" value || PyStr.startswith "(01)" value
             then match _DATABAR_EXPANDED raw with
                  | Some gtin14 => append_if_new gtin14 cs
                  | None => cs
                  end
             else cs)).
  { case_match; [|done]. destruct (_DATABAR_EXPANDED raw) as [g|] eqn:Eg; [|done].
    apply candidates_ok_append_if_new; [done|]. right. left.
    by apply databar_expanded_key in Eg. }
  set (cs1 := if PyStr.startswith "01" value || PyStr.startswith "(01)" value
              then _ else cs) in *.
  destruct (_ && _) eqn:E16.
  - apply andb_true_iff in E16 as [E16 _]. apply Z.eqb_eq in E16.
    apply candidates_ok_append_if_new; [|apply remove_check_digit_and_pad_key].
    apply candidates_ok_append_if_new; [done|]. right. right.
    change (Some 2) with (Some (Z.of_nat 2)). rewrite slice_suffix. split.
    + rewrite drop_length. unfold PyStr.len in E16. lia.
    + by apply all_chars_drop.
  - destruct (PyStr.len raw =? 14); [|exact H1].
    apply candidates_ok_append_if_new; [|apply remove_check_digit_and_pad_key].
    apply candidates_ok_append_if_absent; [done|by left].
Qed.

Lemma candidates_ok_step_code128 raw t cs :
  candidates_ok raw cs -> candidates_ok raw (step_code128 raw t cs).
Proof.
  intros H. unfold step_code128. simpl fold_left. repeat case_match; try done;
    repeat (apply candidates_ok_append_if_new;
            [|first [apply remove_check_digit_and_pad_key
                    |right; apply to_padded_raw_barcode_key]]); done.
Qed.

Lemma candidates_ok_step_002 raw cs :
  PyStr.all_chars PyStr.isdigit_char raw = true ->
  candidates_ok raw cs -> candidates_ok raw (step_002 raw cs).
Proof.
  intros Hd H. unfold step_002. destruct (_ && _) eqn:E; [|done].
  apply andb_true_iff in E as [E _]. apply Z.eqb_eq in E.
  apply candidates_ok_append_if_absent; [done|]. right. left. by apply no_price_key.
Qed.

Lemma candidates_ok_step_upca raw t cs :
  candidates_ok raw cs -> candidates_ok raw (step_upca raw t cs).
Proof.
  intros H. unfold step_upca. case_match; [|done].
  apply candidates_ok_append_if_new; [done|apply remove_check_digit_and_pad_key].
Qed.

Lemma candidates_ok_step_ean13 raw t cs :
  candidates_ok raw cs -> candidates_ok raw (step_ean13 raw t cs).
Proof.
  intros H. unfold step_ean13. case_match; [|done].
  apply candidates_ok_append_if_new; [done|apply remove_check_digit_and_pad_key].
Qed.

Lemma normalize_candidates_ok value t :
  _digits_only value <> EmptyString ->
  candidates_ok (_digits_only value) (normalize_candidates value t).
Proof.
  intros Hne. pose proof (digits_only_digits value) as Hd.
  unfold normalize_candidates.
  destruct (PyStr.nonempty (_digits_only value)) eqn:E;
    [|by apply nonempty_false in E].
  simpl negb. cbv iota zeta.
  assert (H0 : candidates_ok (_digits_only value) [_digits_only value])
    by (exists []; by split).
  destruct (if (_ && _)%bool then _ else None) as [m|] eqn:Em; cbv beta iota zeta.
  - destruct (_ && _) eqn:Ec in Em; [|discriminate].
    apply andb_true_iff in Ec as [_ Ec]. apply Z.eqb_eq in Ec.
    apply candidates_ok_append_if_absent.
    + apply candidates_ok_append_if_absent; [done|]. right. left.
      by apply (price_lookup_key (_digits_only value)).
    + right. left. by apply no_price_key.
  - apply candidates_ok_step_ean13, candidates_ok_step_upca.
    apply candidates_ok_step_002; [done|].
    apply candidates_ok_step_code128.
    apply candidates_ok_step_databar; [done|].
    by apply candidates_ok_step_ean8, candidates_ok_step_upce.
Qed.

Lemma lookup_key_isdigit c : lookup_key c -> PyStr.isdigit c = true.
Proof.
  intros [[Hl Hd]|[Hl Hd]]; unfold PyStr.isdigit; rewrite Hd;
    destruct c; simpl in *; done.
Qed.

(** X5. [normalize_candidates] returns the empty list exactly when the
    text has no digit. Otherwise every candidate is a non-empty string of
    digits, and every candidate after the first (the raw digits) is a
    lookup key of exactly 13 or 14 digits. *)
Theorem normalize_candidates_are_digit_strings (value barcode_type : string) :
  let cs := normalize_candidates value barcode_type in
  (cs = [] <-> _digits_only value = EmptyString)
  /\ Forall (fun c => PyStr.isdigit c = true) cs
  /\ Forall lookup_key (tail cs).
Proof.
  intros cs. unfold cs.
  destruct (String.eqb_spec (_digits_only value) EmptyString) as [E|E].
  - assert (Hnil : normalize_candidates value barcode_type = []).
    { unfold normalize_candidates. by rewrite E. }
    rewrite Hnil. repeat split; try done; constructor.
  - destruct (normalize_candidates_ok value barcode_type E) as (rest & -> & Hrest).
    split; [split; [discriminate|done]|]. split; [|exact Hrest].
    constructor.
    + unfold PyStr.isdigit. rewrite digits_only_digits.
      destruct (_digits_only value); done.
    + eapply Forall_impl; [exact Hrest|]. intros c. apply lookup_key_isdigit.
Qed.

(** ** The candidates of the common symbologies *)

Lemma prefix_cons c x (p r : string) :
  String.prefix (String c p) (String x r)
  = if ascii_dec c x then String.prefix p r else false.
Proof. reflexivity. Qed.

Lemma startswith_cons c (s : string) :
  PyStr.startswith (String c EmptyString) s = true -> exists r, s = String c r.
Proof.
  unfold PyStr.startswith. destruct s as [|x r]; simpl; [done|].
  destruct (ascii_dec c x) as [->|]; [|done]. intros _. by exists r.
Qed.

Lemma startswith_app (p s : string) : PyStr.startswith p (p ++ s) = true.
Proof.
  unfold PyStr.startswith. induction p as [|c p IH]; [by destruct s|].
  rewrite str_app_cons. simpl. destruct (ascii_dec c c); [exact IH|done].
Qed.

Lemma startswith_inv (p s : string) :
  PyStr.startswith p s = true -> s = p ++ PyStr.drop (String.length p) s.
Proof.
  unfold PyStr.startswith. revert s. induction p as [|c p IH]; intros s H; [done|].
  destruct s as [|x r]; simpl in H; [done|].
  destruct (ascii_dec c x) as [->|]; [|done].
  rewrite str_app_cons. simpl. f_equal. by apply IH.
Qed.

Lemma eqb_app_same (a x y : string) : String.eqb (a ++ x) (a ++ y) = String.eqb x y.
Proof.
  induction a as [|c a IH]; [done|]. rewrite !str_app_cons. simpl.
  by rewrite Ascii.eqb_refl.
Qed.

Lemma eqb_length_neq (a b : string) :
  String.length a <> String.length b -> String.eqb a b = false.
Proof. intros H. apply String.eqb_neq. intros ->. done. Qed.

Lemma mem_singleton v raw : PyStr.mem v [raw] = String.eqb v raw.
Proof. unfold PyStr.mem. simpl. apply orb_false_r. Qed.

Lemma append_if_new_fresh v (cs : list string) :
  v <> EmptyString -> PyStr.mem v cs = false -> append_if_new v cs = (cs ++ [v])%list.
Proof.
  intros Hne Hmem. unfold append_if_new. rewrite Hmem.
  destruct v; [done|reflexivity].
Qed.

Lemma ean13_price_match raw :
  PyStr.all_chars PyStr.isdigit_char raw = true ->
  String.length raw = 13%nat ->
  PyStr.startswith "2" raw = true ->
  _EAN13_PRICE_EMBEDDED raw
  = Some (mkEan13PriceMatch
            (PyStr.slice (Some 0) (Some 1) raw) (PyStr.slice (Some 1) (Some 6) raw)
            (PyStr.slice (Some 6) (Some 7) raw) (PyStr.slice (Some 7) (Some 12) raw)
            (PyStr.slice (Some 12) (Some 13) raw)).
Proof.
  intros Hd Hlen H2. unfold _EAN13_PRICE_EMBEDDED.
  rewrite (take_all 13 raw) by lia. rewrite (drop_all 13 raw) by lia.
  rewrite Hlen, Hd. destruct (startswith_cons _ _ H2) as (r & ->). reflexivity.
Qed.

Lemma ean13_price_no_match raw :
  PyStr.startswith "2" raw = false -> _EAN13_PRICE_EMBEDDED raw = None.
Proof.
  intros H2. unfold _EAN13_PRICE_EMBEDDED.
  destruct raw as [|c r]; [done|].
  unfold PyStr.startswith in H2. rewrite prefix_cons in H2.
  destruct (ascii_dec "2" c) as [<-|Hc]; [by destruct r|].
  assert (E : String.eqb (PyStr.take 1 (PyStr.take 13 (String c r))) "2" = false).
  { change (PyStr.take 1 (PyStr.take 13 (String c r))) with (String c EmptyString).
    apply String.eqb_neq. intros Heq. injection Heq as Hx. by subst c. }
  rewrite E. by rewrite andb_false_r.
Qed.

(** X6. The candidates of a price-embedded EAN-13. For every text whose
    digits are thirteen and begin with 2, [normalize_candidates] with type
    "EAN-13" returns the raw digits, then "002" followed by digits 2 to 6
    and five zeros, then the first eight digits followed by five zeros;
    the third is left out when the raw digits already end in five zeros.
    No other candidate is produced, and the embedded price is the number
    written by digits 8 to 12. *)
Theorem price_embedded_ean13_candidates (value : string) :
  let raw := _digits_only value in
  PyStr.len raw = 13 ->
  PyStr.startswith "2" raw = true ->
  normalize_candidates value "EAN-13"
  = raw :: ("002" ++ PyStr.slice (Some 1) (Some 6) raw ++ "00000")
        :: (if String.eqb (PyStr.slice (Some 8) None raw) "00000" then []
            else [PyStr.slice None (Some 8) raw ++ "00000"])
  /\ extract_price_from_barcode value "EAN-13"
     = Some (PyStr.int_of_digits (PyStr.slice (Some 7) (Some 12) raw))
  /\ 0 <= PyStr.int_of_digits (PyStr.slice (Some 7) (Some 12) raw) <= 99999.
Proof.
  intros raw Hlen H2. pose proof (digits_only_digits value) as Hd. fold raw in Hd.
  assert (Hlen' : String.length raw = 13%nat) by (unfold PyStr.len in Hlen; lia).
  pose proof (ean13_price_match raw Hd Hlen' H2) as Hm.
  split; [|split].
  - unfold normalize_candidates. fold raw.
    assert (Hne : PyStr.nonempty raw = true) by (destruct raw; done).
    rewrite Hne, Hlen, Hm. simpl negb. cbv beta iota zeta.
    change (String.eqb "EAN-13" "EAN-13" && (13 =? 13)) with true. cbv iota.
    simpl pm_itemCode.
    change (Some 1) with (Some (Z.of_nat 1)). change (Some 6) with (Some (Z.of_nat 6)).
    change (Some 8) with (Some (Z.of_nat 8)).
    rewrite slice_inside, slice_prefix, slice_suffix by lia.
    assert (Hitem : String.length (PyStr.take (6 - 1) (PyStr.drop 1 raw)) = 5%nat)
      by (rewrite take_length, drop_length; lia).
    set (item := PyStr.take (6 - 1) (PyStr.drop 1 raw)) in *.
    assert (Hlookup : PyStr.ljust 13 "0" ("002" ++ item) = "002" ++ item ++ "00000").
    { unfold PyStr.ljust. rewrite str_length_app, Hitem. simpl. by rewrite str_app_assoc. }
    rewrite Hlookup.
    destruct (startswith_cons _ _ H2) as (r & Hr).
    assert (Hl : String.eqb ("002" ++ item ++ "00000") raw = false) by (by rewrite Hr).
    assert (Hn : String.eqb (PyStr.take 8 raw ++ "00000") ("002" ++ item ++ "00000")
                 = false) by (by rewrite Hr).
    assert (Hs : String.eqb (PyStr.take 8 raw ++ "00000") raw
                 = String.eqb (PyStr.drop 8 raw) "00000").
    { rewrite <- (take_drop 8 raw) at 2. rewrite eqb_app_same. apply String.eqb_sym. }
    unfold append_if_absent at 2. rewrite mem_singleton, Hl. simpl negb. cbv iota.
    unfold append_if_absent, PyStr.mem. cbn [existsb app]. rewrite Hs, Hn.
    rewrite !orb_false_r. by destruct (String.eqb (PyStr.drop 8 raw) "00000").
  - unfold extract_price_from_barcode. fold raw. rewrite Hlen, Hm.
    change (String.eqb "EAN-13" "EAN-13" && (13 =? 13)) with true. reflexivity.
  - pose proof (int_of_digits_bounds (PyStr.slice (Some 7) (Some 12) raw)
                  (all_chars_slice _ _ _ _ Hd)) as Hb.
    change (Some 7) with (Some (Z.of_nat 7)) in *.
    change (Some 12) with (Some (Z.of_nat 12)) in *.
    rewrite slice_inside in * by lia.
    unfold PyStr.len in Hb. rewrite take_length, drop_length in Hb.
    replace (Z.of_nat (Nat.min (12 - 7) (String.length raw - 7))) with 5 in Hb by lia.
    change (10 ^ 5) with 100000 in Hb. lia.
Qed.

Lemma price_embedded_ean13_candidates_witness :
  PyStr.len (_digits_only "2 012345 678905") = 13
  /\ PyStr.startswith "2" (_digits_only "2 012345 678905") = true
  /\ normalize_candidates "2 012345 678905" "EAN-13"
     = ["2012345678905"; "0020123400000"; "2012345600000"]
  /\ extract_price_from_barcode "2 012345 678905" "EAN-13" = Some 67890.
Proof.
  split; [reflexivity|]. split; [reflexivity|].
  destruct (price_embedded_ean13_candidates "2 012345 678905" eq_refl eq_refl)
    as (Hc & Hp & _).
  split; [exact Hc|exact Hp].
Defined.

Lemma remove_check_digit_and_pad_short (raw : string) :
  PyStr.all_chars PyStr.isdigit_char raw = true ->
  (0 < String.length raw <= 13)%nat ->
  _remove_check_digit_and_pad raw
  = PyStr.repeat_char "0" (14 - String.length raw)
    ++ PyStr.take (String.length raw - 1) raw.
Proof.
  intros Hd Hlen. unfold _remove_check_digit_and_pad.
  rewrite (digits_only_of_digits raw Hd).
  destruct (PyStr.nonempty raw) eqn:Hne; [|destruct raw; simpl in *; [lia|done]].
  simpl negb. cbv iota. rewrite slice_init. unfold _left_pad_to_13.
  rewrite (digits_only_of_digits _ (all_chars_take _ _ _ Hd)).
  unfold PyStr.len. rewrite take_length.
  destruct (Z.leb_spec 13 (Z.of_nat (Nat.min (String.length raw - 1) (String.length raw))));
    [lia|].
  f_equal. f_equal. lia.
Qed.

Lemma int_of_digits_init (raw : string) :
  PyStr.all_chars PyStr.isdigit_char raw = true ->
  PyStr.int_of_digits (PyStr.take (String.length raw - 1) raw)
  = PyStr.int_of_digits raw / 10.
Proof.
  intros Hd. destruct (String.eqb_spec raw EmptyString) as [->|Hne]; [done|].
  destruct (str_snoc_inv raw Hne) as (core & ch & -> & Hlen).
  rewrite <- Hlen. rewrite take_app_exact, int_of_digits_app.
  rewrite all_chars_app in Hd. apply andb_true_iff in Hd as [_ Hch].
  simpl in Hch. rewrite andb_true_r in Hch. apply digit_val_bounds in Hch.
  replace (PyStr.int_of_digits (String ch EmptyString)) with (PyStr.digit_val ch)
    by (unfold PyStr.int_of_digits; simpl; lia).
  change (10 ^ PyStr.len (String ch EmptyString)) with 10.
  apply Z.div_unique with (r := PyStr.digit_val ch); lia.
Qed.

(** X7. The candidates of a UPC-A or EAN-8 read. For a text with twelve
    digits and type "UPC-A" (or "UPCA"), or with eight digits and type
    "EAN-8", [normalize_candidates] returns exactly two candidates: the raw
    digits, and the digits without their last (check) digit, left-padded
    with zeros to 13. The second candidate denotes the raw number divided
    by ten. *)
Theorem upca_ean8_candidates (value barcode_type : string) :
  let raw := _digits_only value in
  let cand := PyStr.repeat_char "0" (Z.to_nat (14 - PyStr.len raw))
              ++ PyStr.slice None (Some (-1)) raw in
  (PyStr.mem barcode_type ["UPC-A"; "UPCA"] = true /\ PyStr.len raw = 12)
  \/ (barcode_type = "EAN-8" /\ PyStr.len raw = 8) ->
  normalize_candidates value barcode_type = [raw; cand]
  /\ digits_of_length 13 cand
  /\ PyStr.int_of_digits cand = PyStr.int_of_digits raw / 10.
Proof.
  intros raw cand Hcase. pose proof (digits_only_digits value) as Hd. fold raw in Hd.
  assert (Hlen : (String.length raw = 12 \/ String.length raw = 8)%nat)
    by (unfold PyStr.len in Hcase; lia).
  assert (Hrm : _remove_check_digit_and_pad raw = cand).
  { rewrite remove_check_digit_and_pad_short by (done || lia).
    unfold cand. rewrite slice_init. unfold PyStr.len. do 2 f_equal. lia. }
  assert (H13 : digits_of_length 13 cand).
  { rewrite <- Hrm. destruct (remove_check_digit_and_pad_cases raw) as [[E _]|[_ H]];
      [|done]. rewrite (digits_only_of_digits raw Hd) in E. rewrite E in Hlen.
    simpl in Hlen. lia. }
  assert (Hne : PyStr.nonempty raw = true) by (apply nonempty_length; lia).
  assert (Hnew : append_if_new cand [raw] = [raw; cand]).
  { apply append_if_new_fresh.
    - intros E. destruct H13 as [H13 _]. rewrite E in H13. done.
    - rewrite mem_singleton. apply eqb_length_neq. destruct H13 as [-> _]. lia. }
  split; [|split; [exact H13|]].
  - unfold normalize_candidates. fold raw. rewrite Hne. simpl negb. cbv beta iota zeta.
    unfold step_upce, step_ean8, step_databar, step_code128, step_002, step_upca,
      step_ean13.
    rewrite Hrm.
    destruct Hcase as [[Ht Hl]|[-> Hl]]; rewrite Hl.
    + apply mem_true_iff in Ht. rewrite !elem_of_cons in Ht.
      destruct Ht as [->|[->|Ht]]; [| |by apply elem_of_nil in Ht];
        eval_type_tests; exact Hnew.
    + eval_type_tests. exact Hnew.
  - unfold cand. rewrite int_of_digits_app, int_of_digits_zeros, slice_init.
    rewrite int_of_digits_init by done. lia.
Qed.

Lemma upca_ean8_candidates_witness :
  ((PyStr.mem "UPC-A" ["UPC-A"; "UPCA"] = true
    /\ PyStr.len (_digits_only "0 36000 29145 2") = 12)
   \/ ("UPC-A" = "EAN-8" /\ PyStr.len (_digits_only "0 36000 29145 2") = 8))
  /\ normalize_candidates "0 36000 29145 2" "UPC-A" = ["036000291452"; "0003600029145"].
Proof.
  split; [left; split; reflexivity|].
  apply (upca_ean8_candidates "0 36000 29145 2" "UPC-A"). left. split; reflexivity.
Defined.

Lemma shifted_zero_eqb (raw : string) :
  String.length raw = 13%nat ->
  String.eqb ("0" ++ PyStr.take 12 raw) raw = String.eqb raw "0000000000000".
Proof.
  intros Hlen. do 13 next_char raw Hlen. destruct raw; [|simpl in Hlen; lia].
  change ("0" ++ PyStr.take 12 ?s) with (String "0" (PyStr.take 12 s)).
  cbn [PyStr.take].
  match goal with |- String.eqb ?x ?y = String.eqb ?z ?w =>
    destruct (String.eqb_spec x y) as [E|E]; destruct (String.eqb_spec z w) as [E'|E']
  end; try reflexivity; exfalso.
  - apply E'. injection E as ?; subst; reflexivity.
  - apply E. injection E' as ?; subst; reflexivity.
Qed.

(** X8. The candidates of a 13-digit EAN-13 that is not price-embedded.
    When the digits do not begin with 2, [normalize_candidates] with type
    "EAN-13" returns the raw digits, then (only when the digits begin with
    "002" and do not already end in five zeros) the first eight digits
    followed by five zeros, then "0" followed by the first twelve digits;
    this last candidate is left out only for thirteen zeros, where it
    equals the raw digits. *)
Theorem plain_ean13_candidates (value : string) :
  let raw := _digits_only value in
  PyStr.len raw = 13 ->
  PyStr.startswith "2" raw = false ->
  normalize_candidates value "EAN-13"
  = raw :: app (if PyStr.startswith "002" raw
                     && negb (String.eqb (PyStr.slice (Some 8) None raw) "00000")
                  then [PyStr.slice None (Some 8) raw ++ "00000"] else [])
               (if String.eqb raw "0000000000000" then []
                else ["0" ++ PyStr.slice None (Some 12) raw]).
Proof.
  intros raw Hlen H2. pose proof (digits_only_digits value) as Hd. fold raw in Hd.
  assert (Hlen' : String.length raw = 13%nat) by (unfold PyStr.len in Hlen; lia).
  assert (Hne : PyStr.nonempty raw = true) by (apply nonempty_length; lia).
  assert (Hrm : _remove_check_digit_and_pad raw = "0" ++ PyStr.take 12 raw).
  { rewrite remove_check_digit_and_pad_short by (done || lia). by rewrite Hlen'. }
  unfold normalize_candidates. fold raw. rewrite Hne, Hlen. simpl negb.
  cbv beta iota zeta.
  change (String.eqb "EAN-13" "EAN-13" && (13 =? 13)) with true. cbv iota.
  rewrite (ean13_price_no_match raw H2).
  unfold step_upce, step_ean8, step_databar, step_code128, step_002, step_upca,
    step_ean13.
  rewrite Hlen, H2, Hrm. eval_type_tests.
  change (Some 8) with (Some (Z.of_nat 8)). change (Some 12) with (Some (Z.of_nat 12)).
  rewrite !slice_prefix, slice_suffix.
  pose proof (shifted_zero_eqb raw Hlen') as Hz.
  assert (Hs : String.eqb (PyStr.take 8 raw ++ "00000") raw
               = String.eqb (PyStr.drop 8 raw) "00000").
  { rewrite <- (take_drop 8 raw) at 2. rewrite eqb_app_same. apply String.eqb_sym. }
  destruct (PyStr.startswith "002" raw) eqn:H002.
  - apply startswith_inv in H002. simpl String.length in H002.
    set (r := PyStr.drop 3 raw) in *.
    assert (Hnz : String.eqb raw "0000000000000" = false) by (by rewrite H002).
    assert (Hc1 : String.eqb ("0" ++ PyStr.take 12 raw) raw = false) by (by rewrite Hz).
    assert (Hc2 : String.eqb ("0" ++ PyStr.take 12 raw) (PyStr.take 8 raw ++ "00000")
                  = false).
    { rewrite H002. apply String.eqb_neq. intros E. injection E as E. discriminate E. }
    rewrite Hnz. unfold append_if_absent. rewrite mem_singleton, Hs.
    destruct (String.eqb (PyStr.drop 8 raw) "00000"); simpl negb; cbv iota.
    + unfold append_if_new. rewrite mem_singleton, Hc1. reflexivity.
    + unfold append_if_new, PyStr.mem. cbn [existsb app]. rewrite Hc1, Hc2. reflexivity.
  - cbn [andb app]. unfold append_if_new. rewrite mem_singleton, Hz.
    by destruct (String.eqb raw "0000000000000").
Qed.

Lemma plain_ean13_candidates_witness :
  PyStr.len (_digits_only "4006381333931") = 13
  /\ PyStr.startswith "2" (_digits_only "4006381333931") = false
  /\ normalize_candidates "4006381333931" "EAN-13" = ["4006381333931"; "0400638133393"].
Proof.
  split; [reflexivity|]. split; [reflexivity|].
  apply (plain_ean13_candidates "4006381333931"); reflexivity.
Defined.

(** ** Price-embedded barcodes *)

Lemma isdigit_char_cases c :
  PyStr.isdigit_char c = true ->
  PyStr.mem (String c EmptyString) ["0"; "1"; "2"; "3"; "4"; "5"; "6"; "7"; "8"; "9"] = true.
Proof.
  destruct c as [[] [] [] [] [] [] [] []]; vm_compute; intros H; first [exact H|reflexivity].
Qed.

Lemma twenties_of_digit c :
  PyStr.isdigit_char c = true ->
  PyStr.mem (String "2" (String c EmptyString))
    ["20"; "21"; "22"; "23"; "24"; "25"; "26"; "27"; "28"; "29"] = true.
Proof.
  destruct c as [[] [] [] [] [] [] [] []]; vm_compute; intros H; first [exact H|reflexivity].
Qed.

Lemma twenties_inv (s : string) :
  PyStr.mem s ["20"; "21"; "22"; "23"; "24"; "25"; "26"; "27"; "28"; "29"] = true ->
  exists c, s = String "2" (String c EmptyString) /\ PyStr.isdigit_char c = true.
Proof.
  intros H. apply mem_true_iff in H. rewrite !elem_of_cons in H.
  repeat (destruct H as [->|H]; [eexists; split; reflexivity|]).
  by apply elem_of_nil in H.
Qed.

Lemma is_price_embedded_002 value t :
  PyStr.len (_digits_only value) = 13 ->
  PyStr.startswith "002" (_digits_only value) = true ->
  is_price_embedded value t = true.
Proof.
  intros Hlen H. unfold is_price_embedded. rewrite Hlen, H.
  change ((13 =? 13) && true) with true. by repeat case_match.
Qed.

Lemma is_price_embedded_ean13 value :
  (2 <= String.length (_digits_only value))%nat ->
  PyStr.startswith "2" (_digits_only value) = true ->
  is_price_embedded value "EAN-13" = true.
Proof.
  intros Hlen H2. pose proof (digits_only_digits value) as Hd.
  unfold is_price_embedded.
  destruct (startswith_cons _ _ H2) as (r & Hr). rewrite Hr in *.
  destruct r as [|c r]; [simpl in Hlen; lia|].
  simpl in Hd. apply andb_true_iff in Hd as [Hc _].
  change (PyStr.mem "EAN-13" ["UPC-A"; "UPCA"]) with false. cbn [andb].
  change (String.eqb "EAN-13" "EAN-13") with true.
  assert (Hl : (2 <=? PyStr.len (String "2" (String c r))) = true).
  { apply Z.leb_le. unfold PyStr.len. simpl String.length. lia. }
  rewrite Hl. change (Some 2) with (Some (Z.of_nat 2)). rewrite slice_prefix.
  cbn [PyStr.take andb]. by rewrite twenties_of_digit.
Qed.

Lemma slice_last_four (raw : string) :
  String.length raw = 13%nat ->
  PyStr.slice (Some (-5)) (Some (-1)) raw = PyStr.take 4 (PyStr.drop 8 raw).
Proof.
  intros Hlen. unfold PyStr.slice, PyStr.clamp, PyStr.len. rewrite Hlen. reflexivity.
Qed.

(** X9. Whenever [extract_price_from_barcode] returns a price, the text
    has exactly thirteen digits, the price is a number from 0 to 99999
    (at most 9999 when the digits do not begin with 2: they begin with
    "002" then, and only four digits are read), and
    [is_price_embedded] holds of the same text and type. *)
Theorem extract_price_in_range_and_price_embedded (value barcode_type : string) (p : Z) :
  extract_price_from_barcode value barcode_type = Some p ->
  PyStr.len (_digits_only value) = 13
  /\ 0 <= p <= 99999
  /\ (PyStr.startswith "2" (_digits_only value) = false -> p <= 9999)
  /\ is_price_embedded value barcode_type = true.
Proof.
  intros H. pose proof (digits_only_digits value) as Hd.
  unfold extract_price_from_barcode in H. cbv zeta in H.
  set (raw := _digits_only value) in *.
  destruct (String.eqb barcode_type "EAN-13" && (PyStr.len raw =? 13)) eqn:Et.
  - apply andb_true_iff in Et as [Et Hlen]. apply String.eqb_eq in Et.
    apply Z.eqb_eq in Hlen. subst barcode_type.
    assert (Hlen' : String.length raw = 13%nat) by (unfold PyStr.len in Hlen; lia).
    destruct (PyStr.startswith "2" raw) eqn:H2.
    + rewrite (ean13_price_match raw Hd Hlen' H2) in H. simpl pm_price in H.
      injection H as <-. split; [done|].
      pose proof (int_of_digits_bounds (PyStr.slice (Some 7) (Some 12) raw)
                    (all_chars_slice _ _ _ _ Hd)) as Hb.
      change (Some 7) with (Some (Z.of_nat 7)) in *.
      change (Some 12) with (Some (Z.of_nat 12)) in *.
      rewrite slice_inside in * by lia.
      unfold PyStr.len in Hb. rewrite take_length, drop_length in Hb.
      replace (Z.of_nat (Nat.min (12 - 7) (String.length raw - 7))) with 5 in Hb by lia.
      change (10 ^ 5) with 100000 in Hb.
      split; [lia|]. split; [done|]. apply is_price_embedded_ean13; [fold raw; lia|done].
    + rewrite (ean13_price_no_match raw H2) in H. rewrite Hlen in H.
      change (13 =? 13) with true in H. cbn [andb] in H.
      destruct (PyStr.startswith "002" raw) eqn:H002; [|discriminate].
      injection H as <-. rewrite (slice_last_four raw Hlen').
      pose proof (int_of_digits_bounds (PyStr.take 4 (PyStr.drop 8 raw))
                    (all_chars_take _ _ _ (all_chars_drop _ _ _ Hd))) as Hb.
      unfold PyStr.len in Hb. rewrite take_length, drop_length in Hb.
      replace (Z.of_nat (Nat.min 4 (String.length raw - 8))) with 4 in Hb by lia.
      change (10 ^ 4) with 10000 in Hb.
      split; [done|]. split; [lia|]. split; [lia|]. by apply is_price_embedded_002.
  - destruct (PyStr.len raw =? 13) eqn:Hlen; [|discriminate].
    apply Z.eqb_eq in Hlen.
    assert (Hlen' : String.length raw = 13%nat) by (unfold PyStr.len in Hlen; lia).
    cbn [andb] in H.
    destruct (PyStr.startswith "002" raw) eqn:H002; [|discriminate].
    injection H as <-. rewrite (slice_last_four raw Hlen').
    pose proof (int_of_digits_bounds (PyStr.take 4 (PyStr.drop 8 raw))
                  (all_chars_take _ _ _ (all_chars_drop _ _ _ Hd))) as Hb.
    unfold PyStr.len in Hb. rewrite take_length, drop_length in Hb.
    replace (Z.of_nat (Nat.min 4 (String.length raw - 8))) with 4 in Hb by lia.
    change (10 ^ 4) with 10000 in Hb.
    split; [done|]. split; [lia|]. split; [lia|]. by apply is_price_embedded_002.
Qed.

Lemma extract_price_in_range_and_price_embedded_witness :
  extract_price_from_barcode "0021234501299" "UPC-A" = Some 129
  /\ 0 <= 129 <= 99999
  /\ is_price_embedded "0021234501299" "UPC-A" = true.
Proof.
  split; [reflexivity|].
  destruct (extract_price_in_range_and_price_embedded "0021234501299" "UPC-A" 129 eq_refl)
    as (_ & Hp & _ & He).
  split; [exact Hp|exact He].
Defined.

Lemma digits_only_cons_digit c (s : string) :
  PyStr.isdigit_char c = true -> _digits_only (String c s) = String c (_digits_only s).
Proof. intros H. unfold _digits_only. simpl. by rewrite H. Qed.

(** X10. The two price-embedded tests agree in one direction: whenever
    [processor._is_price_embedded] holds of a type and value (a UPC-A
    value beginning with 2, or an EAN-13 value beginning with 20 to 29),
    [caper_normalizer.is_price_embedded] holds of them too. *)
Theorem processor_price_embedded_implies_normalizer_price_embedded
  (barcode_type value : string) :
  _is_price_embedded barcode_type value = true ->
  is_price_embedded value barcode_type = true.
Proof.
  unfold _is_price_embedded. intros H.
  destruct (String.eqb barcode_type "UPC-A" && PyStr.startswith "2" value) eqn:E1.
  - apply andb_true_iff in E1 as [Et H2]. apply String.eqb_eq in Et. subst.
    destruct (startswith_cons _ _ H2) as (r & ->).
    unfold is_price_embedded. rewrite digits_only_cons_digit by reflexivity.
    change (PyStr.mem "UPC-A" ["UPC-A"; "UPCA"]) with true.
    unfold PyStr.startswith. rewrite prefix_cons.
    destruct (ascii_dec "2" "2"); [|done]. by destruct (_digits_only r).
  - destruct (String.eqb barcode_type "EAN-13" && _) eqn:E2; [|discriminate].
    apply andb_true_iff in E2 as [Et Hm]. apply String.eqb_eq in Et. subst.
    apply twenties_inv in Hm as (c & Hs & Hc).
    change (Some 2) with (Some (Z.of_nat 2)) in Hs. rewrite slice_prefix in Hs.
    destruct value as [|a [|b r]]; try discriminate Hs.
    cbn [PyStr.take] in Hs. injection Hs as -> ->.
    apply is_price_embedded_ean13.
    + rewrite !digits_only_cons_digit by done. simpl. lia.
    + rewrite digits_only_cons_digit by done.
      unfold PyStr.startswith. rewrite prefix_cons.
      destruct (ascii_dec "2" "2"); [|done]. by destruct (_digits_only _).
Qed.

Lemma processor_price_embedded_implies_normalizer_price_embedded_witness :
  _is_price_embedded "EAN-13" "2012345678905" = true
  /\ is_price_embedded "2012345678905" "EAN-13" = true.
Proof.
  split; [reflexivity|].
  apply (processor_price_embedded_implies_normalizer_price_embedded
           "EAN-13" "2012345678905").
  reflexivity.
Defined.

(** ** Candidates of UPC-E and Code 128 reads *)

Lemma remove_check_digit_and_pad_12 (u : string) :
  digits_of_length 12 u -> _remove_check_digit_and_pad u = "00" ++ PyStr.take 11 u.
Proof.
  intros [Hlen Hd]. rewrite remove_check_digit_and_pad_short by (done || lia).
  by rewrite Hlen.
Qed.

(** X11. The candidates of a UPC-E read. For a text of 6 to 8 digits
    and type "UPC-E" (or "UPCE"), [normalize_candidates] returns the raw
    digits and, when the expansion to UPC-A succeeds, one more candidate:
    "00" followed by the first eleven digits of the expansion (13 digits;
    the last digit of the expansion is dropped). When the expansion fails
    the raw digits are the only candidate. *)
Theorem upce_candidates (value barcode_type : string) :
  let raw := _digits_only value in
  PyStr.mem barcode_type ["UPC-E"; "UPCE"] = true ->
  6 <= PyStr.len raw <= 8 ->
  normalize_candidates value barcode_type
  = raw :: match _expand_upce_to_upca raw with
           | Some u => ["00" ++ PyStr.take 11 u]
           | None => []
           end.
Proof.
  intros raw Ht Hlen. pose proof (digits_only_digits value) as Hd. fold raw in Hd.
  assert (Hne : PyStr.nonempty raw = true)
    by (apply nonempty_length; unfold PyStr.len in Hlen; lia).
  assert (H6 : (6 <=? PyStr.len raw) = true) by (apply Z.leb_le; lia).
  assert (H8 : (PyStr.len raw <=? 8) = true) by (apply Z.leb_le; lia).
  assert (Hn13 : (PyStr.len raw =? 13) = false) by (apply Z.eqb_neq; lia).
  assert (Hn12 : (PyStr.len raw =? 12) = false) by (apply Z.eqb_neq; lia).
  pose proof (expand_upce_to_upca_shape_aux raw) as Hshape.
  rewrite (digits_only_of_digits raw Hd) in Hshape.
  unfold normalize_candidates. fold raw. rewrite Hne. simpl negb. cbv beta iota zeta.
  unfold step_upce, step_ean8, step_databar, step_code128, step_002, step_upca,
    step_ean13.
  rewrite H6, H8, Hn13, Hn12.
  apply mem_true_iff in Ht. rewrite !elem_of_cons in Ht.
  destruct (_expand_upce_to_upca raw) as [u|] eqn:Eu.
  - assert (Hu : digits_of_length 12 u) by apply Hshape.
    assert (Hnu : PyStr.nonempty u = true) by (apply nonempty_length; destruct Hu; lia).
    rewrite Hnu, (remove_check_digit_and_pad_12 u Hu).
    assert (Hnew : append_if_new ("00" ++ PyStr.take 11 u) [raw]
                   = [raw; "00" ++ PyStr.take 11 u]).
    { apply append_if_new_fresh; [done|]. rewrite mem_singleton.
      apply eqb_length_neq. rewrite str_length_app, take_length.
      destruct Hu as [-> _]. unfold PyStr.len in Hlen.
      change (String.length "00") with 2%nat. lia. }
    destruct Ht as [->|[->|Ht]]; [| |by apply elem_of_nil in Ht];
      eval_type_tests; exact Hnew.
  - destruct Ht as [->|[->|Ht]]; [| |by apply elem_of_nil in Ht];
      eval_type_tests; reflexivity.
Qed.

Lemma upce_candidates_witness :
  PyStr.mem "UPC-E" ["UPC-E"; "UPCE"] = true
  /\ 6 <= PyStr.len (_digits_only "0123453") <= 8
  /\ normalize_candidates "0123453" "UPC-E" = ["0123453"; "0001230000045"].
Proof.
  split; [reflexivity|]. split; [vm_compute; split; discriminate|].
  apply (upce_candidates "0123453" "UPC-E"); [reflexivity|vm_compute; split; discriminate].
Defined.

(** X12. The candidates of a 12-digit Code 128 read. When the digits do
    not begin with 2, the second candidate depends on the UPC-A checksum
    of the digits, as [processor._checksum_upca] computes it: a valid
    UPC-A gives "00" followed by the first eleven digits, anything else
    gives "0" followed by all twelve digits. When the digits begin with 2
    the raw digits are the only candidate. *)
Theorem code128_twelve_digit_candidates (value : string) :
  let raw := _digits_only value in
  PyStr.len raw = 12 ->
  normalize_candidates value "Code 128"
  = raw :: (if PyStr.startswith "2" raw then []
            else if _checksum_upca raw then ["00" ++ PyStr.slice None (Some 11) raw]
            else ["0" ++ raw]).
Proof.
  intros raw Hlen. pose proof (digits_only_digits value) as Hd. fold raw in Hd.
  assert (Hlen' : String.length raw = 12%nat) by (unfold PyStr.len in Hlen; lia).
  assert (Hne : PyStr.nonempty raw = true) by (apply nonempty_length; lia).
  assert (Hck : _is_valid_check_digit raw = _checksum_upca raw).
  { rewrite checksum_upca_is_gtin_check, is_valid_check_digit_even by (by rewrite Hlen').
    rewrite Hlen. done. }
  assert (Hrm : _remove_check_digit_and_pad raw = "00" ++ PyStr.take 11 raw)
    by (by apply remove_check_digit_and_pad_12).
  assert (Hpad : _to_padded_raw_barcode raw = "0" ++ raw).
  { unfold _to_padded_raw_barcode, _left_pad_to_13.
    rewrite !(digits_only_of_digits raw Hd), Hlen. reflexivity. }
  unfold normalize_candidates. fold raw. rewrite Hne. simpl negb. cbv beta iota zeta.
  unfold step_upce, step_ean8, step_databar, step_code128, step_002, step_upca,
    step_ean13.
  rewrite Hlen, Hck, Hrm, Hpad. eval_type_tests.
  change (Some 11) with (Some (Z.of_nat 11)). rewrite slice_prefix.
  destruct (PyStr.startswith "2" raw); cbn [negb]; [reflexivity|].
  destruct (_checksum_upca raw).
  - apply append_if_new_fresh; [done|]. rewrite mem_singleton.
    apply eqb_length_neq. rewrite str_length_app, take_length.
    change (String.length "00") with 2%nat. lia.
  - apply append_if_new_fresh; [done|]. rewrite mem_singleton.
    apply eqb_length_neq. rewrite str_length_app.
    change (String.length "0") with 1%nat. lia.
Qed.

Lemma code128_twelve_digit_candidates_witness :
  PyStr.len (_digits_only "036000291452") = 12
  /\ normalize_candidates "036000291452" "Code 128" = ["036000291452"; "0003600029145"]
  /\ PyStr.len (_digits_only "036000291453") = 12
  /\ normalize_candidates "036000291453" "Code 128" = ["036000291453"; "0036000291453"].
Proof.
  split; [reflexivity|].
  split; [apply (code128_twelve_digit_candidates "036000291452"); reflexivity|].
  split; [reflexivity|].
  apply (code128_twelve_digit_candidates "036000291453"); reflexivity.
Defined.

(** ** Deduplication, again *)

Lemma dedupe_step_keeps st b :
  key b ∉ seen st ->
  passes_gate b = true ->
  (is_upcean_type (barcode_type b) = true -> barcode_type b ∉ seen_types st) ->
  unique (dedupe_step st b) = (unique st ++ [b])%list.
Proof.
  intros Hk Hg Ht. unfold dedupe_step. fold (key b).
  rewrite bool_decide_eq_false_2 by done.
  unfold passes_gate, GATED_TYPES in Hg. apply negb_true_iff in Hg. rewrite Hg.
  fold (is_upcean_type (barcode_type b)).
  destruct (is_upcean_type (barcode_type b)); [|done].
  by rewrite bool_decide_eq_false_2 by auto.
Qed.

(** A list that [_dedupe_and_filter] has nothing to object to is returned
    as it is. *)
Lemma dedupe_and_filter_fixed (l : list DetectedBarcode) :
  NoDup (List.map key l) ->
  (forall b, b ∈ l -> passes_gate b = true) ->
  (forall t, is_upcean_type t = true -> (length (List.filter (has_type t) l) <= 1)%nat) ->
  _dedupe_and_filter l = l.
Proof.
  unfold _dedupe_and_filter.
  induction l as [|b l IH] using rev_ind; intros Hnd Hg H1; [done|].
  rewrite fold_left_app. simpl fold_left.
  assert (IH' : unique (fold_left dedupe_step l (mkDedupe ∅ ∅ [])) = l).
  { apply IH.
    - rewrite List.map_app in Hnd. by apply NoDup_app in Hnd as (? & _ & _).
    - intros x Hx. apply Hg, elem_of_app. by left.
    - intros t Ht. specialize (H1 t Ht). rewrite List.filter_app, length_app in H1. lia. }
  pose proof (dedupe_fold_inv l) as Hinv.
  set (st := fold_left dedupe_step l (mkDedupe ∅ ∅ [])) in *.
  rewrite dedupe_step_keeps, IH'; [done| | |].
  - rewrite (inv_seen _ _ Hinv), IH'. rewrite List.map_app in Hnd.
    apply NoDup_app in Hnd as (_ & Hd & _). intros Hin. apply (Hd _ Hin). by left.
  - apply Hg, elem_of_app. right. by left.
  - intros Hup Hin. apply (inv_types _ _ Hinv) in Hin as (_ & b' & Hb' & Hty).
    rewrite IH' in Hb'. specialize (H1 _ Hup).
    rewrite List.filter_app, length_app in H1. simpl in H1.
    unfold has_type at 2 in H1. rewrite String.eqb_refl in H1. simpl in H1.
    assert (Hne : List.filter (has_type (barcode_type b)) l <> [])
      by (by apply (filter_has_type_nonempty _ b')).
    destruct (List.filter (has_type (barcode_type b)) l); [done|simpl in H1; lia].
Qed.

(** X13. [_dedupe_and_filter] is idempotent: applied to its own output
    it changes nothing. *)
Theorem dedupe_and_filter_idempotent (barcodes : list DetectedBarcode) :
  _dedupe_and_filter (_dedupe_and_filter barcodes) = _dedupe_and_filter barcodes.
Proof.
  destruct (dedupe_fold_inv barcodes) as [Hs Ht Hsub Hnd Hg Hf Ho].
  apply dedupe_and_filter_fixed; unfold _dedupe_and_filter.
  - exact Hnd.
  - exact Hg.
  - intros t Hup. rewrite (Hf t Hup). apply firstn_le_length.
Qed.

(** ** Rows, lookups and OCR recovery *)

Lemma filter_length_le {A} (p : A -> bool) (l : list A) :
  (length (List.filter p l) <= length l)%nat.
Proof. induction l as [|a l IH]; simpl; [done|]. destruct (p a); simpl; lia. Qed.

Lemma prefer_code128_length (ds : list DetectedBarcode) :
  (length (prefer_code128 ds) <= length ds)%nat.
Proof.
  unfold prefer_code128.
  destruct (_ && _); destruct (_ && _);
    repeat (etrans; [apply filter_length_le|]); done.
Qed.

Lemma dedupe_and_filter_length (ds : list DetectedBarcode) :
  (length (_dedupe_and_filter ds) <= length ds)%nat.
Proof.
  apply sublist_length. unfold _dedupe_and_filter. apply (inv_sub _ _ (dedupe_fold_inv ds)).
Qed.

Lemma existsb_nonempty {A} (p : A -> bool) (l : list A) :
  existsb p l = true -> (1 <= length l)%nat.
Proof. destruct l; simpl; [done|lia]. Qed.

Lemma lookup_queries_digits b c : c ∈ lookup_queries b -> PyStr.isdigit c = true.
Proof.
  unfold lookup_queries. destruct (_ && _); [|by intros H%elem_of_nil].
  intros Hc. apply (subseteq_take 2) in Hc.
  destruct (String.eqb_spec (_digits_only (barcode_value b)) EmptyString) as [E|E].
  - unfold normalize_candidates in Hc. rewrite E in Hc. by apply elem_of_nil in Hc.
  - destruct (normalize_candidates_ok (barcode_value b) (barcode_type b) E)
      as (rest & Heq & Hrest).
    rewrite Heq in Hc. apply elem_of_cons in Hc as [->|Hc].
    + unfold PyStr.isdigit. rewrite digits_only_digits.
      by destruct (_digits_only (barcode_value b)).
    + rewrite Forall_forall in Hrest. by apply lookup_key_isdigit, Hrest.
Qed.

Section RowFacts.

Variable Image : Type.
Variable ocr_upcean_digit_band : Image -> list (list Point) -> option string.
Variable ocr_upcean_numeric : Image -> list (list Point) -> option string.
Variable ocr_bold_name : Image -> list Point -> option string.
Variable ocr_item_name : Image -> list Point -> option string.
Variable deep_lookup_product_name :
  string -> option string -> option string -> option string -> option string.
Variable duckduckgo_lookup : string -> option string.
Variable lookup_product_name : string -> option string.
Variable extract_gtin : string -> option string.
Variable _validate_name : option string -> string -> option string.

Local Abbreviation rows_of :=
  (process_image_to_rows Image ocr_upcean_digit_band ocr_upcean_numeric ocr_bold_name
     ocr_item_name deep_lookup_product_name duckduckgo_lookup lookup_product_name
     extract_gtin _validate_name).
Local Abbreviation row_of :=
  (row_for Image ocr_bold_name ocr_item_name deep_lookup_product_name duckduckgo_lookup
     lookup_product_name extract_gtin _validate_name).
Local Abbreviation reconcile_of :=
  (reconcile Image ocr_upcean_digit_band ocr_upcean_numeric).
Local Abbreviation ocr_recover_of :=
  (ocr_recover Image ocr_upcean_digit_band ocr_upcean_numeric).

Lemma ocr_recover_length image opts (l : list DetectedBarcode) :
  (length (ocr_recover_of image opts l) <= length l)%nat.
Proof.
  unfold ocr_recover.
  destruct (negb _ && existsb _ l) eqn:E; simpl andb; [|done].
  apply andb_true_iff in E as [_ E]. apply existsb_nonempty in E.
  destruct (ProcessOptions.ocr opts); [|done].
  destruct (py_or _ _) as [s|]; [|done].
  by destruct (PyStr.nonempty s && _).
Qed.

(** X14. [process_image_to_rows] never returns more rows than it was
    given detections: every step between input and rows only drops
    detections, or (OCR recovery) replaces a non-empty list by a single
    one. In particular no detections give no rows, and the single detection
    the command line hands over gives at most one row. *)
Theorem rows_never_more_than_detections image (barcodes : list DetectedBarcode) opts :
  (length (rows_of image barcodes opts) <= length barcodes)%nat
  /\ rows_of image [] opts = []
  /\ forall b, (length (rows_of image [b] opts) <= 1)%nat.
Proof.
  assert (H : forall l, (length (rows_of image l opts) <= length l)%nat).
  { intros l. unfold process_image_to_rows, reconcile, deduplicated.
    rewrite length_map.
    etrans; [apply prefer_code128_length|].
    etrans; [apply dedupe_and_filter_length|].
    etrans; [apply ocr_recover_length|]. apply filter_length_le. }
  split; [apply H|]. split.
  - specialize (H []). destruct (rows_of image [] opts); [done|simpl in H; lia].
  - intros b. apply (H [b]).
Qed.

(** X16. OCR recovery replaces, it does not add. When the reads of an
    image (2D types left out) contain a DataBar read and no UPC/EAN read,
    OCR is on, and the OCR of the digit band (or, failing that, of the
    numbers) returns 13, 12 or 8 characters, all reads are replaced by one
    detection of type EAN-13, UPC-A or EAN-8 carrying the OCR text. The
    image then gets the one row of that detection if the text passes the
    checksum of its type, and no row at all otherwise: the DataBar reads
    are lost either way. *)
Theorem ocr_recovery_replaces_databar_reads image (barcodes : list DetectedBarcode) opts s :
  let kept :=
    List.filter (fun b => negb (PyStr.mem (barcode_type b) EXCLUDED_2D_TYPES)) barcodes in
  let gs1_quads :=
    List.map quad (List.filter (fun b => is_databar_type (barcode_type b)) kept) in
  existsb (fun b => is_upcean_type (barcode_type b)) kept = false ->
  existsb (fun b => is_databar_type (barcode_type b)) kept = true ->
  ProcessOptions.ocr opts = true ->
  py_or (ocr_upcean_digit_band image gs1_quads) (ocr_upcean_numeric image gs1_quads)
  = Some s ->
  PyStr.len s = 13 \/ PyStr.len s = 12 \/ PyStr.len s = 8 ->
  rows_of image barcodes opts
  = if _is_valid_upcean (ocr_type s) s
    then [row_of image opts (mkDetected (ocr_type s) s [] None)]
    else [].
Proof.
  intros kept gs1_quads Hup Hdb Hocr Hread Hlen.
  assert (Hne : PyStr.nonempty s = true).
  { apply nonempty_length. unfold PyStr.len in Hlen. lia. }
  assert (Hlens : (PyStr.len s =? 12) || (PyStr.len s =? 13) || (PyStr.len s =? 8) = true).
  { destruct Hlen as [-> | [-> | ->]]; reflexivity. }
  assert (Hrec : ocr_recover_of image opts kept = [mkDetected (ocr_type s) s [] None]).
  { unfold ocr_recover. fold gs1_quads. rewrite Hup, Hdb, Hocr, Hread, Hne, Hlens.
    reflexivity. }
  set (d := mkDetected (ocr_type s) s [] None) in *.
  assert (Hty : ocr_type s ∈ ["EAN-13"; "UPC-A"; "EAN-8"]).
  { unfold ocr_type. rewrite !elem_of_cons.
    destruct (PyStr.len s =? 13); [tauto|]. destruct (PyStr.len s =? 12); tauto. }
  unfold process_image_to_rows, reconcile, deduplicated. fold kept. rewrite Hrec.
  assert (Hdd : _dedupe_and_filter [d] = if _is_valid_upcean (ocr_type s) s then [d] else []).
  { unfold _dedupe_and_filter. simpl fold_left. unfold dedupe_step.
    rewrite bool_decide_eq_false_2 by set_solver.
    change (barcode_type d) with (ocr_type s). change (barcode_value d) with s.
    rewrite !elem_of_cons in Hty.
    destruct Hty as [Ht|[Ht|[Ht|Ht]]]; [| | |by apply elem_of_nil in Ht]; rewrite Ht;
      eval_type_tests;
      (destruct (_is_valid_upcean _ s); simpl negb; cbv iota; [|done]);
      rewrite bool_decide_eq_false_2 by set_solver; reflexivity. }
  rewrite Hdd. destruct (_is_valid_upcean (ocr_type s) s); [|done].
  assert (Hpc : prefer_code128 [d] = [d]).
  { unfold prefer_code128. simpl existsb.
    change (barcode_type d) with (ocr_type s).
    rewrite !elem_of_cons in Hty.
    destruct Hty as [Ht|[Ht|[Ht|Ht]]]; [| | |by apply elem_of_nil in Ht]; rewrite Ht;
      reflexivity. }
  by rewrite Hpc.
Qed.

End RowFacts.

Section LookupFacts.

Variable Image : Type.
Variable ocr_upcean_digit_band : Image -> list (list Point) -> option string.
Variable ocr_upcean_numeric : Image -> list (list Point) -> option string.
Variable ocr_bold_name : Image -> list Point -> option string.
Variable ocr_item_name : Image -> list Point -> option string.
Variable deep_lookup_product_name deep_lookup_product_name' :
  string -> option string -> option string -> option string -> option string.
Variable duckduckgo_lookup duckduckgo_lookup' : string -> option string.
Variable lookup_product_name lookup_product_name' : string -> option string.
Variable extract_gtin : string -> option string.
Variable _validate_name : option string -> string -> option string.

Local Abbreviation rows_of :=
  (process_image_to_rows Image ocr_upcean_digit_band ocr_upcean_numeric ocr_bold_name
     ocr_item_name deep_lookup_product_name duckduckgo_lookup lookup_product_name
     extract_gtin _validate_name).
Local Abbreviation rows_of' :=
  (process_image_to_rows Image ocr_upcean_digit_band ocr_upcean_numeric ocr_bold_name
     ocr_item_name deep_lookup_product_name' duckduckgo_lookup' lookup_product_name'
     extract_gtin _validate_name).
Local Abbreviation row_of :=
  (row_for Image ocr_bold_name ocr_item_name deep_lookup_product_name duckduckgo_lookup
     lookup_product_name extract_gtin _validate_name).
Local Abbreviation row_of' :=
  (row_for Image ocr_bold_name ocr_item_name deep_lookup_product_name'
     duckduckgo_lookup' lookup_product_name' extract_gtin _validate_name).

Lemma lookup_loop_agree opts (candidates : list string) name :
  (forall c, c ∈ candidates ->
     (forall k1 k2 k3, deep_lookup_product_name c k1 k2 k3
                       = deep_lookup_product_name' c k1 k2 k3)
     /\ duckduckgo_lookup c = duckduckgo_lookup' c
     /\ lookup_product_name c = lookup_product_name' c) ->
  lookup_loop deep_lookup_product_name duckduckgo_lookup lookup_product_name
    opts candidates name
  = lookup_loop deep_lookup_product_name' duckduckgo_lookup' lookup_product_name'
      opts candidates name.
Proof.
  revert name. induction candidates as [|cand rest IH]; intros name Hagree; [done|].
  destruct (Hagree cand ltac:(left)) as (Hd & Hf & Hl).
  simpl. rewrite Hd, Hf, Hl, IH; [done|].
  intros c Hc. apply Hagree. by right.
Qed.

Lemma row_for_agree image opts b :
  (forall c, c ∈ lookup_queries b ->
     (forall k1 k2 k3, deep_lookup_product_name c k1 k2 k3
                       = deep_lookup_product_name' c k1 k2 k3)
     /\ duckduckgo_lookup c = duckduckgo_lookup' c
     /\ lookup_product_name c = lookup_product_name' c) ->
  row_of image opts b = row_of' image opts b.
Proof.
  intros Hagree. unfold row_for, lookup_queries in *.
  destruct (_display_value_for extract_gtin b) as [display gtin].
  destruct (_is_price_embedded (barcode_type b) (barcode_value b)).
  - by rewrite !andb_false_r.
  - destruct (PyStr.mem (barcode_type b) ALLOWED_WEB_TYPES).
    + simpl andb in *. cbv iota in *. simpl negb. cbv iota.
      by rewrite (lookup_loop_agree opts _ None Hagree).
    + by rewrite !andb_false_r.
Qed.

(** X15. What the web lookups get to see. The rows of an image depend
    on the three lookup collaborators only through their answers to the
    lookup queries of a detection: at most two strings per detection, each
    a non-empty digit string (the first two normalizer candidates), and
    none at all for a detection whose type is outside UPC-A, EAN-13, UPC-E
    and EAN-8 or whose value is price-embedded. Two sets of lookups that
    agree on those queries give the same rows. *)
Theorem web_lookups_see_only_lookup_queries :
  (forall b c, c ∈ lookup_queries b ->
     (forall k1 k2 k3, deep_lookup_product_name c k1 k2 k3
                       = deep_lookup_product_name' c k1 k2 k3)
     /\ duckduckgo_lookup c = duckduckgo_lookup' c
     /\ lookup_product_name c = lookup_product_name' c) ->
  (forall image barcodes opts, rows_of image barcodes opts = rows_of' image barcodes opts)
  /\ (forall b, (length (lookup_queries b) <= 2)%nat
                /\ Forall (fun c => PyStr.isdigit c = true) (lookup_queries b))
  /\ (forall b, PyStr.mem (barcode_type b) ALLOWED_WEB_TYPES = false
                \/ _is_price_embedded (barcode_type b) (barcode_value b) = true ->
                lookup_queries b = []).
Proof.
  intros Hagree. split; [|split].
  - intros image barcodes opts. unfold process_image_to_rows.
    apply List.map_ext. intros b. apply row_for_agree. apply Hagree.
  - intros b. split.
    + unfold lookup_queries. destruct (_ && _); [|simpl; lia]. apply firstn_le_length.
    + apply Forall_forall. intros c. apply lookup_queries_digits.
  - intros b [H|H]; unfold lookup_queries; rewrite H; [done|by rewrite andb_false_r].
Qed.

End LookupFacts.

Lemma web_lookups_see_only_lookup_queries_witness :
  process_image_to_rows unit no_ocr_band no_ocr_band no_ocr_name no_ocr_name
    no_deep_lookup lookup_one_product no_lookup no_lookup keep_name tt
    [mkDetected "UPC-A" "036000291452" quad_A None] free_lookup_options
  = process_image_to_rows unit no_ocr_band no_ocr_band no_ocr_name no_ocr_name
      no_deep_lookup lookup_echoing_non_digits no_lookup no_lookup keep_name tt
      [mkDetected "UPC-A" "036000291452" quad_A None] free_lookup_options
  /\ process_image_to_rows unit no_ocr_band no_ocr_band no_ocr_name no_ocr_name
       no_deep_lookup lookup_one_product no_lookup no_lookup keep_name tt
       [mkDetected "UPC-A" "036000291452" quad_A None] free_lookup_options
     = [RowDraft.mk "UPC-A" "036000291452" (Some "Kleenex Tissues") None].
Proof.
  split; [|reflexivity].
  apply (web_lookups_see_only_lookup_queries unit no_ocr_band no_ocr_band no_ocr_name
           no_ocr_name no_deep_lookup no_deep_lookup lookup_one_product
           lookup_echoing_non_digits no_lookup no_lookup no_lookup keep_name).
  intros b c Hc. split; [done|]. split; [|done].
  unfold lookup_echoing_non_digits. by rewrite (lookup_queries_digits b c Hc).
Defined.

Lemma ocr_recovery_replaces_databar_reads_witness :
  process_image_to_rows unit (ocr_reads "036000291452") no_ocr_band no_ocr_name no_ocr_name
    no_deep_lookup no_lookup no_lookup no_lookup keep_name tt
    [mkDetected "GS1 DataBar" "0100036000291452" quad_A None]
    ocr_options
  = [RowDraft.mk "UPC-A" "036000291452" None None]
  /\ process_image_to_rows unit (ocr_reads "036000291453") no_ocr_band no_ocr_name
       no_ocr_name no_deep_lookup no_lookup no_lookup no_lookup keep_name tt
       [mkDetected "GS1 DataBar" "0100036000291452" quad_A None]
       ocr_options
     = [].
Proof.
  split.
  - apply (ocr_recovery_replaces_databar_reads unit (ocr_reads "036000291452") no_ocr_band
             no_ocr_name no_ocr_name no_deep_lookup no_lookup no_lookup no_lookup keep_name
             tt [mkDetected "GS1 DataBar" "0100036000291452" quad_A None]
             ocr_options "036000291452");
      first [reflexivity | right; left; reflexivity].
  - apply (ocr_recovery_replaces_databar_reads unit (ocr_reads "036000291453") no_ocr_band
             no_ocr_name no_ocr_name no_deep_lookup no_lookup no_lookup no_lookup keep_name
             tt [mkDetected "GS1 DataBar" "0100036000291452" quad_A None]
             ocr_options "036000291453");
      first [reflexivity | right; left; reflexivity].
Defined.

(** ** The DataBar checksum *)

Lemma replace_char_away c (s : string) :
  str_replace (String c EmptyString) EmptyString s
  = PyStr.filter_chars (fun x => negb (Ascii.eqb x c)) s.
Proof.
  unfold str_replace. induction s as [|x r IH]; [done|].
  cbn [replace_from PyStr.filter_chars]. rewrite prefix_cons.
  destruct (ascii_dec c x) as [->|Hne].
  - rewrite Ascii.eqb_refl. cbn [negb]. destruct r; exact IH.
  - assert (E : Ascii.eqb x c = false) by (apply Ascii.eqb_neq; congruence).
    rewrite E. cbn [negb]. by rewrite IH.
Qed.

Lemma filter_chars_twice p q (s : string) :
  (forall x, p x = true -> q x = true) ->
  PyStr.filter_chars p (PyStr.filter_chars q s) = PyStr.filter_chars p s.
Proof.
  intros Hpq. induction s as [|x r IH]; [done|]. simpl.
  destruct (q x) eqn:Eq; simpl.
  - by rewrite IH.
  - destruct (p x) eqn:Ep; [|done]. apply Hpq in Ep. congruence.
Qed.

Lemma digits_ignore_parentheses (value : string) :
  PyStr.filter_chars PyStr.isdigit_char
    (str_replace ")" EmptyString (str_replace "(" EmptyString value))
  = _digits_only value.
Proof.
  rewrite !replace_char_away. unfold _digits_only.
  rewrite !filter_chars_twice; [done| |];
    intros x Hx; apply negb_true_iff, Ascii.eqb_neq; intros ->; done.
Qed.

Lemma databar_gtin_digits d :
  PyStr.all_chars PyStr.isdigit_char d = true -> 14 <= PyStr.len d ->
  digits_of_length 14 (databar_gtin d).
Proof.
  intros Hd Hlen. unfold databar_gtin, PyStr.len in *.
  destruct (PyStr.startswith "01" d && _) eqn:E.
  - apply andb_true_iff in E as [_ E]. apply Z.leb_le in E.
    change (Some 2) with (Some (Z.of_nat 2)). change (Some 16) with (Some (Z.of_nat 16)).
    rewrite slice_inside by lia. split.
    + rewrite take_length, drop_length. lia.
    + by apply all_chars_take, all_chars_drop.
  - change (Some 14) with (Some (Z.of_nat 14)). rewrite slice_prefix. split.
    + rewrite take_length. lia.
    + by apply all_chars_take.
Qed.

Lemma databar_loop_is_gtin_check (g : string) :
  digits_of_length 14 g ->
  ((10 - fold_left (fun total i =>
                      if Z.of_nat i mod 2 =? 0
                      then total + digit_at g i * 3
                      else total + digit_at g i)
                   (py_range 0 13 1) 0 mod 10) mod 10 =? digit_at g 13)
  = gtin_check_ok g.
Proof.
  intros [Hlen Hd]. do 14 next_char g Hlen. destruct g; [|simpl in Hlen; lia].
  split_digits Hd.
  unfold gtin_check_ok, py_range, digit_at, PyStr.index.
  cbn [String.length Nat.even weighted_sum List.seq List.map fold_left
       Nat.sub Nat.add Nat.mul Nat.div Nat.divmod fst snd].
  eval_parity_tests. simpl String.get.
  rewrite mod10_check_digit by (by apply digit_val_bounds).
  f_equal. f_equal. lia.
Qed.

Lemma validate_databar_checksum_digits (value : string) :
  _validate_databar_checksum value
  = (14 <=? PyStr.len (_digits_only value))
    && gtin_check_ok (databar_gtin (_digits_only value)).
Proof.
  pose proof (digits_only_digits value) as Hd.
  set (d := _digits_only value) in *.
  unfold _validate_databar_checksum.
  destruct (PyStr.nonempty value) eqn:Hne;
    [|apply nonempty_false in Hne; by subst value].
  simpl negb. cbv beta iota zeta. rewrite digits_ignore_parentheses. fold d.
  destruct (Z.ltb_spec (PyStr.len d) 14) as [Hlt|Hge].
  - symmetry. apply andb_false_iff. left. apply Z.leb_gt. lia.
  - assert (Hl : (14 <=? PyStr.len d) = true) by (apply Z.leb_le; lia).
    rewrite Hl. cbn [andb].
    assert (Hg : (if PyStr.startswith "01" d && (16 <=? PyStr.len d)
                  then PyStr.slice (Some 2) (Some 16) d
                  else if PyStr.len d =? 14 then PyStr.slice None (Some 14) d
                       else PyStr.slice None (Some 14) d) = databar_gtin d).
    { unfold databar_gtin. by repeat case_match. }
    rewrite Hg. pose proof (databar_gtin_digits d Hd Hge) as H14.
    assert (Hlen : (PyStr.len (databar_gtin d) =? 14) = true).
    { apply Z.eqb_eq. unfold PyStr.len. destruct H14 as [-> _]. done. }
    rewrite Hlen. cbn [negb]. cbv iota.
    by apply databar_loop_is_gtin_check.
Qed.

(** X17. [_validate_databar_checksum] looks at the digits of the value
    only (parentheses and every other character are ignored), rejects
    fewer than fourteen digits, and otherwise is the GTIN check on
    fourteen of them: the digits after a leading "01" when at least
    sixteen digits are there, the first fourteen otherwise. On those
    fourteen digits it agrees with [caper_normalizer._is_valid_check_digit]. *)
Theorem validate_databar_checksum_is_gtin14_check (value : string) :
  let d := _digits_only value in
  _validate_databar_checksum value
  = (14 <=? PyStr.len d) && gtin_check_ok (databar_gtin d)
  /\ _validate_databar_checksum value
     = (14 <=? PyStr.len d) && _is_valid_check_digit (databar_gtin d).
Proof.
  intros d. pose proof (digits_only_digits value) as Hd. fold d in Hd.
  pose proof (validate_databar_checksum_digits value) as H1. fold d in H1.
  split; [exact H1|]. rewrite H1.
  destruct (Z.leb_spec 14 (PyStr.len d)) as [Hge|Hlt]; [|done]. cbn [andb].
  pose proof (databar_gtin_digits d Hd Hge) as [Hlen Hdig].
  rewrite is_valid_check_digit_even by (by rewrite Hlen).
  unfold PyStr.isdigit. rewrite Hdig.
  destruct (databar_gtin d); [discriminate Hlen|done].
Qed.

(** ** Bounding boxes *)

Lemma list_min_spec x (xs : list Z) :
  (forall y, y ∈ x :: xs -> list_min x xs <= y) /\ list_min x xs ∈ x :: xs.
Proof.
  unfold list_min. revert x. induction xs as [|a xs IH]; intros x; simpl.
  - split; [|by left]. intros y Hy. apply list_elem_of_singleton in Hy. lia.
  - destruct (IH (Z.min x a)) as [Hle Hin]. split.
    + intros y Hy.
      assert (Hm : fold_left Z.min xs (Z.min x a) <= Z.min x a) by (apply Hle; by left).
      rewrite !elem_of_cons in Hy. destruct Hy as [->|[->|Hy]]; [lia|lia|].
      apply Hle. by right.
    + rewrite !elem_of_cons in *. destruct Hin as [Hin|Hin]; [|tauto].
      rewrite Hin. destruct (Z.min_spec x a) as [[_ ->]|[_ ->]]; tauto.
Qed.

Lemma list_max_spec x (xs : list Z) :
  (forall y, y ∈ x :: xs -> y <= list_max x xs) /\ list_max x xs ∈ x :: xs.
Proof.
  unfold list_max. revert x. induction xs as [|a xs IH]; intros x; simpl.
  - split; [|by left]. intros y Hy. apply list_elem_of_singleton in Hy. lia.
  - destruct (IH (Z.max x a)) as [Hle Hin]. split.
    + intros y Hy.
      assert (Hm : Z.max x a <= fold_left Z.max xs (Z.max x a)) by (apply Hle; by left).
      rewrite !elem_of_cons in Hy. destruct Hy as [->|[->|Hy]]; [lia|lia|].
      apply Hle. by right.
    + rewrite !elem_of_cons in *. destruct Hin as [Hin|Hin]; [|tauto].
      rewrite Hin. destruct (Z.max_spec x a) as [[_ ->]|[_ ->]]; tauto.
Qed.

(** X18. [_bbox_from_quad] returns the bounding box of the quad: every
    corner lies inside it and each of its four sides passes through a
    corner; it returns nothing exactly for a detection without a quad.
    [_quad_area] is the area of that box, width times height, never
    negative, and 0 without a quad. *)
Theorem bbox_is_the_bounding_box (b : DetectedBarcode) :
  match _bbox_from_quad b with
  | None => quad b = [] /\ _quad_area b = 0
  | Some (x1, y1, x2, y2) =>
      (forall p, p ∈ quad b -> x1 <= fst p <= x2 /\ y1 <= snd p <= y2)
      /\ x1 ∈ List.map fst (quad b) /\ x2 ∈ List.map fst (quad b)
      /\ y1 ∈ List.map snd (quad b) /\ y2 ∈ List.map snd (quad b)
      /\ _quad_area b = (x2 - x1) * (y2 - y1)
      /\ 0 <= _quad_area b
  end.
Proof.
  unfold _bbox_from_quad, _quad_area. destruct (quad b) as [|p ps]; [done|].
  destruct (list_min_spec (fst p) (List.map fst ps)) as [Hx1 Hx1'].
  destruct (list_max_spec (fst p) (List.map fst ps)) as [Hx2 Hx2'].
  destruct (list_min_spec (snd p) (List.map snd ps)) as [Hy1 Hy1'].
  destruct (list_max_spec (snd p) (List.map snd ps)) as [Hy2 Hy2'].
  assert (Hfst : forall q, q ∈ p :: ps -> fst q ∈ fst p :: List.map fst ps).
  { intros q Hq. change (fst q ∈ List.map fst (p :: ps)).
    apply list_elem_of_In, in_map, list_elem_of_In, Hq. }
  assert (Hsnd : forall q, q ∈ p :: ps -> snd q ∈ snd p :: List.map snd ps).
  { intros q Hq. change (snd q ∈ List.map snd (p :: ps)).
    apply list_elem_of_In, in_map, list_elem_of_In, Hq. }
  assert (Hw : list_min (fst p) (List.map fst ps) <= list_max (fst p) (List.map fst ps)).
  { etrans; [apply Hx1|apply Hx2]; by left. }
  assert (Hh : list_min (snd p) (List.map snd ps) <= list_max (snd p) (List.map snd ps)).
  { etrans; [apply Hy1|apply Hy2]; by left. }
  split; [|split; [|split; [|split; [|split; [|split]]]]]; try done.
  - intros q Hq. repeat split; auto.
  - cbv zeta. rewrite !Z.max_r by lia. reflexivity.
  - cbv zeta. rewrite !Z.max_r by lia. nia.
Qed.

(** ** The grid of crops *)

Lemma grid_cell_inside (w h grid cell_w cell_h gy gx : Z) l t r b :
  (l, t, r, b) ∈ grid_cell w h grid cell_w cell_h gy gx ->
  0 <= l /\ 0 <= t /\ r <= w /\ b <= h /\ 40 < r - l /\ 40 < b - t.
Proof.
  unfold grid_cell. intros Hin.
  match type of Hin with
  | _ ∈ (if ?c then _ else _) => destruct c eqn:Hc; [|by apply elem_of_nil in Hin]
  end.
  apply list_elem_of_singleton in Hin. injection Hin as -> -> -> ->.
  apply andb_true_iff in Hc as [H1 H2]. apply Z.ltb_lt in H1, H2. lia.
Qed.

Lemma grid_cell_length (w h grid cell_w cell_h gy gx : Z) :
  (length (grid_cell w h grid cell_w cell_h gy gx) <= 1)%nat.
Proof. unfold grid_cell. destruct (_ && _); simpl; lia. Qed.

Lemma flat_map_length_le {A B} (f : A -> list B) (k : nat) (l : list A) :
  (forall x, (length (f x) <= k)%nat) -> (length (flat_map f l) <= k * length l)%nat.
Proof.
  intros Hf. induction l as [|x l IH]; simpl; [lia|].
  rewrite length_app. specialize (Hf x). lia.
Qed.

Lemma range_Z_length n : length (range_Z n) = Z.to_nat n.
Proof. unfold range_Z. by rewrite length_map, length_seq. Qed.

Lemma grid_boxes_inside (w h grid : Z) l t r b :
  (l, t, r, b) ∈ _grid_boxes w h grid ->
  0 <= l /\ 0 <= t /\ r <= w /\ b <= h /\ 40 < r - l /\ 40 < b - t.
Proof.
  unfold _grid_boxes. rewrite list_elem_of_In, in_flat_map.
  intros (gy & _ & Hin). apply in_flat_map in Hin as (gx & _ & Hin).
  apply list_elem_of_In in Hin. by apply grid_cell_inside in Hin.
Qed.

Lemma grid_boxes_length (w h grid : Z) :
  (length (_grid_boxes w h grid) <= Z.to_nat grid * Z.to_nat grid)%nat.
Proof.
  unfold _grid_boxes.
  etrans; [apply (flat_map_length_le _ (Z.to_nat grid))|by rewrite range_Z_length].
  intros gy. etrans; [apply (flat_map_length_le _ 1)|rewrite range_Z_length; lia].
  intros gx. apply grid_cell_length.
Qed.

(** X19. The crops of the grid scan never leave the image. For a
    positive grid size, every box (l, t, r, b) of [_grid_boxes] lies
    inside the w by h image and is more than 40 pixels wide and high;
    there are at most grid times grid boxes, and none at all when the image
    is not more than 40 pixels wide or high. *)
Theorem grid_boxes_inside_the_image (w h grid : Z) :
  0 < grid ->
  (forall l t r b, (l, t, r, b) ∈ _grid_boxes w h grid ->
     0 <= l /\ 0 <= t /\ r <= w /\ b <= h /\ 40 < r - l /\ 40 < b - t)
  /\ (length (_grid_boxes w h grid) <= Z.to_nat grid * Z.to_nat grid)%nat
  /\ (w <= 40 \/ h <= 40 -> _grid_boxes w h grid = []).
Proof.
  intros _. split; [apply grid_boxes_inside|]. split; [apply grid_boxes_length|].
  intros Hsmall. destruct (_grid_boxes w h grid) as [|[[[l t] r] b] rest] eqn:E; [done|].
  assert (Hin : (l, t, r, b) ∈ _grid_boxes w h grid) by (rewrite E; by left).
  apply grid_boxes_inside in Hin. lia.
Qed.

Lemma grid_boxes_inside_the_image_witness :
  0 < 3
  /\ _grid_boxes 800 600 3
     = [(0, 0, 345, 260); (187, 0, 611, 260); (452, 0, 800, 260);
        (0, 140, 345, 460); (187, 140, 611, 460); (452, 140, 800, 460);
        (0, 340, 345, 600); (187, 340, 611, 600); (452, 340, 800, 600)]
  /\ (length (_grid_boxes 800 600 3) <= Z.to_nat 3 * Z.to_nat 3)%nat
  /\ _grid_boxes 800 40 3 = [].
Proof.
  split; [lia|]. split; [vm_compute; reflexivity|].
  destruct (grid_boxes_inside_the_image 800 600 3 ltac:(lia)) as (_ & Hlen & _).
  split; [exact Hlen|].
  apply (grid_boxes_inside_the_image 800 40 3); lia.
Defined.

(** ** Results of the decoder adapters *)

Lemma to_detected_fresh (results : list RawResult) :
  Forall fresh_detection (_to_detected results).
Proof.
  unfold _to_detected.
  assert (H : forall acc, Forall fresh_detection acc ->
                Forall fresh_detection (fold_left to_detected_step results acc)).
  { induction results as [|r rs IH]; intros acc Hacc; [done|]. simpl. apply IH.
    unfold to_detected_step. destruct (PyStr.nonempty _) eqn:E; [|done].
    apply Forall_app. split; [done|]. constructor; [|done].
    split; [|done]. simpl. intros Hv. by rewrite Hv in E. }
  apply H. constructor.
Qed.

Lemma map_results_loop_fresh ox oy inv (results : list RawResult) acc ds :
  map_results_loop ox oy inv results acc = Ok ds ->
  Forall fresh_detection acc -> Forall fresh_detection ds.
Proof.
  revert acc. induction results as [|r rs IH]; intros acc H Hacc; simpl in H.
  - by injection H as <-.
  - destruct (remap_loop ox oy inv (_extract_quad (position r)) []) as [q|e] eqn:Eq;
      [|discriminate].
    unfold mbind, exc_bind in H. eapply IH; [exact H|].
    destruct (PyStr.nonempty _) eqn:E; [|done].
    apply Forall_app. split; [done|]. constructor; [|done].
    split; [|done]. simpl. intros Hv. by rewrite Hv in E.
Qed.

Lemma tag_labelled label (ds : list DetectedBarcode) :
  Forall fresh_detection ds -> Forall (labelled label) (tag label ds).
Proof.
  intros H. destruct label as [l|]; simpl.
  - apply Forall_forall. intros d Hd.
    apply list_elem_of_In, in_map_iff in Hd as (d0 & <- & Hd0).
    rewrite Forall_forall in H. destruct (H d0) as [Hv _]; [by apply list_elem_of_In|].
    by split.
  - exact H.
Qed.

Section CascadeMore.

Variable Image : Type.
Variable size : Image -> Z * Z.
Variable rotate : Z -> Image -> Image.
Variable resize : Z * Z -> Image -> Exc Image.
Variable crop : Box -> Image -> Image.
Variable gray_autocontrast : Image -> Image.
Variable enhance_contrast : float -> Image -> Image.
Variable sharpen : Image -> Image.
Variable _read_barcodes_with_opts : Image -> option FormatMask -> Exc (list RawResult).
Variable _code128_focused : Image -> Exc (list DetectedBarcode).

Local Abbreviation stmt := (Stmt Image).
Local Abbreviation tier := (Tier Image).
Local Abbreviation TD := (TryDecode Image).
Local Abbreviation TDF := (TryDecodeFormats Image).
Local Abbreviation TDM := (TryDecodeWithMap Image).
Local Abbreviation outcome_of := (outcome Image _read_barcodes_with_opts _code128_focused).
Local Abbreviation attempt_ := (attempt Image _read_barcodes_with_opts _code128_focused).
Local Abbreviation seq_ := (seq Image).
Local Abbreviation skip_ := (skip Image).
Local Abbreviation try_pass_ := (try_pass Image).
Local Abbreviation when_ := (when Image).
Local Abbreviation returns_only_ := (returns_only Image).
Local Abbreviation schedule_ :=
  (schedule Image size rotate resize crop gray_autocontrast enhance_contrast sharpen
     _read_barcodes_with_opts).
Local Abbreviation detect :=
  (detect_barcodes Image size rotate resize crop gray_autocontrast enhance_contrast
     sharpen _read_barcodes_with_opts _code128_focused).
Local Abbreviation tiers_ :=
  (cascade_tiers Image size rotate resize crop gray_autocontrast enhance_contrast
     sharpen _read_barcodes_with_opts _code128_focused).

(** *** How many decoder calls *)

Lemma schedule_length img base (aggressive : bool) :
  (length (schedule_ img base aggressive) <= if aggressive then 32 else 12)%nat.
Proof.
  assert (Hpre : (length (precheck_schedule Image rotate _read_barcodes_with_opts base)
                  <= 3)%nat).
  { unfold precheck_schedule.
    destruct (_read_barcodes_with_opts base None) as [qs|e]; [|simpl; lia].
    destruct (existsb upright qs); simpl; lia. }
  assert (Hfast : (length (fast_path_schedule Image size rotate resize base) <= 4)%nat).
  { unfold fast_path_schedule. destruct (size base) as [w h].
    destruct (Z.max w h <? 1800); simpl; lia. }
  assert (Hvar : length (variants_schedule Image rotate gray_autocontrast
                           enhance_contrast sharpen base) = 7%nat) by done.
  assert (Hup : (length (upscale_schedule Image size resize aggressive base) <= 1)%nat).
  { unfold upscale_schedule. destruct (size base) as [w h].
    destruct (Z.max w h <? 1200); simpl; lia. }
  assert (Hgrid : (length (grid_schedule Image size resize crop img) <= 9)%nat).
  { unfold grid_schedule.
    pose proof (grid_boxes_length (fst (size img)) (snd (size img)) 3) as Hboxes.
    destruct (size img) as [W H]. rewrite length_map. exact Hboxes. }
  assert (Hupc : (length (upc_only_schedule Image size resize enhance_contrast sharpen
                            base) <= 3)%nat).
  { unfold upc_only_schedule. destruct (size base) as [w h]. cbv zeta.
    destruct (Z.max w h <? 2200); [|simpl; lia].
    destruct (scaled Image resize 2.2%float w h base); simpl; lia. }
  assert (Hdiff : (length (difficult_schedule Image size resize enhance_contrast sharpen
                             base) <= 3)%nat).
  { unfold difficult_schedule. destruct (size base) as [w h].
    destruct (Z.ltb_spec (Z.max w h) 2000), (Z.leb_spec 2000 (Z.max w h));
      simpl; lia. }
  assert (Hfinal : length (final_schedule Image size resize base) = 1%nat).
  { unfold final_schedule. by destruct (size base) as [w h]. }
  unfold schedule. rewrite !length_app. cbn [length].
  destruct aggressive; rewrite ?length_app; cbn [length]; lia.
Qed.

(** X20. The cost of a detection is bounded. Whatever the decoder
    returns or raises, [detect_barcodes] calls it at most 12 times in
    standard effort and at most 32 times in aggressive effort (the probe of
    the orientation pre-check and the Code128-focused fallback
    included). *)
Theorem cascade_makes_boundedly_many_calls img (max_side : option Z) (aggressive : bool) :
  (length (snd (detect_barcodes Image size rotate resize crop gray_autocontrast
                  enhance_contrast sharpen _read_barcodes_with_opts _code128_focused
                  img max_side aggressive))
   <= if aggressive then 32 else 12)%nat.
Proof.
  destruct (base_image Image size resize img max_side) as [base|e] eqn:Hbase.
  - rewrite (detect_is_search Image size rotate resize crop gray_autocontrast
               enhance_contrast sharpen _read_barcodes_with_opts _code128_focused
               img max_side aggressive base Hbase).
    etrans; [apply search_calls_length|apply schedule_length].
  - unfold detect_barcodes. rewrite Hbase. destruct aggressive; simpl; lia.
Qed.

(** X28. A cascade that finds nothing returns the empty list, provided
    nothing fails on the way: when the base image can be made and every
    step of the plan is quiet (no preparation fails, and every attempt
    yields the empty list), [detect_barcodes] makes all calls of the plan,
    in order, and returns the empty list without raising. *)
Theorem quiet_cascade_returns_empty img (max_side : option Z) (aggressive : bool) base :
  base_image Image size resize img max_side = Ok base ->
  Forall (quiet Image _read_barcodes_with_opts _code128_focused)
         (schedule_ img base aggressive) ->
  detect_barcodes Image size rotate resize crop gray_autocontrast enhance_contrast
    sharpen _read_barcodes_with_opts _code128_focused img max_side aggressive
  = (Ok [], calls_of Image (schedule_ img base aggressive)).
Proof.
  intros Hbase Hquiet.
  rewrite (detect_is_search Image size rotate resize crop gray_autocontrast
             enhance_contrast sharpen _read_barcodes_with_opts _code128_focused
             img max_side aggressive base Hbase).
  by apply search_quiet.
Qed.

(** *** What a tier returns *)

Lemma returns_only_skip Q : returns_only_ Q skip_.
Proof. intros log r log' H. discriminate H. Qed.

Lemma returns_only_bind_image Q (variant : Exc Image) (body : Image -> stmt) :
  (forall x, returns_only_ Q (body x)) ->
  returns_only_ Q (bind_image Image variant body).
Proof.
  intros Hb log r log' H. unfold bind_image in H.
  destruct variant as [x|e]; [|discriminate H]. by apply (Hb x log r log').
Qed.

Lemma returns_only_seq Q (s1 s2 : stmt) :
  returns_only_ Q s1 -> returns_only_ Q s2 -> returns_only_ Q (seq_ s1 s2).
Proof.
  intros H1 H2 log r log' H. unfold seq in H.
  destruct (s1 log) as [[|r1|e1] log1] eqn:E1.
  - by apply (H2 log1 r log').
  - injection H as <- <-. by apply (H1 log r1 log1).
  - discriminate H.
Qed.

Lemma returns_only_try_pass Q (s : stmt) :
  returns_only_ Q s -> returns_only_ Q (try_pass_ s).
Proof.
  intros Hs log r log' H. unfold try_pass in H.
  destruct (s log) as [[|r1|e1] log1] eqn:E1; try discriminate H.
  injection H as <- <-. by apply (Hs log r1 log1).
Qed.

Lemma returns_only_for_each {A} Q (xs : list A) (body : A -> stmt) :
  (forall x, returns_only_ Q (body x)) -> returns_only_ Q (for_each Image xs body).
Proof.
  intros Hb. induction xs as [|x xs IH]; simpl.
  - apply returns_only_skip.
  - by apply returns_only_seq.
Qed.

Lemma returns_only_when Q (c : bool) (s : stmt) :
  (c = true -> returns_only_ Q s) -> returns_only_ Q (when_ c s).
Proof. destruct c; simpl; [auto|intros _; apply returns_only_skip]. Qed.

Lemma returns_only_if Q (c : bool) (s1 s2 : stmt) :
  returns_only_ Q s1 -> returns_only_ Q s2 -> returns_only_ Q (if c then s1 else s2).
Proof. by destruct c. Qed.

Lemma returns_only_attempt Q a label :
  (forall ds, outcome_of a = Ok ds -> ds <> [] -> Q (tag label ds)) ->
  returns_only_ Q (attempt_ a label).
Proof.
  intros HQ log r log' H. unfold attempt in H.
  destruct (outcome_of a) as [[|d ds]|e] eqn:Ea; try discriminate H.
  injection H as <- <-. by apply HQ.
Qed.

Lemma outcome_fresh a ds :
  (forall i, a <> Code128Focused Image i) ->
  outcome_of a = Ok ds -> Forall fresh_detection ds.
Proof.
  intros Hnot H. destruct a as [i|i m|i [ox oy] s|i]; simpl in H.
  - unfold _try_decode in H. destruct (_read_barcodes_with_opts i None); [|discriminate].
    injection H as <-. apply to_detected_fresh.
  - unfold _try_decode_formats in H.
    destruct (_read_barcodes_with_opts i (Some m)); injection H as <-;
      [apply to_detected_fresh|constructor].
  - unfold _try_decode_with_map in H.
    destruct (_read_barcodes_with_opts i None); [|discriminate].
    eapply map_results_loop_fresh; [exact H|constructor].
  - by destruct (Hnot i).
Qed.

Local Abbreviation tier_result_ := (tier_result Image _code128_focused).

(** An attempt through the decoder adapters, under a label of the
    cascade. *)
Lemma returns_only_labelled (aggressive : bool) a label :
  (forall i, a <> Code128Focused Image i) ->
  label ∈ cascade_labels aggressive ->
  returns_only_ (tier_result_ aggressive) (attempt_ a label).
Proof.
  intros Hnot Hlabel. apply returns_only_attempt. intros ds Hout _.
  right. exists label. split; [done|]. by apply tag_labelled, (outcome_fresh a).
Qed.

Lemma precheck_loop_returns (aggressive : bool) base (quick_scan : list RawResult) :
  returns_only_ (tier_result_ aggressive)
    (precheck_loop Image rotate _read_barcodes_with_opts _code128_focused base quick_scan).
Proof.
  induction quick_scan as [|q qs IH]; simpl; [apply returns_only_skip|].
  destruct (position q) as [pos|]; [|exact IH].
  destruct (is_vertical pos); [|exact IH].
  unfold vertical_rotations. simpl.
  apply returns_only_seq; [|apply returns_only_seq; [|apply returns_only_skip]];
    apply returns_only_try_pass, returns_only_labelled; try done;
    unfold cascade_labels; rewrite !elem_of_app, !elem_of_cons; tauto.
Qed.

Lemma tiers_return_tier_results img base (aggressive : bool) :
  returns_only_ (tier_result_ aggressive) (tiers_ img base aggressive).
Proof.
  assert (Hnone : None ∈ cascade_labels aggressive) by (by left).
  assert (Hlab : forall a label, (forall i, a <> Code128Focused Image i) ->
            label ∈ cascade_labels aggressive ->
            returns_only_ (tier_result_ aggressive) (attempt_ a label))
    by (intros; by apply returns_only_labelled).
  unfold cascade_tiers.
  apply returns_only_seq; [|apply returns_only_seq; [|apply returns_only_seq;
    [|apply returns_only_seq; [|apply returns_only_seq; [|apply returns_only_seq;
      [|apply returns_only_seq]]]]]].
  - (* the orientation pre-check *)
    unfold precheck. apply returns_only_try_pass. intros log r log' H.
    destruct (_read_barcodes_with_opts base None) as [quick_scan|e]; [|discriminate H].
    by apply (precheck_loop_returns aggressive base quick_scan
                (logged Image log (QuickScan Image base)) r log').
  - (* the aggressive fast path *)
    apply returns_only_when. intros ->. unfold aggressive_fast_path.
    apply returns_only_seq.
    + apply returns_only_for_each. intros a. by apply Hlab.
    + destruct (size base) as [w h]. apply returns_only_if; [|apply returns_only_skip].
      apply returns_only_bind_image. intros x. by apply Hlab.
  - (* the base variants *)
    apply returns_only_for_each. intros v. by apply Hlab.
  - (* the upscale fallback *)
    unfold upscale_fallback. destruct (size base) as [w h].
    apply returns_only_if; [|apply returns_only_skip].
    apply returns_only_bind_image. intros x. by apply Hlab.
  - (* the grid *)
    apply returns_only_when. intros ->. unfold grid_fallback.
    destruct (size img) as [W H]. apply returns_only_for_each.
    intros [[[l t] r] b]. destruct (size (crop (l, t, r, b) img)) as [cw ch].
    apply returns_only_if; [apply returns_only_if|]; try (by apply Hlab).
    + intros log r0 log' H0. discriminate H0.
    + apply returns_only_bind_image. intros x. by apply Hlab.
  - (* the linear pass *)
    unfold linear_fast_pass. apply returns_only_try_pass. by apply Hlab.
  - (* the labelled passes *)
    apply returns_only_when. intros ->. apply returns_only_seq.
    + unfold upc_only_passes. apply returns_only_try_pass.
      destruct (size base) as [w h].
      apply returns_only_seq; [|apply returns_only_seq; [apply returns_only_if|]];
        try apply returns_only_skip; try (apply returns_only_bind_image; intros x);
        apply Hlab; try done;
        unfold cascade_labels; rewrite !elem_of_app, !elem_of_cons; tauto.
    + unfold difficult_passes. destruct (size base) as [w h].
      apply returns_only_seq; [|apply returns_only_seq;
        [|apply returns_only_seq; apply returns_only_if]];
        try apply returns_only_skip; try (apply returns_only_bind_image; intros x);
        apply Hlab; try done;
        unfold cascade_labels; rewrite !elem_of_app, !elem_of_cons; tauto.
  - (* the Code128-focused fallback *)
    apply returns_only_when. intros ->. unfold final_fallback.
    destruct (size base) as [w h]. apply returns_only_bind_image. intros x.
    apply returns_only_attempt. intros ds Hout _.
    left. split; [done|]. simpl in Hout. eauto.
Qed.

Lemma cascade_labels_and_difficulty_aux img (max_side : option Z) (aggressive : bool) res :
  fst (detect img max_side aggressive) = Ok res ->
  tier_result_ aggressive res
  /\ (forall label, label ∈ cascade_labels false -> flagged_difficult label = false)
  /\ (forall label, label ∈ cascade_labels true ->
        flagged_difficult label = true <-> label ∉ cascade_labels false).
Proof.
  intros Hres. split.
  - unfold detect_barcodes in Hres.
    destruct (base_image Image size resize img max_side) as [base|e]; [|discriminate Hres].
    unfold cascade, seq in Hres.
    pose proof (tiers_return_tier_results img base aggressive []) as Hret.
    destruct (tiers_ img base aggressive []) as [[|r|e] log]; simpl in Hres.
    + injection Hres as <-. right. exists None. split; [by left|constructor].
    + injection Hres as <-. by apply (Hret r log).
    + discriminate Hres.
  - split.
    + intros label Hl. unfold cascade_labels in Hl. simpl in Hl.
      rewrite !elem_of_cons in Hl.
      destruct Hl as [->|[->|[->|Hl]]]; [reflexivity..|by apply elem_of_nil in Hl].
    + intros label Hl. unfold cascade_labels in *. simpl in *.
      rewrite !elem_of_cons in *.
      repeat (destruct Hl as [->|Hl];
              [split; [intros Hf; try discriminate Hf; intros [H|[H|[H|H]]];
                         first [discriminate H|by apply elem_of_nil in H]
                      |intros Hn; first [reflexivity|exfalso; apply Hn; tauto]]|]).
      by apply elem_of_nil in Hl.
Qed.

(** X21. What [detect_barcodes] leaves in [detection_method]. Unless a
    result is the list of the Code128-focused fallback, handed on as it
    is (aggressive effort only), every detection returned has a non-empty
    value and all detections of the result carry the same detection
    method: none, one of the two labels of the orientation pre-check or,
    in aggressive effort, the label of one of the seven labelled passes.
    Of these the difficulty test of the row builder flags exactly the
    seven labels of aggressive effort, so nothing detected in standard
    effort, by the pre-check, the plain variants, the grid or the linear
    pass is ever flagged. *)
Theorem cascade_labels_and_difficulty img (max_side : option Z) (aggressive : bool) res :
  fst (detect img max_side aggressive) = Ok res ->
  tier_result_ aggressive res
  /\ (forall label, label ∈ cascade_labels false -> flagged_difficult label = false)
  /\ (forall label, label ∈ cascade_labels true ->
        flagged_difficult label = true <-> label ∉ cascade_labels false).
Proof. apply cascade_labels_and_difficulty_aux. Qed.

End CascadeMore.

Lemma quiet_cascade_returns_empty_witness :
  detect_on_pics blind_stub Source None true
  = (Ok [], calls_of Pic (schedule_on_pics blind_stub Source Source true))
  /\ length (calls_of Pic (schedule_on_pics blind_stub Source Source true)) = 30%nat.
Proof.
  split; [|vm_compute; reflexivity].
  apply (quiet_cascade_returns_empty Pic pic_size Rotated pic_resize Cropped
           GrayAutocontrast Contrast Sharpened blind_stub no_code128 Source None true
           Source).
  - reflexivity.
  - vm_compute. repeat constructor.
Defined.

Lemma cascade_labels_and_difficulty_witness :
  fst (detect_on_pics upright_stub Source None false)
  = Ok [mkDetected "EAN-13" "4006381333931" [] (Some "upc-vertical-rotated--90")]
  /\ tier_result Pic no_code128 false
       [mkDetected "EAN-13" "4006381333931" [] (Some "upc-vertical-rotated--90")]
  /\ flagged_difficult (Some "upc-vertical-rotated--90") = false.
Proof.
  split; [vm_compute; reflexivity|].
  destruct (cascade_labels_and_difficulty Pic pic_size Rotated pic_resize Cropped
              GrayAutocontrast Contrast Sharpened upright_stub no_code128 Source None false
              [mkDetected "EAN-13" "4006381333931" [] (Some "upc-vertical-rotated--90")])
    as (Hres & Hstd & _); [vm_compute; reflexivity|].
  split; [exact Hres|]. apply Hstd. unfold cascade_labels. simpl.
  rewrite !elem_of_cons. tauto.
Defined.

(** ** Unified detection *)

Lemma unified_inv_init aggressive : unified_inv aggressive [] (mkUnified ∅ []).
Proof.
  split; simpl.
  - intros v. split; [set_solver|]. intros H. by apply elem_of_nil in H.
  - constructor.
  - intros d H. by apply elem_of_nil in H.
  - intros d H. by apply elem_of_nil in H.
  - intros d H. by apply elem_of_nil in H.
Qed.

Lemma unified_step_inv aggressive l st b :
  unified_inv aggressive l st ->
  unified_inv aggressive (l ++ [b]) (unified_step aggressive st b).
Proof.
  intros [Hf Hnd Hall Hm Ho]. unfold unified_step.
  destruct (bool_decide (barcode_value b ∈ found_values st)) eqn:E.
  - apply bool_decide_eq_true in E. split; try done.
    + intros d0 Hd0. apply elem_of_app in Hd0 as [Hd0|Hd0]; [by apply Hall|].
      apply list_elem_of_singleton in Hd0. subst d0. by apply Hf.
    + intros d Hd. destruct (Ho d Hd) as (d0 & Hd0 & Hrest).
      exists d0. split; [|done]. apply elem_of_app. by left.
  - apply bool_decide_eq_false in E.
    set (b' := if negb (truthy (detection_method b))
               then set_detection_method
                      (if aggressive then "zxing-cpp (aggressive)" else "zxing-cpp") b
               else b).
    assert (Hv : barcode_value b' = barcode_value b)
      by (unfold b'; by destruct (negb _)).
    assert (Hb' : barcode_type b' = barcode_type b /\ quad b' = quad b
                  /\ truthy (detection_method b') = true
                  /\ detection_method b'
                     = (if truthy (detection_method b) then detection_method b
                        else Some (default_method aggressive))).
    { unfold b', default_method. destruct (truthy (detection_method b)) eqn:Et; simpl.
      - done.
      - repeat split. by destruct aggressive. }
    destruct Hb' as (Hty & Hq & Htr & Hme).
    split; cbv zeta; fold b'; simpl.
    + intros v. rewrite List.map_app, elem_of_app, elem_of_union, Hf. simpl.
      rewrite list_elem_of_singleton, elem_of_singleton, Hv. done.
    + rewrite List.map_app. apply NoDup_app. repeat split; [done| |apply NoDup_singleton].
      intros v Hin Hin'. simpl in Hin'. apply list_elem_of_singleton in Hin'. subst v.
      rewrite Hv in Hin. apply E. by apply Hf.
    + intros d0 Hd0. rewrite List.map_app, elem_of_app.
      apply elem_of_app in Hd0 as [Hd0|Hd0]; [left; by apply Hall|].
      apply list_elem_of_singleton in Hd0. subst d0. right. simpl. rewrite Hv. by left.
    + intros d Hd. apply elem_of_app in Hd as [Hd|Hd]; [by apply Hm|].
      apply list_elem_of_singleton in Hd. by subst d.
    + intros d Hd. apply elem_of_app in Hd as [Hd|Hd].
      * destruct (Ho d Hd) as (d0 & Hd0 & Hrest). exists d0. split; [|done].
        apply elem_of_app. by left.
      * apply list_elem_of_singleton in Hd. subst d. exists b.
        split; [apply elem_of_app; right; by left|done].
Qed.

Lemma unified_fold_inv aggressive l :
  unified_inv aggressive l (fold_left (unified_step aggressive) l (mkUnified ∅ [])).
Proof.
  induction l as [|b l IH] using rev_ind; [apply unified_inv_init|].
  rewrite fold_left_app. simpl. by apply unified_step_inv.
Qed.

(** A list without repeated values in which every detection has a
    detection method goes through the loop unchanged. *)
Lemma unified_results_fixed aggressive (l : list DetectedBarcode) :
  NoDup (List.map barcode_value l) ->
  (forall d, d ∈ l -> truthy (detection_method d) = true) ->
  unified_results aggressive l = l.
Proof.
  unfold unified_results.
  induction l as [|b l IH] using rev_ind; intros Hnd Hm; [done|].
  rewrite fold_left_app. simpl fold_left.
  assert (IH' : results (fold_left (unified_step aggressive) l (mkUnified ∅ [])) = l).
  { apply IH.
    - rewrite List.map_app in Hnd. by apply NoDup_app in Hnd as (? & _ & _).
    - intros d Hd. apply Hm, elem_of_app. by left. }
  pose proof (unified_fold_inv aggressive l) as Hinv.
  set (st := fold_left (unified_step aggressive) l (mkUnified ∅ [])) in *.
  unfold unified_step. rewrite bool_decide_eq_false_2.
  - rewrite (Hm b) by (apply elem_of_app; right; by left). simpl. by rewrite IH'.
  - rewrite (uinv_found _ _ _ Hinv), IH'. rewrite List.map_app in Hnd.
    apply NoDup_app in Hnd as (_ & Hd & _). intros Hin. apply (Hd _ Hin). by left.
Qed.

Lemma flagged_difficult_falsy (m : option string) :
  truthy m = false -> flagged_difficult m = false.
Proof. destruct m as [[|c s]|]; simpl; try done. Qed.

Lemma flagged_difficult_default aggressive :
  flagged_difficult (Some (default_method aggressive)) = false.
Proof. by destruct aggressive. Qed.

(** X22. The de-duplication of [detect_barcodes_unified]. Of the
    primary detector's results it keeps, in order, the first detection of
    every value, whatever its type, so no value occurs twice and none is
    lost; every detection is returned with type, value and quad as
    detected and with a non-empty detection method: its own, or the
    default "zxing-cpp (aggressive)" or "zxing-cpp" when it had none. The
    default never changes what the difficulty test of the row builder
    says, and the loop is idempotent. *)
Theorem unified_results_first_per_value (aggressive : bool) (zxing_results : list DetectedBarcode) :
  let out := unified_results aggressive zxing_results in
  NoDup (List.map barcode_value out)
  /\ (forall d0, d0 ∈ zxing_results -> barcode_value d0 ∈ List.map barcode_value out)
  /\ (forall d, d ∈ out ->
        truthy (detection_method d) = true
        /\ exists d0, d0 ∈ zxing_results
             /\ barcode_type d = barcode_type d0 /\ barcode_value d = barcode_value d0
             /\ quad d = quad d0
             /\ detection_method d
                = (if truthy (detection_method d0) then detection_method d0
                   else Some (default_method aggressive))
             /\ flagged_difficult (detection_method d)
                = flagged_difficult (detection_method d0))
  /\ unified_results aggressive out = out.
Proof.
  intros out. unfold out, unified_results.
  destruct (unified_fold_inv aggressive zxing_results) as [Hf Hnd Hall Hm Ho].
  split; [exact Hnd|]. split; [exact Hall|]. split.
  - intros d Hd. split; [by apply Hm|].
    destruct (Ho d Hd) as (d0 & Hd0 & Hty & Hv & Hq & Hme).
    exists d0. repeat split; try done. rewrite Hme.
    destruct (truthy (detection_method d0)) eqn:Et; [done|].
    by rewrite flagged_difficult_default, flagged_difficult_falsy.
  - by apply unified_results_fixed.
Qed.

Section UnifiedFacts.

Variable Image : Type.
Variable size : Image -> Z * Z.
Variable rotate : Z -> Image -> Image.
Variable resize : Z * Z -> Image -> Exc Image.
Variable crop : Box -> Image -> Image.
Variable gray_autocontrast : Image -> Image.
Variable enhance_contrast : float -> Image -> Image.
Variable sharpen : Image -> Image.
Variable _read_barcodes_with_opts : Image -> option FormatMask -> Exc (list RawResult).
Variable _code128_focused : Image -> Exc (list DetectedBarcode).

Local Abbreviation detect :=
  (detect_barcodes Image size rotate resize crop gray_autocontrast enhance_contrast
     sharpen _read_barcodes_with_opts _code128_focused).
Local Abbreviation unified :=
  (detect_barcodes_unified Image size rotate resize crop gray_autocontrast
     enhance_contrast sharpen _read_barcodes_with_opts _code128_focused).
Local Abbreviation best :=
  (detect_barcodes_best Image size rotate resize crop gray_autocontrast
     enhance_contrast sharpen _read_barcodes_with_opts _code128_focused).

(** X23. [detect_barcodes_unified] has no second detector. It raises
    exactly what [barcode_parser.detect_barcodes] raises and finds
    something exactly when that finds something; the flag [try_fallback]
    changes nothing, and [detect_barcodes_best] is the same function. In
    standard effort nothing it returns is flagged by the difficulty test
    of the row builder, provided the Code128-focused fallback is not
    involved (it is not in standard effort). *)
Theorem unified_detection_is_the_primary_detector img (max_side : option Z)
  (aggressive try_fallback : bool) :
  unified img max_side aggressive try_fallback
  = match fst (detect img max_side aggressive) with
    | Ok zxing_results => Ok (unified_results aggressive zxing_results)
    | Raise e => Raise e
    end
  /\ (unified img max_side aggressive try_fallback = Ok []
      <-> fst (detect img max_side aggressive) = Ok [])
  /\ unified img max_side aggressive true = unified img max_side aggressive false
  /\ best img max_side aggressive = unified img max_side aggressive try_fallback
  /\ (forall out, unified img max_side false try_fallback = Ok out ->
        Forall (fun d => flagged_difficult (detection_method d) = false) out).
Proof.
  split; [reflexivity|]. split; [|split; [reflexivity|split; [reflexivity|]]].
  - unfold detect_barcodes_unified, mbind, exc_bind.
    destruct (fst (detect img max_side aggressive)) as [l|e]; [|done].
    split.
    + intros H. injection H as H. f_equal.
      destruct l as [|d l]; [done|]. exfalso.
      destruct (unified_fold_inv aggressive (d :: l)) as [_ _ Hall _ _].
      specialize (Hall d ltac:(left)). unfold unified_results in H. rewrite H in Hall.
      by apply elem_of_nil in Hall.
    + by intros [= ->].
  - intros out Hout. unfold detect_barcodes_unified, mbind, exc_bind in Hout.
    destruct (fst (detect img max_side false)) as [l|e] eqn:El; [|discriminate].
    injection Hout as <-.
    destruct (cascade_labels_and_difficulty_aux Image size rotate resize crop
                gray_autocontrast enhance_contrast sharpen _read_barcodes_with_opts
                _code128_focused img max_side false l El) as (Hres & Hstd & _).
    destruct Hres as [[Hfalse _]|(label & Hlabel & Hl)]; [discriminate|].
    apply Forall_forall. intros d Hd.
    destruct (unified_fold_inv false l) as [_ _ _ _ Ho].
    destruct (Ho d Hd) as (d0 & Hd0 & _ & _ & _ & Hme). rewrite Hme.
    destruct (truthy (detection_method d0)) eqn:Et; [|reflexivity].
    rewrite Forall_forall in Hl. destruct (Hl d0 Hd0) as [_ ->]. by apply Hstd.
Qed.

End UnifiedFacts.

(** ** GS1 element strings *)

Lemma ai_match_here_spec (s : string) ai n :
  ai_match_here s = Some (ai, n) ->
  n = (String.length ai + 2)%nat /\ (2 <= String.length ai <= 4)%nat
  /\ (n <= String.length s)%nat.
Proof.
  destruct s as [|c r]; [done|]. unfold ai_match_here.
  destruct (_ && _) eqn:E; [|done]. intros [= <- <-].
  repeat (apply andb_true_iff in E as [E ?]).
  repeat match goal with H : (_ <=? _)%nat = true |- _ => apply Nat.leb_le in H end.
  split; [done|]. split; [lia|].
  match goal with H : PyStr.startswith _ _ = true |- _ =>
    apply startswith_inv in H; apply (f_equal String.length) in H;
    rewrite drop_length, str_length_app in H; simpl in H end.
  simpl. lia.
Qed.

Lemma ai_search_from_spec (s : string) offset ai ms e :
  ai_search_from s offset = Some (ai, ms, e) ->
  (offset <= ms)%nat /\ (ms + 4 <= e)%nat /\ (e <= offset + String.length s)%nat.
Proof.
  revert offset. induction s as [|c r IH]; intros offset H.
  - done.
  - destruct (ai_match_here (String c r)) as [[ai' n]|] eqn:Em;
      cbn [ai_search_from] in H; rewrite Em in H.
    + assert (ai' = ai /\ offset = ms /\ (offset + n)%nat = e) as (-> & -> & <-)
        by (by injection H).
      apply ai_match_here_spec in Em. lia.
    + apply IH in H. cbn [String.length]. lia.
Qed.

Lemma AI_PATTERN_search_spec (data : string) pos ai ms e :
  AI_PATTERN_search data pos = Some (ai, ms, e) ->
  (pos <= ms)%nat /\ (ms + 4 <= e)%nat /\ (e <= String.length data)%nat.
Proof.
  unfold AI_PATTERN_search. intros H. apply ai_search_from_spec in H.
  rewrite drop_length in H.
  destruct (Nat.le_gt_cases pos (String.length data)); [lia|].
  exfalso. lia.
Qed.

Lemma parse_loop_step (data : string) fuel pos result :
  parse_loop (S fuel) data pos result
  = match AI_PATTERN_search data pos with
    | None => Some result
    | Some (ai, _, start) =>
        match fixed_length_get ai FIXED_LENGTH with
        | Some length =>
            let val := substring_between start (start + length) data in
            parse_loop fuel data (start + length) (<[ai := val]> result)
        | None =>
            let next_m := AI_PATTERN_search data start in
            let stop :=
              match next_m with
              | Some (_, next_start, _) => next_start
              | None => String.length data
              end in
            let val := substring_between start stop data in
            parse_loop fuel data (start + String.length val) (<[ai := val]> result)
        end
    end.
Proof. reflexivity. Qed.

(** The loop finishes: it never needs more iterations than there are
    characters from [pos] on, plus one. *)
Lemma parse_loop_finishes (data : string) fuel pos result :
  (String.length data + 1 - pos <= fuel)%nat -> (1 <= fuel)%nat ->
  is_Some (parse_loop fuel data pos result).
Proof.
  revert pos result. induction fuel as [|fuel IH]; intros pos result Hf H1; [lia|].
  rewrite parse_loop_step.
  destruct (AI_PATTERN_search data pos) as [[[ai ms] e]|] eqn:Es; [|by eexists].
  apply AI_PATTERN_search_spec in Es.
  destruct (fixed_length_get ai FIXED_LENGTH) as [len|]; cbv zeta; apply IH; lia.
Qed.

Lemma ai_search_paren_free (s : string) offset :
  paren_free s = true -> ai_search_from s offset = None.
Proof.
  revert offset. induction s as [|c r IH]; intros offset H; [done|].
  unfold paren_free in H. simpl in H. apply andb_true_iff in H as [Hc Hr].
  apply negb_true_iff in Hc. cbn [ai_search_from ai_match_here]. rewrite Hc.
  cbn [andb]. by apply IH.
Qed.

Lemma paren_free_drop n (s : string) : paren_free s = true -> paren_free (PyStr.drop n s) = true.
Proof. apply all_chars_drop. Qed.

Lemma substring_between_length a b (data : string) :
  (String.length (substring_between a b data) <= b - a)%nat.
Proof.
  unfold substring_between, PyStr.slice, PyStr.clamp, PyStr.len.
  destruct (Z.ltb_spec (Z.of_nat a) 0); [lia|]. destruct (Z.ltb_spec (Z.of_nat b) 0); [lia|].
  rewrite take_length. lia.
Qed.

Lemma fixed_length_get_01 ai len :
  fixed_length_get ai FIXED_LENGTH = Some len -> ai = "01" -> len = 14%nat.
Proof. intros H ->. by injection H as <-. Qed.

Lemma parse_loop_gtin_short (data : string) fuel pos result r :
  parse_loop fuel data pos result = Some r ->
  gtin_entry_short result -> gtin_entry_short r.
Proof.
  revert pos result. induction fuel as [|fuel IH]; intros pos result H Hres; [done|].
  rewrite parse_loop_step in H.
  destruct (AI_PATTERN_search data pos) as [[[ai ms] e]|]; [|by injection H as <-].
  destruct (fixed_length_get ai FIXED_LENGTH) as [len|] eqn:Ef.
  - cbv zeta in H. apply IH in H; [done|]. intros g Hg.
    destruct (String.eqb_spec ai "01") as [->|Hne].
    + rewrite lookup_insert_eq in Hg. injection Hg as <-.
      injection Ef as <-. etrans; [apply substring_between_length|lia].
    + rewrite lookup_insert_ne in Hg by done. by apply Hres.
  - cbv zeta in H. apply IH in H; [done|]. intros g Hg.
    destruct (String.eqb_spec ai "01") as [->|Hne]; [discriminate Ef|].
    rewrite lookup_insert_ne in Hg by done. by apply Hres.
Qed.

Lemma extract_gtin_paren_free (data : string) :
  paren_free data = true ->
  extract_gtin data
  = if PyStr.startswith "01" data && (16 <=? PyStr.len data)
    then Some (PyStr.slice (Some 2) (Some 16) data) else None.
Proof.
  intros Hp. unfold extract_gtin, parse_gs1.
  destruct data as [|c s] eqn:Ed; [done|]. rewrite <- Ed in *.
  assert (Hne : PyStr.nonempty data = true) by (by rewrite Ed).
  rewrite Hne. simpl negb. cbv iota.
  assert (Hloop : parse_loop (S (String.length data)) data 0 ∅ = Some ∅).
  { rewrite parse_loop_step. unfold AI_PATTERN_search. cbn [PyStr.drop].
    by rewrite ai_search_paren_free. }
  rewrite Hloop. simpl default. rewrite bool_decide_eq_true_2 by done. cbn [andb].
  destruct (PyStr.startswith "01" data && (16 <=? PyStr.len data)); [|done].
  cbv zeta. destruct (PyStr.startswith "10" _).
  - rewrite lookup_insert_ne by done. by rewrite lookup_insert_eq.
  - by rewrite lookup_insert_eq.
Qed.

Lemma extract_gtin_short (data g : string) :
  extract_gtin data = Some g -> (String.length g <= 14)%nat.
Proof.
  unfold extract_gtin, parse_gs1.
  destruct (PyStr.nonempty data); simpl negb; cbv iota; [|done].
  destruct (parse_loop_finishes data (S (String.length data)) 0 ∅) as [r Hr]; [lia..|].
  rewrite Hr. simpl default.
  assert (Hshort : gtin_entry_short r).
  { eapply parse_loop_gtin_short; [exact Hr|]. intros g' Hg'. done. }
  destruct (bool_decide (r = ∅) && _ && _) eqn:E; [|apply Hshort].
  cbv zeta.
  assert (H14 : (String.length (PyStr.slice (Some 2%Z) (Some 16%Z) data) <= 14)%nat).
  { apply (substring_between_length 2%nat 16%nat data). }
  destruct (PyStr.startswith "10" _).
  - rewrite lookup_insert_ne by done. rewrite lookup_insert_eq. by intros [= <-].
  - rewrite lookup_insert_eq. by intros [= <-].
Qed.

Lemma startswith_same_char c (s : string) :
  PyStr.startswith (String c EmptyString) (String c s) = true.
Proof.
  unfold PyStr.startswith. rewrite prefix_cons.
  destruct (ascii_dec c c); [by destruct s|done].
Qed.

Lemma ai_search_from_here (s : string) offset ai n :
  ai_match_here s = Some (ai, n) ->
  ai_search_from s offset = Some (ai, offset, (offset + n)%nat).
Proof. intros H. destruct s; cbn [ai_search_from]; by rewrite H. Qed.

Lemma ai_match_here_01 (s : string) :
  ai_match_here ("(01)" ++ s) = Some ("01", 4%nat).
Proof.
  rewrite !str_app_cons, str_app_nil_l. cbn [ai_match_here leading_digits].
  change (PyStr.isdigit_char "0") with true. change (PyStr.isdigit_char "1") with true.
  change (PyStr.isdigit_char ")") with false. cbv iota. cbn [String.length PyStr.drop].
  change (Ascii.eqb "(" "(") with true. cbn [Nat.leb andb].
  by rewrite startswith_same_char.
Qed.

Lemma extract_gtin_after_ai_01 (g rest : string) :
  String.length g = 14%nat -> paren_free rest = true ->
  extract_gtin ("(01)" ++ g ++ rest) = Some g.
Proof.
  intros Hg Hrest. unfold extract_gtin, parse_gs1.
  set (data := "(01)" ++ g ++ rest).
  assert (Hlen : String.length data = (18 + String.length rest)%nat).
  { unfold data. rewrite !str_length_app, Hg. simpl. lia. }
  assert (Hne : PyStr.nonempty data = true) by (apply nonempty_length; lia).
  rewrite Hne. simpl negb. cbv iota.
  assert (Hm : AI_PATTERN_search data 0 = Some ("01", 0%nat, 4%nat)).
  { unfold AI_PATTERN_search, data. cbn [PyStr.drop].
    apply (ai_search_from_here _ 0), ai_match_here_01. }
  assert (Hval : substring_between 4 (4 + 14) data = g).
  { unfold substring_between. rewrite slice_inside by lia.
    replace (4 + 14 - 4)%nat with (String.length g) by lia.
    unfold data. rewrite !str_app_cons, str_app_nil_l. cbn [PyStr.drop].
    apply take_app_exact. }
  assert (Hend : AI_PATTERN_search data (4 + 14) = None).
  { unfold AI_PATTERN_search.
    assert (Hd : PyStr.drop (4 + 14) data = rest).
    { replace (4 + 14)%nat with (String.length ("(01)" ++ g))
        by (rewrite str_length_app, Hg; reflexivity).
      unfold data. rewrite <- str_app_assoc. apply drop_app_exact. }
    rewrite Hd. by apply ai_search_paren_free. }
  assert (Hloop : parse_loop (S (String.length data)) data 0 ∅
                  = Some (<["01" := g]> ∅)).
  { rewrite parse_loop_step, Hm.
    change (fixed_length_get "01" FIXED_LENGTH) with (Some 14%nat). cbv beta iota zeta.
    rewrite Hval, Hlen. change (18 + String.length rest)%nat with (S (17 + String.length rest)).
    by rewrite parse_loop_step, Hend. }
  rewrite Hloop. simpl default.
  rewrite bool_decide_eq_false_2 by apply insert_non_empty. cbn [andb].
  apply lookup_insert_eq.
Qed.

(** X24. [extract_gtin] on GS1 element strings. The parsing loop always
    finishes (it never exhausts one iteration per character). On a text
    without an opening parenthesis the GTIN is characters 3 to 16 of a
    text that begins with "01" and has at least 16 characters, and
    nothing otherwise (nothing for the empty text). After the element
    "(01)" the GTIN is the next fourteen characters, whatever they are.
    A GTIN that is found never has more than fourteen characters. *)
Theorem extract_gtin_of_element_strings :
  (forall data, is_Some (parse_loop (S (String.length data)) data 0 ∅))
  /\ extract_gtin EmptyString = None
  /\ (forall data, paren_free data = true ->
        extract_gtin data
        = if PyStr.startswith "01" data && (16 <=? PyStr.len data)
          then Some (PyStr.slice (Some 2) (Some 16) data) else None)
  /\ (forall g rest, String.length g = 14%nat -> paren_free rest = true ->
        extract_gtin ("(01)" ++ g ++ rest) = Some g)
  /\ (forall data g, extract_gtin data = Some g -> (String.length g <= 14)%nat).
Proof.
  split; [intros data; apply parse_loop_finishes; lia|].
  split; [reflexivity|].
  split; [apply extract_gtin_paren_free|].
  split; [apply extract_gtin_after_ai_01|apply extract_gtin_short].
Qed.

Lemma extract_gtin_of_element_strings_witness :
  extract_gtin "(01)09501101530003" = Some "09501101530003"
  /\ extract_gtin "0109501101530003" = Some "09501101530003"
  /\ extract_gtin "09501101530003" = None.
Proof.
  destruct extract_gtin_of_element_strings as (_ & _ & Hfree & Helement & _).
  split; [|split].
  - apply (Helement "09501101530003" EmptyString); reflexivity.
  - rewrite Hfree; reflexivity.
  - rewrite Hfree; reflexivity.
Defined.

(** ** Display value of DataBar rows *)

Lemma take_leading_digits n (v : string) :
  (n <= String.length (leading_digits v))%nat ->
  PyStr.take n (leading_digits v) = PyStr.take n v.
Proof.
  revert n. induction v as [|c r IH]; intros n Hn; [done|].
  cbn [leading_digits] in *. destruct (PyStr.isdigit_char c).
  - destruct n as [|n]; [done|]. cbn [PyStr.take String.length] in *.
    rewrite IH; [done|lia].
  - cbn [String.length] in Hn. by replace n with 0%nat by lia.
Qed.

Lemma paren_free_not_element_string (v : string) :
  paren_free v = true -> PyStr.startswith "(" v = false.
Proof.
  destruct v as [|c r]; [done|]. unfold paren_free. cbn [PyStr.all_chars].
  intros H. apply andb_true_iff in H as [H _]. apply negb_true_iff in H.
  unfold PyStr.startswith. rewrite prefix_cons.
  destruct (ascii_dec "(" c) as [<-|]; [done|done].
Qed.

Lemma databar_gtin_length (v : string) :
  (PyStr.startswith "01" v && (16 <=? PyStr.len v)) || (14 <=? PyStr.len v) = true ->
  String.length (databar_gtin v) = 14%nat.
Proof.
  unfold databar_gtin, PyStr.len. intros H.
  destruct (PyStr.startswith "01" v && (16 <=? Z.of_nat (String.length v))) eqn:E.
  - apply andb_true_iff in E as [_ E]. apply Z.leb_le in E.
    change (Some 2) with (Some (Z.of_nat 2)). change (Some 16) with (Some (Z.of_nat 16)).
    rewrite slice_inside by lia. rewrite take_length, drop_length. lia.
  - cbn [orb] in H. apply Z.leb_le in H.
    change (Some 14) with (Some (Z.of_nat 14)). rewrite slice_prefix, take_length. lia.
Qed.

Lemma leading_digits_length (v : string) :
  (String.length (leading_digits v) <= String.length v)%nat.
Proof.
  induction v as [|c r IH]; [done|]. cbn [leading_digits].
  destruct (PyStr.isdigit_char c); cbn [String.length]; lia.
Qed.

(** X25. The value shown for a DataBar read that has no opening
    parenthesis, with the GS1 parser in place. When the read begins with
    "01" and has at least sixteen characters, the row shows "01" followed
    by the fourteen characters after that "01"; when it does not, but
    begins with at least fourteen digits, the row shows "01" followed by
    its first fourteen characters; those fourteen characters are the GTIN
    of the row. Otherwise the read is shown as it is and there is no
    GTIN. When the read consists of digits only, the fourteen characters
    shown are the ones whose check digit [_validate_databar_checksum]
    tests. *)
Theorem databar_display_value (b : DetectedBarcode) :
  is_databar_type (barcode_type b) = true ->
  paren_free (barcode_value b) = true ->
  let v := barcode_value b in
  let shown := (PyStr.startswith "01" v && (16 <=? PyStr.len v))
               || (14 <=? PyStr.len (leading_digits v)) in
  _display_value_for extract_gtin b
  = (if shown then ("01" ++ databar_gtin v, Some (databar_gtin v)) else (v, None))
  /\ (shown = true -> String.length (databar_gtin v) = 14%nat)
  /\ (shown = true -> PyStr.all_chars PyStr.isdigit_char v = true ->
      _validate_databar_checksum v = gtin_check_ok (databar_gtin v)).
Proof.
  intros Ht Hp v shown.
  assert (Hlong : shown = true -> 14 <= PyStr.len v).
  { unfold shown. intros H.
    apply orb_true_iff in H as [H|H].
    - apply andb_true_iff in H as [_ H]. apply Z.leb_le in H. lia.
    - apply Z.leb_le in H. pose proof (leading_digits_length v).
      unfold PyStr.len in *. lia. }
  assert (Hlen : shown = true -> String.length (databar_gtin v) = 14%nat).
  { intros H. apply databar_gtin_length. apply orb_true_iff. right.
    apply Z.leb_le. by apply Hlong. }
  split; [|split; [exact Hlen|]].
  2:{ intros Hs Hdig. rewrite validate_databar_checksum_digits.
      rewrite (digits_only_of_digits v Hdig).
      assert (Hl : (14 <=? PyStr.len v) = true) by (apply Z.leb_le; by apply Hlong).
      by rewrite Hl. }
  unfold _display_value_for, _is_gs1_databar. unfold is_databar_type in Ht.
  rewrite Ht. cbv zeta. fold v.
  rewrite (paren_free_not_element_string v Hp), (extract_gtin_paren_free v Hp).
  assert (Hok : forall g : string, String.length g = 14%nat ->
                  PyStr.nonempty g && (PyStr.len g =? 14) = true).
  { intros g Hg. apply andb_true_iff. split; [apply nonempty_length; lia|].
    apply Z.eqb_eq. unfold PyStr.len. lia. }
  destruct (PyStr.startswith "01" v && (16 <=? PyStr.len v)) eqn:E1.
  - assert (Hs : shown = true) by (unfold shown; rewrite ?E1; done).
    rewrite Hs. specialize (Hlen Hs).
    assert (Hg : PyStr.slice (Some 2) (Some 16) v = databar_gtin v)
      by (unfold databar_gtin; by rewrite E1).
    rewrite Hg. cbn [truthy]. rewrite (proj2 (nonempty_length _)) by lia.
    cbn [negb]. by rewrite Hok.
  - cbn [truthy negb]. unfold shown in *. rewrite ?E1 in *. cbn [orb] in *.
    assert (Hg : PyStr.slice None (Some 14) v = databar_gtin v)
      by (unfold databar_gtin; by rewrite E1).
    unfold DIGITS_ONLY_match. cbv zeta.
    destruct (14 <=? PyStr.len (leading_digits v)) eqn:E2.
    + assert (Hge : 14 <= PyStr.len (leading_digits v)) by (by apply Z.leb_le).
      unfold PyStr.len in Hge.
      rewrite (proj2 (nonempty_length _)) by lia.
      assert (Hm : PyStr.slice None (Some 14) (leading_digits v) = databar_gtin v).
      { rewrite <- Hg. change (Some 14) with (Some (Z.of_nat 14)).
        rewrite !slice_prefix. apply take_leading_digits. lia. }
      rewrite Hm, ?E2. rewrite Hok; [done|]. by apply Hlen.
    + destruct (PyStr.nonempty (leading_digits v)); by rewrite ?E2.
Qed.

Lemma databar_display_value_witness :
  _display_value_for extract_gtin
    (mkDetected "GS1 DataBar" "09501101530003" [] None)
  = ("0109501101530003", Some "09501101530003")
  /\ _display_value_for extract_gtin
       (mkDetected "DataBarExpanded" "0109501101530003392200599" [] None)
     = ("0109501101530003", Some "09501101530003")
  /\ _display_value_for extract_gtin
       (mkDetected "DataBar" "LOT 7" [] None)
     = ("LOT 7", None)
  /\ _validate_databar_checksum "0109501101530003392200599"
     = gtin_check_ok "09501101530003".
Proof.
  split; [|split; [|split]].
  - apply (databar_display_value (mkDetected "GS1 DataBar" "09501101530003" [] None));
      reflexivity.
  - apply (databar_display_value
             (mkDetected "DataBarExpanded" "0109501101530003392200599" [] None));
      reflexivity.
  - apply (databar_display_value (mkDetected "DataBar" "LOT 7" [] None)); reflexivity.
  - apply (databar_display_value
             (mkDetected "DataBarExpanded" "0109501101530003392200599" [] None));
      reflexivity.
Defined.

(** ** Names of products *)

Lemma rstrip_idempotent (s : string) : PyText.rstrip (PyText.rstrip s) = PyText.rstrip s.
Proof.
  induction s as [|c r IH]; [done|]. cbn [PyText.rstrip]. cbv zeta.
  destruct (PyText.isspace_char c && negb (PyStr.nonempty (PyText.rstrip r))) eqn:E; [done|].
  cbn [PyText.rstrip]. cbv zeta. by rewrite IH, E.
Qed.

Lemma lstrip_head (s : string) :
  match PyText.lstrip s with
  | String c _ => PyText.isspace_char c = false
  | EmptyString => True
  end.
Proof.
  induction s as [|c r IH]; [done|]. cbn [PyText.lstrip].
  by destruct (PyText.isspace_char c) eqn:E; [|rewrite E].
Qed.

Lemma lstrip_rstrip_lstrip (s : string) :
  PyText.lstrip (PyText.rstrip (PyText.lstrip s)) = PyText.rstrip (PyText.lstrip s).
Proof.
  pose proof (lstrip_head s) as H. destruct (PyText.lstrip s) as [|c r]; [done|].
  cbn [PyText.rstrip]. cbv zeta. rewrite H. cbn [andb PyText.lstrip]. by rewrite H.
Qed.

Lemma strip_idempotent (s : string) : PyText.strip (PyText.strip s) = PyText.strip s.
Proof. unfold PyText.strip. by rewrite lstrip_rstrip_lstrip, rstrip_idempotent. Qed.

Lemma existsb_false_elem {A} (p : A -> bool) (l : list A) x :
  existsb p l = false -> x ∈ l -> p x = false.
Proof.
  induction l as [|y l IH]; intros H Hx; [by apply elem_of_nil in Hx|].
  cbn [existsb] in H. apply orb_false_iff in H as [H1 H2].
  apply elem_of_cons in Hx as [-> |Hx]; [done|by apply IH].
Qed.

Lemma validate_name_accepted_aux (candidate : option string) (barcode_value n : string) :
  _validate_name candidate barcode_value = Some n ->
  (exists c, candidate = Some c /\ n = PyText.strip c)
  /\ n <> EmptyString
  /\ n <> barcode_value
  /\ 4 <= PyStr.len (letters_of n)
  /\ (forall term, term ∈ BAD_TERMS -> PyStr.contains term (PyText.lower n) = false)
  /\ _validate_name (Some n) barcode_value = Some n.
Proof.
  intros H. unfold _validate_name in H. destruct candidate as [cand|]; [|done].
  destruct (negb (PyStr.nonempty cand)) eqn:E0; [done|]. cbv zeta in H.
  remember (PyText.strip cand) as c eqn:Hc.
  destruct (negb (PyStr.nonempty c)) eqn:E1; [done|].
  destruct (existsb _ BAD_TERMS) eqn:E2; [done|].
  destruct (String.eqb c barcode_value || _) eqn:E3; [done|].
  destruct (PyStr.len (letters_of c) <? 4) eqn:E4; [done|].
  destruct (negb (PyStr.nonempty (PyStr.filter_chars PyText.isalnum_char c))) eqn:E5; [done|].
  destruct (PyFloat.lt _ 0.65%float) eqn:E6; [done|].
  destruct (PyFloat.lt _ 3%float) eqn:E7; [done|].
  destruct (_ && PyText.isupper c) eqn:E8; [done|].
  assert (n = c) as -> by congruence. clear H.
  assert (Hs : PyText.strip c = c) by (subst c; apply strip_idempotent).
  split; [by exists cand|].
  split; [by intros ->|].
  split.
  { intros ->. apply orb_false_iff in E3 as [E3 _]. by rewrite String.eqb_refl in E3. }
  split; [by apply Z.ltb_ge in E4|].
  split; [intros term Ht; apply (existsb_false_elem _ _ term E2 Ht)|].
  unfold _validate_name. rewrite E1. cbv zeta. rewrite Hs.
  by rewrite E1, E2, E3, E4, E5, E6, E7, E8.
Qed.

(** X26. A name that [_validate_name] accepts is the candidate without
    the whitespace around it; it is not empty, it is not the barcode
    value, it has at least four letters, and its lowercase form contains
    none of the terms "upc", "ean", "isbn", "barcode", "lookup", "search",
    "generator", "validator", "database". Validating an accepted name
    again accepts it unchanged. *)
Theorem validate_name_accepts_clean_names
  (candidate : option string) (barcode_value n : string) :
  _validate_name candidate barcode_value = Some n ->
  (exists c, candidate = Some c /\ n = PyText.strip c)
  /\ n <> EmptyString
  /\ n <> barcode_value
  /\ 4 <= PyStr.len (letters_of n)
  /\ (forall term, term ∈ BAD_TERMS -> PyStr.contains term (PyText.lower n) = false)
  /\ _validate_name (Some n) barcode_value = Some n.
Proof. apply validate_name_accepted_aux. Qed.

Lemma validate_name_accepts_clean_names_witness :
  _validate_name (Some "  Organic Bananas ") "036000291452" = Some "Organic Bananas"
  /\ _validate_name (Some "Organic Bananas") "036000291452" = Some "Organic Bananas".
Proof.
  assert (H : _validate_name (Some "  Organic Bananas ") "036000291452"
              = Some "Organic Bananas") by (vm_compute; reflexivity).
  split; [exact H|].
  apply (validate_name_accepts_clean_names _ _ _ H).
Defined.

Section NameFacts.

Variable Image : Type.
Variable ocr_upcean_digit_band : Image -> list (list Point) -> option string.
Variable ocr_upcean_numeric : Image -> list (list Point) -> option string.
Variable ocr_bold_name : Image -> list Point -> option string.
Variable ocr_item_name : Image -> list Point -> option string.
Variable deep_lookup_product_name :
  string -> option string -> option string -> option string -> option string.
Variable duckduckgo_lookup : string -> option string.
Variable lookup_product_name : string -> option string.

Local Abbreviation checked_rows :=
  (process_image_to_rows Image ocr_upcean_digit_band ocr_upcean_numeric ocr_bold_name
     ocr_item_name deep_lookup_product_name duckduckgo_lookup lookup_product_name
     extract_gtin _validate_name).
Local Abbreviation checked_row :=
  (row_for Image ocr_bold_name ocr_item_name deep_lookup_product_name duckduckgo_lookup
     lookup_product_name extract_gtin _validate_name).

Lemma row_for_name image opts b :
  exists candidate,
    RowDraft.item_name (checked_row image opts b)
    = _validate_name candidate (barcode_value b).
Proof.
  unfold row_for. destruct (_display_value_for extract_gtin b). eexists. reflexivity.
Qed.

(** X27. With [_validate_name] and the GS1 parser in place, the item name
    of every row that has one is free of surrounding whitespace, has at
    least four letters and contains none of the rejected terms; and in a
    row that is not of a DataBar type it differs from the barcode value
    of the row. *)
Theorem row_names_are_validated image barcodes opts row n :
  row ∈ checked_rows image barcodes opts ->
  RowDraft.item_name row = Some n ->
  PyText.strip n = n
  /\ 4 <= PyStr.len (letters_of n)
  /\ (forall term, term ∈ BAD_TERMS -> PyStr.contains term (PyText.lower n) = false)
  /\ (is_databar_type (RowDraft.barcode_type row) = false ->
      n <> RowDraft.barcode_value row).
Proof.
  intros Hrow Hn. unfold process_image_to_rows in Hrow.
  apply list_elem_of_fmap in Hrow as (b & -> & _).
  destruct (row_for_name image opts b) as [candidate Hc]. rewrite Hc in Hn.
  apply validate_name_accepted_aux in Hn
    as ((c & _ & Hstrip) & _ & Hne & Hlen & Hbad & _).
  split; [rewrite Hstrip; apply strip_idempotent|].
  split; [exact Hlen|]. split; [exact Hbad|].
  rewrite row_for_type. intros Hd. by rewrite row_for_value_plain.
Qed.

End NameFacts.

Lemma row_names_are_validated_witness :
  process_image_to_rows unit no_ocr_band no_ocr_band no_ocr_name no_ocr_name
    no_deep_lookup lookup_one_product no_lookup extract_gtin _validate_name tt
    [mkDetected "UPC-A" "036000291452" quad_A None] free_lookup_options
  = [RowDraft.mk "UPC-A" "036000291452" (Some "Kleenex Tissues") None]
  /\ PyText.strip "Kleenex Tissues" = "Kleenex Tissues"
  /\ 4 <= PyStr.len (letters_of "Kleenex Tissues")
  /\ (forall term, term ∈ BAD_TERMS ->
        PyStr.contains term (PyText.lower "Kleenex Tissues") = false)
  /\ (is_databar_type "UPC-A" = false -> "Kleenex Tissues" <> "036000291452").
Proof.
  assert (H : process_image_to_rows unit no_ocr_band no_ocr_band no_ocr_name no_ocr_name
                no_deep_lookup lookup_one_product no_lookup extract_gtin _validate_name tt
                [mkDetected "UPC-A" "036000291452" quad_A None] free_lookup_options
              = [RowDraft.mk "UPC-A" "036000291452" (Some "Kleenex Tissues") None])
    by (vm_compute; reflexivity).
  split; [exact H|].
  apply (row_names_are_validated unit no_ocr_band no_ocr_band no_ocr_name no_ocr_name
           no_deep_lookup lookup_one_product no_lookup tt
           [mkDetected "UPC-A" "036000291452" quad_A None] free_lookup_options
           (RowDraft.mk "UPC-A" "036000291452" (Some "Kleenex Tissues") None)
           "Kleenex Tissues").
  - rewrite H. apply list_elem_of_singleton. reflexivity.
  - reflexivity.
Defined.
